(** * cli-progressor: progress tracking and rendering engine

    A shallow embedding of [main.mjs] (classes [StandardProgressCalculator],
    [ProgressTracker], [Spinner], [ConsoleProgressRenderer],
    [SilentProgressRenderer], [MultiProgressRenderer], [ProgressBar],
    [ProgressBarBuilder], [MultiProgressManager] and [CLIProgressHelper]) and
    the properties of its specification.

    Conventions of the embedding.
    - A JavaScript number is an exact rational ([Q]): rounding to binary64,
      overflow, NaN and infinite arguments are outside the model.
      [Math.round] is [floor (x + 1/2)], [Math.min] is [Qmin].  A division
      whose divisor is zero (the only way the arithmetic below can leave the
      finite numbers) raises the flag [div0] of the world, so "no NaN, no
      Infinity" is the statement that the flag stays down.
    - [performance.now()] and [Date.now()] read an oracle: the n-th reading
      of the process is [performance_clock env n].  The counter [tick] of the
      world says how many readings were taken.
    - The objects of one progress bar (tracker, calculator, renderer, the
      bar's own fields) live in one record, the [World]; a method is a
      function from worlds to a result and a world.
    - What the process shows to the outside (terminal writes, console lines,
      observer calls) is appended to the [trace] of the world.  Observers are
      opaque: calling one is an event of the trace, and an observer does not
      call back into the tracker.
    - The 100 ms interval of an indeterminate bar is a flag of the bar
      ([updateInterval]); one firing of it is [interval_tick].  The signal
      handlers of the process manager and the layout of a rendered line are
      not modelled.
    - The bars of a [MultiProgressManager] are objects of their own: a
      method of one of them runs with that bar loaded into the world and
      stores the bar back under its id. *)

From Stdlib Require Import QArith Qround Qminmax ZArith List String Ascii Bool Lia Lqa.
Import ListNotations.
Local Open Scope Q_scope.

(** ** JavaScript numbers *)

Module JS.
Definition lt (a b : Q) : bool := negb (Qle_bool b a).
Definition le (a b : Q) : bool := Qle_bool a b.
Definition gt (a b : Q) : bool := lt b a.
Definition ge (a b : Q) : bool := le b a.
(** [a === b] on numbers *)
Definition eq (a b : Q) : bool := Qeq_bool a b.
Definition of_nat (n : nat) : Q := inject_Z (Z.of_nat n).
(** [a % b === 0]: for [b = 0] the remainder is NaN and the test fails *)
Definition rem_is_zero (a b : Q) : bool :=
  if Qeq_bool b 0 then false
  else Qeq_bool (a / b) (inject_Z (Qfloor (a / b))).
(** [a % b] for [b] other than zero: the quotient is truncated towards zero,
    so the remainder has the sign of [a] *)
Definition trunc (x : Q) : Z := if Qle_bool 0 x then Qfloor x else Qceiling x.
Definition rem (a b : Q) : Q := a - b * inject_Z (trunc (a / b)).
End JS.

Module Math.
Definition round (x : Q) : Q := inject_Z (Qfloor (x + (1 # 2))).
Definition min (a b : Q) : Q := Qmin a b.
Definition ceil (x : Q) : Q := inject_Z (Qceiling x).
Definition floor (x : Q) : Q := inject_Z (Qfloor x).
End Math.

(** ** Data model *)

(** the state strings ["idle"], ["active"], ["completed"], ["stopped"] *)
Inductive State := idle | active | completed | stopped.

Definition State_eqb (a b : State) : bool :=
  match a, b with
  | idle, idle | active, active | completed, completed | stopped, stopped => true
  | _, _ => false
  end.

(** the object returned by [getProgress] *)
Record ProgressData := {
  current : Q;
  total : Q;
  percentage : Q;
  elapsed : Q;
  eta : Q;
  speed : Q;
  isComplete : bool;
  isIndeterminate : bool;
  description : string;
  state : State
}.

(** An observer is a reference ([ref] stands for the identity of the object)
    together with what the code asks of it: is it a function, does it have
    an [onProgress] / [onStateChange] method, and does a call raise.
    [BarStateHook] is the arrow function that the [ProgressBar] constructor
    registers on its tracker. *)
Inductive Observer :=
| Callback (ref : nat) (throws : bool)
| Listener (ref : nat) (hasOnProgress hasOnStateChange throws : bool)
| BarStateHook.

Definition Observer_eq_dec (a b : Observer) : {a = b} + {a <> b}.
Proof. repeat decide equality. Defined.
Arguments Observer_eq_dec : simpl never.

(** a JavaScript [Set] of observers: insertion order, no duplicates *)
Module JSSet.
Definition t := list Observer.
Definition empty : t := [].
Definition has (x : Observer) (s : t) : bool :=
  if in_dec Observer_eq_dec x s then true else false.
Definition add (x : Observer) (s : t) : t :=
  if has x s then s else s ++ [x].
Definition delete (x : Observer) (s : t) : bool * t :=
  (has x s, remove Observer_eq_dec x s).
End JSSet.

Record Calculator := {
  speedHistory : list Q;
  maxHistorySize : nat
}.

Record Tracker := {
  trk_total : Q;
  trk_current : Q;
  trk_description : string;
  startTime : Q;
  lastUpdateTime : Q;
  calculator : Calculator;
  observers : JSSet.t;
  trk_state : State;
  stateObservers : JSSet.t
}.

(** the configuration object of [ConsoleProgressRenderer] *)
Record Config := {
  barLength : Q;
  filledChar : string;
  emptyChar : string;
  showETA : bool;
  showSpeed : bool;
  showPercentage : bool;
  precision : Q;
  useColors : bool;
  template : option string;
  updateThrottle : Q;
  testMode : bool
}.

Record Spinner := {
  frames : list string;
  spin_current : nat
}.

Record ConsoleRenderer := {
  config : Config;
  lastLineLength : nat;
  spinner : option Spinner;
  lastRenderTime : Q;
  hasRenderedCompletion : bool
}.

Record SilentRenderer := {
  progressHistory : list (ProgressData * Q);   (* snapshot, timestamp *)
  lastProgress : option ProgressData
}.

Inductive Renderer :=
| Console (r : ConsoleRenderer)
| Silent (r : SilentRenderer).

Record Bar := {
  bar_state : State;
  updateInterval : bool;       (* the 100 ms interval is armed *)
  cleanupFn : bool             (* a cleanup task is registered *)
}.

(** what the process does to the outside *)
Inductive Event :=
| StdoutWrite (s : string)
| ConsoleLog (s : string)
| ConsoleError (s : string)
| Notify (o : Observer) (p : ProgressData)
| NotifyState (o : Observer) (newState oldState : State).

Record Env := {
  performance_clock : nat -> Q;   (* readings of performance.now() *)
  date_clock : nat -> Q;          (* readings of Date.now() *)
  isTTY : bool;                   (* process.stdout.isTTY *)
  CI_true : bool;                 (* process.env.CI === "true" *)
  FORCE_COLOR_0 : bool;           (* process.env.FORCE_COLOR === "0" *)
  stdout_columns : Q;             (* process.stdout.columns || 80 *)
  (** the text of a determinate line: bar glyphs, percentage, counts, speed
      and ETA as formatted by [render]; its layout is not modelled *)
  bar_line : Config -> ProgressData -> string;
  (** [template.replace(...)] of [renderTemplate] *)
  template_text : string -> ProgressData -> string
}.

Record World := {
  env : Env;
  tick : nat;
  trace : list Event;
  div0 : bool;
  tracker : Tracker;
  renderer : Renderer;
  bar : Bar;
  cleanupTasks : nat             (* size of processManager.cleanupTasks *)
}.

(** ** Field updates *)

Definition set_tick (n : nat) (w : World) : World :=
  {| env := env w; tick := n; trace := trace w; div0 := div0 w; tracker := tracker w;
     renderer := renderer w; bar := bar w; cleanupTasks := cleanupTasks w |}.
Definition set_trace (t : list Event) (w : World) : World :=
  {| env := env w; tick := tick w; trace := t; div0 := div0 w; tracker := tracker w;
     renderer := renderer w; bar := bar w; cleanupTasks := cleanupTasks w |}.
Definition set_div0 (b : bool) (w : World) : World :=
  {| env := env w; tick := tick w; trace := trace w; div0 := b; tracker := tracker w;
     renderer := renderer w; bar := bar w; cleanupTasks := cleanupTasks w |}.
Definition set_tracker (t : Tracker) (w : World) : World :=
  {| env := env w; tick := tick w; trace := trace w; div0 := div0 w; tracker := t;
     renderer := renderer w; bar := bar w; cleanupTasks := cleanupTasks w |}.
Definition set_renderer (r : Renderer) (w : World) : World :=
  {| env := env w; tick := tick w; trace := trace w; div0 := div0 w; tracker := tracker w;
     renderer := r; bar := bar w; cleanupTasks := cleanupTasks w |}.
Definition set_bar (b : Bar) (w : World) : World :=
  {| env := env w; tick := tick w; trace := trace w; div0 := div0 w; tracker := tracker w;
     renderer := renderer w; bar := b; cleanupTasks := cleanupTasks w |}.
Definition set_cleanupTasks (n : nat) (w : World) : World :=
  {| env := env w; tick := tick w; trace := trace w; div0 := div0 w; tracker := tracker w;
     renderer := renderer w; bar := bar w; cleanupTasks := n |}.

Definition set_trk_total (x : Q) (t : Tracker) : Tracker :=
  {| trk_total := x; trk_current := trk_current t;
     trk_description := trk_description t; startTime := startTime t;
     lastUpdateTime := lastUpdateTime t; calculator := calculator t;
     observers := observers t; trk_state := trk_state t;
     stateObservers := stateObservers t |}.
Definition set_trk_current (x : Q) (t : Tracker) : Tracker :=
  {| trk_total := trk_total t; trk_current := x;
     trk_description := trk_description t; startTime := startTime t;
     lastUpdateTime := lastUpdateTime t; calculator := calculator t;
     observers := observers t; trk_state := trk_state t;
     stateObservers := stateObservers t |}.
Definition set_startTime (x : Q) (t : Tracker) : Tracker :=
  {| trk_total := trk_total t; trk_current := trk_current t;
     trk_description := trk_description t; startTime := x;
     lastUpdateTime := lastUpdateTime t; calculator := calculator t;
     observers := observers t; trk_state := trk_state t;
     stateObservers := stateObservers t |}.
Definition set_lastUpdateTime (x : Q) (t : Tracker) : Tracker :=
  {| trk_total := trk_total t; trk_current := trk_current t;
     trk_description := trk_description t; startTime := startTime t;
     lastUpdateTime := x; calculator := calculator t;
     observers := observers t; trk_state := trk_state t;
     stateObservers := stateObservers t |}.
Definition set_calculator (c : Calculator) (t : Tracker) : Tracker :=
  {| trk_total := trk_total t; trk_current := trk_current t;
     trk_description := trk_description t; startTime := startTime t;
     lastUpdateTime := lastUpdateTime t; calculator := c;
     observers := observers t; trk_state := trk_state t;
     stateObservers := stateObservers t |}.
Definition set_observers (s : JSSet.t) (t : Tracker) : Tracker :=
  {| trk_total := trk_total t; trk_current := trk_current t;
     trk_description := trk_description t; startTime := startTime t;
     lastUpdateTime := lastUpdateTime t; calculator := calculator t;
     observers := s; trk_state := trk_state t;
     stateObservers := stateObservers t |}.
Definition set_trk_state (s : State) (t : Tracker) : Tracker :=
  {| trk_total := trk_total t; trk_current := trk_current t;
     trk_description := trk_description t; startTime := startTime t;
     lastUpdateTime := lastUpdateTime t; calculator := calculator t;
     observers := observers t; trk_state := s;
     stateObservers := stateObservers t |}.
Definition set_stateObservers (s : JSSet.t) (t : Tracker) : Tracker :=
  {| trk_total := trk_total t; trk_current := trk_current t;
     trk_description := trk_description t; startTime := startTime t;
     lastUpdateTime := lastUpdateTime t; calculator := calculator t;
     observers := observers t; trk_state := trk_state t;
     stateObservers := s |}.
Definition set_speedHistory (h : list Q) (c : Calculator) : Calculator :=
  {| speedHistory := h; maxHistorySize := maxHistorySize c |}.

Definition set_bar_state (s : State) (b : Bar) : Bar :=
  {| bar_state := s; updateInterval := updateInterval b; cleanupFn := cleanupFn b |}.
Definition set_updateInterval (x : bool) (b : Bar) : Bar :=
  {| bar_state := bar_state b; updateInterval := x; cleanupFn := cleanupFn b |}.
Definition set_cleanupFn (x : bool) (b : Bar) : Bar :=
  {| bar_state := bar_state b; updateInterval := updateInterval b; cleanupFn := x |}.

Definition set_lastLineLength (n : nat) (r : ConsoleRenderer) : ConsoleRenderer :=
  {| config := config r; lastLineLength := n; spinner := spinner r;
     lastRenderTime := lastRenderTime r;
     hasRenderedCompletion := hasRenderedCompletion r |}.
Definition set_spinner (s : option Spinner) (r : ConsoleRenderer) : ConsoleRenderer :=
  {| config := config r; lastLineLength := lastLineLength r; spinner := s;
     lastRenderTime := lastRenderTime r;
     hasRenderedCompletion := hasRenderedCompletion r |}.
Definition set_lastRenderTime (x : Q) (r : ConsoleRenderer) : ConsoleRenderer :=
  {| config := config r; lastLineLength := lastLineLength r; spinner := spinner r;
     lastRenderTime := x;
     hasRenderedCompletion := hasRenderedCompletion r |}.
Definition set_hasRenderedCompletion (b : bool) (r : ConsoleRenderer) : ConsoleRenderer :=
  {| config := config r; lastLineLength := lastLineLength r; spinner := spinner r;
     lastRenderTime := lastRenderTime r;
     hasRenderedCompletion := b |}.

(** ** The state monad of methods *)

Definition M (A : Type) : Type := World -> A * World.

Definition ret {A} (a : A) : M A := fun w => (a, w).
Definition bind {A B} (m : M A) (k : A -> M B) : M B :=
  fun w => let (a, w') := m w in k a w'.

Declare Scope method_scope.
Delimit Scope method_scope with method.
Notation "x <- m ;; k" := (bind m (fun x => k))
  (at level 61, m at next level, right associativity) : method_scope.
Notation "m ;; k" := (bind m (fun _ => k))
  (at level 61, right associativity) : method_scope.
Local Open Scope method_scope.

Definition get {A} (f : World -> A) : M A := fun w => (f w, w).
Definition modify (f : World -> World) : M unit := fun w => (tt, f w).
Definition emit (e : Event) : M unit :=
  modify (fun w => set_trace (trace w ++ [e]) w).
Definition modify_tracker (f : Tracker -> Tracker) : M unit :=
  modify (fun w => set_tracker (f (tracker w)) w).
Definition modify_bar (f : Bar -> Bar) : M unit :=
  modify (fun w => set_bar (f (bar w)) w).
Definition when (b : bool) (m : M unit) : M unit :=
  if b then m else ret tt.

(** [forEach] over an array or a [Set] *)
Fixpoint forEach {A} (l : list A) (f : A -> M unit) : M unit :=
  match l with
  | [] => ret tt
  | x :: l' => f x ;; forEach l' f
  end.

(** [a / b]; a zero divisor raises [div0] *)
Definition div (a b : Q) : M Q :=
  fun w => (a / b, if Qeq_bool b 0 then set_div0 true w else w).

Definition performance_now : M Q :=
  fun w => (performance_clock (env w) (tick w), set_tick (S (tick w)) w).
Definition Date_now : M Q :=
  fun w => (date_clock (env w) (tick w), set_tick (S (tick w)) w).

(** ** Terminal and colours *)

Definition ESC : string := String (ascii_of_nat 27) EmptyString.
Definition CR : string := String (ascii_of_nat 13) EmptyString.
Definition LF : string := String (ascii_of_nat 10) EmptyString.

Module TerminalUtils.
Definition isInteractive : M bool :=
  get (fun w => isTTY (env w) && negb (CI_true (env w))).
Definition supportsColor : M bool :=
  get (fun w => isTTY (env w) && negb (FORCE_COLOR_0 (env w))).
Definition clearLine : M unit :=
  i <- isInteractive ;; when i (emit (StdoutWrite (ESC ++ "[2K" ++ CR))).
Definition hideCursor : M unit :=
  i <- isInteractive ;; when i (emit (StdoutWrite (ESC ++ "[?25l"))).
Definition showCursor : M unit :=
  i <- isInteractive ;; when i (emit (StdoutWrite (ESC ++ "[?25h"))).
End TerminalUtils.

Module Colors.
Inductive color := reset | bright | dim_ | red | green | yellow | blue
                 | magenta | cyan | white.
Definition codes (c : color) : string :=
  match c with
  | reset => ESC ++ "[0m" | bright => ESC ++ "[1m" | dim_ => ESC ++ "[2m"
  | red => ESC ++ "[31m" | green => ESC ++ "[32m" | yellow => ESC ++ "[33m"
  | blue => ESC ++ "[34m" | magenta => ESC ++ "[35m" | cyan => ESC ++ "[36m"
  | white => ESC ++ "[37m"
  end%string.
Definition colorize (text : string) (c : color) : M string :=
  s <- TerminalUtils.supportsColor ;;
  ret (if s then codes c ++ text ++ codes reset else text)%string.
Definition success (text : string) := colorize text green.
Definition error (text : string) := colorize text red.
Definition warning (text : string) := colorize text yellow.
Definition info (text : string) := colorize text cyan.
Definition dim (text : string) := colorize text dim_.
End Colors.

(** ** StandardProgressCalculator *)

(** the object literal returned by [calculate] *)
Record CalculatedData := {
  cd_current : Q;
  cd_total : Q;
  cd_percentage : Q;
  cd_elapsed : Q;
  cd_eta : Q;
  cd_speed : Q;
  cd_isComplete : bool;
  cd_isIndeterminate : bool
}.

Module StandardProgressCalculator.
Definition new : Calculator :=
  {| speedHistory := []; maxHistorySize := 10 |}.

Definition history : M (list Q) :=
  get (fun w => speedHistory (calculator (tracker w))).
Definition set_history (h : list Q) : M unit :=
  modify_tracker (fun t => set_calculator (set_speedHistory h (calculator t)) t).

Definition calculateSpeed (current elapsed : Q) : M Q :=
  if JS.le elapsed 0 then ret 0
  else
    currentSpeed <- div current elapsed ;;
    (* this.speedHistory.push(currentSpeed) *)
    h <- history ;;
    set_history (h ++ [currentSpeed]) ;;
    h <- history ;;
    max <- get (fun w => maxHistorySize (calculator (tracker w))) ;;
    (* this.speedHistory.shift() *)
    when (Nat.ltb max (List.length h)) (set_history (tl h)) ;;
    h <- history ;;
    div (fold_left (fun a b => a + b) h 0) (JS.of_nat (List.length h)).

Definition calculate (current total startTime lastUpdate : Q)
  : M CalculatedData :=
  now <- performance_now ;;
  elapsed <- div (now - startTime) 1000 ;;
  percentage <-
    (if JS.gt total 0
     then q <- div current total ;; div (Math.round (q * 100 * 100)) 100
     else ret 0) ;;
  speed <- calculateSpeed current elapsed ;;
  eta <-
    (if JS.gt current 0 && JS.lt current total && JS.gt speed 0
     then div (total - current) speed
     else ret 0) ;;
  ret {| cd_current := current;
         cd_total := total;
         cd_percentage := percentage;
         cd_elapsed := elapsed;
         cd_eta := eta;
         cd_speed := speed;
         cd_isComplete := JS.ge current total;
         cd_isIndeterminate := JS.le total 0 |}.
End StandardProgressCalculator.

(** ** ProgressTracker *)

(** the arrow functions returned by [addObserver] and [addStateObserver] *)
Inductive Handle :=
| DeleteObserver (o : Observer)
| DeleteStateObserver (o : Observer).

Module ProgressTracker.
Definition this {A} (f : Tracker -> A) : M A := get (fun w => f (tracker w)).

(** [new ProgressTracker(total, description)] *)
Definition new (total : Q) (description : string) : M unit :=
  now <- performance_now ;;
  modify (set_tracker
    {| trk_total := total;
       trk_current := 0;
       trk_description := description;
       startTime := now;
       lastUpdateTime := now;
       calculator := StandardProgressCalculator.new;
       observers := JSSet.empty;
       trk_state := idle;
       stateObservers := JSSet.empty |}).

Definition addObserver (observer : Observer) : M Handle :=
  modify_tracker (fun t => set_observers (JSSet.add observer (observers t)) t) ;;
  ret (DeleteObserver observer).

Definition removeObserver (observer : Observer) : M bool :=
  s <- this observers ;;
  modify_tracker (set_observers (snd (JSSet.delete observer s))) ;;
  ret (fst (JSSet.delete observer s)).

Definition addStateObserver (observer : Observer) : M Handle :=
  modify_tracker
    (fun t => set_stateObservers (JSSet.add observer (stateObservers t)) t) ;;
  ret (DeleteStateObserver observer).

Definition removeStateObserver (observer : Observer) : M bool :=
  s <- this stateObservers ;;
  modify_tracker (set_stateObservers (snd (JSSet.delete observer s))) ;;
  ret (fst (JSSet.delete observer s)).

(** calling a handle *)
Definition call (h : Handle) : M bool :=
  match h with
  | DeleteObserver o => removeObserver o
  | DeleteStateObserver o => removeStateObserver o
  end.

(** the body of the [try] in [notifyObservers], with its [catch] *)
Definition callObserver (observer : Observer) (progressData : ProgressData)
  : M unit :=
  match observer with
  | Callback _ throws =>
      emit (Notify observer progressData) ;;
      when throws (emit (ConsoleError "Observer error:"%string))
  | Listener _ true _ throws =>
      emit (Notify observer progressData) ;;
      when throws (emit (ConsoleError "Observer error:"%string))
  | Listener _ false _ _ => ret tt
  | BarStateHook => ret tt   (* progressData.newState is undefined *)
  end.

Definition notifyObservers (progressData : ProgressData) : M unit :=
  s <- this observers ;;
  forEach s (fun observer => callObserver observer progressData).

Definition callStateObserver (observer : Observer) (newState oldState : State)
  : M unit :=
  match observer with
  | Callback _ throws =>
      emit (NotifyState observer newState oldState) ;;
      when throws (emit (ConsoleError "State observer error:"%string))
  | Listener _ _ true throws =>
      emit (NotifyState observer newState oldState) ;;
      when throws (emit (ConsoleError "State observer error:"%string))
  | Listener _ _ false _ => ret tt
  | BarStateHook =>
      when (State_eqb newState completed) (modify_bar (set_bar_state completed))
  end.

Definition notifyStateChange (newState oldState : State) : M unit :=
  s <- this stateObservers ;;
  forEach s (fun observer => callStateObserver observer newState oldState).

Definition setState (newState : State) : M unit :=
  oldState <- this trk_state ;;
  when (negb (State_eqb oldState newState))
    (modify_tracker (set_trk_state newState) ;;
     notifyStateChange newState oldState).

Definition getState : M State := this trk_state.

Definition getProgress : M ProgressData :=
  c <- this trk_current ;;
  t <- this trk_total ;;
  st <- this startTime ;;
  lu <- this lastUpdateTime ;;
  calculatedData <- StandardProgressCalculator.calculate c t st lu ;;
  d <- this trk_description ;;
  s <- this trk_state ;;
  ret {| current := cd_current calculatedData;
         total := cd_total calculatedData;
         percentage := cd_percentage calculatedData;
         elapsed := cd_elapsed calculatedData;
         eta := cd_eta calculatedData;
         speed := cd_speed calculatedData;
         isComplete := cd_isComplete calculatedData;
         isIndeterminate := cd_isIndeterminate calculatedData;
         description := d;
         state := s |}.

Definition increment (amount : Q) : M ProgressData :=
  s <- this trk_state ;;
  if State_eqb s completed then getProgress
  else
    c <- this trk_current ;;
    t <- this trk_total ;;
    modify_tracker (set_trk_current (Math.min t (c + amount))) ;;
    now <- performance_now ;;
    modify_tracker (set_lastUpdateTime now) ;;
    progress <- getProgress ;;
    s <- this trk_state ;;
    when (isComplete progress && negb (State_eqb s completed))
      (setState completed) ;;
    notifyObservers progress ;;
    ret progress.

Definition reset : M unit :=
  modify_tracker (set_trk_current 0) ;;
  now <- performance_now ;;
  modify_tracker (set_startTime now) ;;
  modify_tracker (set_lastUpdateTime now) ;;
  setState idle ;;
  (* if (this.calculator.speedHistory): an array is truthy *)
  StandardProgressCalculator.set_history [].

Definition complete : M ProgressData :=
  s <- this trk_state ;;
  if State_eqb s completed then getProgress
  else
    t <- this trk_total ;;
    modify_tracker (set_trk_current t) ;;
    setState completed ;;
    getProgress.

Definition setTotal (total : Q) : M unit :=
  modify_tracker (set_trk_total total).

Definition isCompleted : M bool :=
  s <- this trk_state ;; ret (State_eqb s completed).
End ProgressTracker.

(** ** Spinner *)

Module SpinnerM.
(** the default frames (preset [dots]) *)
Definition default_frames : list string :=
  ["⠋"; "⠙"; "⠹"; "⠸"; "⠼"; "⠴"; "⠦"; "⠧"; "⠇"; "⠏"]%string.
Definition new : Spinner := {| frames := default_frames; spin_current := 0 |}.
Definition next (s : Spinner) : string * Spinner :=
  (nth (spin_current s) (frames s) EmptyString,
   {| frames := frames s;
      spin_current := Nat.modulo (spin_current s + 1) (List.length (frames s)) |}).
End SpinnerM.

(** ** Renderers *)

(** the argument of [new ConsoleProgressRenderer(config)]: every key may be
    absent *)
Record ConfigArg := {
  arg_barLength : option Q;
  arg_filledChar : option string;
  arg_emptyChar : option string;
  arg_showETA : option bool;
  arg_showSpeed : option bool;
  arg_showPercentage : option bool;
  arg_precision : option Q;
  arg_useColors : option bool;
  arg_template : option string;
  arg_updateThrottle : option Q;
  arg_testMode : option bool
}.

Definition empty_arg : ConfigArg :=
  {| arg_barLength := None; arg_filledChar := None; arg_emptyChar := None;
     arg_showETA := None; arg_showSpeed := None; arg_showPercentage := None;
     arg_precision := None; arg_useColors := None; arg_template := None;
     arg_updateThrottle := None; arg_testMode := None |}.

Definition or_default {A} (o : option A) (d : A) : A :=
  match o with Some a => a | None => d end.

Module ConsoleProgressRenderer.
(** The constructor spreads [...config] last, so a key that is present
    keeps the caller's value; an absent key gets the default. *)
Definition new (a : ConfigArg) : M ConsoleRenderer :=
  columns <- get (fun w => stdout_columns (env w)) ;;
  ret {| config :=
           {| barLength := or_default (arg_barLength a) (Math.min 40 (columns - 30));
              filledChar := or_default (arg_filledChar a) "█"%string;
              emptyChar := or_default (arg_emptyChar a) "░"%string;
              showETA := or_default (arg_showETA a) true;
              showSpeed := or_default (arg_showSpeed a) true;
              showPercentage := or_default (arg_showPercentage a) true;
              precision := or_default (arg_precision a) 1;
              useColors := or_default (arg_useColors a) true;
              template := arg_template a;
              updateThrottle := or_default (arg_updateThrottle a) 0;
              testMode := or_default (arg_testMode a) false |};
         lastLineLength := 0;
         spinner := None;
         lastRenderTime := 0;
         hasRenderedCompletion := false |}.

Definition put (r : ConsoleRenderer) : M unit := modify (set_renderer (Console r)).

Definition renderTemplate (r : ConsoleRenderer) (t : string)
    (progressData : ProgressData) : M string :=
  get (fun w => template_text (env w) t progressData).

(** the spinner line of an indeterminate snapshot *)
Definition spinnerLine (r : ConsoleRenderer) (progressData : ProgressData)
  : M (string * ConsoleRenderer) :=
  let s := match spinner r with Some s => s | None => SpinnerM.new end in
  let (spinnerFrame, s') := SpinnerM.next s in
  c <- Colors.info spinnerFrame ;;
  ret ((description progressData ++ ": " ++ c ++ " Working...")%string,
       set_spinner (Some s') r).

(** [render]; the result is the value of the [return] ([Some] text only
    on the template path, which writes nothing) *)
Definition render (r : ConsoleRenderer) (progressData : ProgressData)
  : M (option string) :=
  now <- performance_now ;;
  if JS.gt (updateThrottle (config r)) 0
     && JS.lt (now - lastRenderTime r) (updateThrottle (config r))
  then ret None
  else
    let r := set_lastRenderTime now r in
    put r ;;
    if isComplete progressData && hasRenderedCompletion r then ret None
    else
      match template (config r) with
      | Some t => s <- renderTemplate r t progressData ;; ret (Some s)
      | None =>
          outr <-
            (if isIndeterminate progressData
             then spinnerLine r progressData
             else l <- get (fun w => bar_line (env w) (config r) progressData) ;;
                  ret (l, r)) ;;
          let (output, r) := outr : string * ConsoleRenderer in
          put r ;;
          interactive <- TerminalUtils.isInteractive ;;
          r <-
            (if interactive
             then
               TerminalUtils.clearLine ;;
               emit (StdoutWrite output) ;;
               if isComplete progressData && negb (hasRenderedCompletion r)
               then
                 completedMsg <-
                   (if useColors (config r)
                    then Colors.success " ✓ Complete!"%string
                    else ret " Complete!"%string) ;;
                 emit (StdoutWrite (completedMsg ++ LF)) ;;
                 ret (set_hasRenderedCompletion true r)
               else ret r
             else
               when (isComplete progressData
                     || JS.eq (current progressData) 0
                     || JS.rem_is_zero (current progressData)
                          (Math.ceil (total progressData / 10)))
                 (emit (ConsoleLog output)) ;;
               ret r) ;;
          put (set_lastLineLength (String.length output) r) ;;
          ret None
      end.

Definition cleanup (r : ConsoleRenderer) : M unit :=
  interactive <- TerminalUtils.isInteractive ;;
  when interactive TerminalUtils.showCursor ;;
  put (set_hasRenderedCompletion false r).

Definition reset (r : ConsoleRenderer) : M unit :=
  put (set_lastRenderTime 0 (set_hasRenderedCompletion false r)).
End ConsoleProgressRenderer.

Module SilentProgressRenderer.
Definition new : SilentRenderer :=
  {| progressHistory := []; lastProgress := None |}.

Definition put (r : SilentRenderer) : M unit := modify (set_renderer (Silent r)).

Definition render (r : SilentRenderer) (progressData : ProgressData) : M unit :=
  timestamp <- Date_now ;;
  put {| progressHistory := progressHistory r ++ [(progressData, timestamp)];
         lastProgress := Some progressData |}.

Definition getLastProgress (r : SilentRenderer) : option ProgressData :=
  lastProgress r.
Definition getHistory (r : SilentRenderer) : list (ProgressData * Q) :=
  progressHistory r.
Definition clear : M unit := put new.
Definition cleanup : M unit := ret tt.
Definition reset : M unit := clear.
End SilentProgressRenderer.

(** [this.renderer.render(...)], [.cleanup()], [.reset()] of the bar *)
Module RendererM.
Definition render (progressData : ProgressData) : M unit :=
  r <- get renderer ;;
  match r with
  | Console c => _ <- ConsoleProgressRenderer.render c progressData ;; ret tt
  | Silent s => SilentProgressRenderer.render s progressData
  end.
Definition cleanup : M unit :=
  r <- get renderer ;;
  match r with
  | Console c => ConsoleProgressRenderer.cleanup c
  | Silent _ => SilentProgressRenderer.cleanup
  end.
Definition reset : M unit :=
  r <- get renderer ;;
  match r with
  | Console c => ConsoleProgressRenderer.reset c
  | Silent _ => SilentProgressRenderer.reset
  end.
End RendererM.

(** ** ProcessManager *)

Module ProcessManager.
(** [addCleanupTask(task)]: the task is a fresh closure, the set grows *)
Definition addCleanupTask : M unit :=
  modify (fun w => set_cleanupTasks (S (cleanupTasks w)) w).
(** the function returned by [addCleanupTask] *)
Definition deleteTask : M unit :=
  modify (fun w => set_cleanupTasks (pred (cleanupTasks w)) w).
End ProcessManager.

(** ** ProgressBar *)

Module ProgressBar.
Definition this {A} (f : Bar -> A) : M A := get (fun w => f (bar w)).

Definition createDefaultRenderer : M Renderer :=
  interactive <- TerminalUtils.isInteractive ;;
  if negb interactive then ret (Silent SilentProgressRenderer.new)
  else c <- ConsoleProgressRenderer.new empty_arg ;; ret (Console c).

(** [new ProgressBar(total, description, renderer)] *)
Definition new (total : Q) (description : string) (r : option Renderer)
  : M unit :=
  ProgressTracker.new total description ;;
  r' <- match r with Some r => ret r | None => createDefaultRenderer end ;;
  modify (set_renderer r') ;;
  modify (set_bar {| bar_state := idle; updateInterval := false;
                     cleanupFn := false |}) ;;
  _ <- ProgressTracker.addStateObserver BarStateHook ;;
  ret tt.

Definition start : M unit :=
  s <- this bar_state ;;
  if negb (State_eqb s idle) then ret tt
  else
    modify_bar (set_bar_state active) ;;
    ProgressTracker.setState active ;;
    TerminalUtils.hideCursor ;;
    ProcessManager.addCleanupTask ;;
    modify_bar (set_cleanupFn true) ;;
    t <- ProgressTracker.this trk_total ;;
    when (JS.le t 0) (modify_bar (set_updateInterval true)).

Definition stop : M unit :=
  s <- this bar_state ;;
  if State_eqb s idle || State_eqb s stopped then ret tt
  else
    modify_bar (set_bar_state stopped) ;;
    TerminalUtils.showCursor ;;
    i <- this updateInterval ;;
    when i (modify_bar (set_updateInterval false)) ;;
    c <- this cleanupFn ;;
    when c (ProcessManager.deleteTask ;; modify_bar (set_cleanupFn false)).

Definition getProgress : M ProgressData := ProgressTracker.getProgress.

Definition update (increment : Q) : M ProgressData :=
  s <- this bar_state ;;
  if State_eqb s completed then getProgress
  else
    when (State_eqb s idle) start ;;
    progress <- ProgressTracker.increment increment ;;
    RendererM.render progress ;;
    s <- this bar_state ;;
    when (isComplete progress && negb (State_eqb s completed))
      (modify_bar (set_bar_state completed) ;; stop) ;;
    ret progress.

Definition setTotal (total : Q) : M unit := ProgressTracker.setTotal total.

Definition complete : M ProgressData :=
  s <- this bar_state ;;
  if State_eqb s completed then getProgress
  else
    modify_bar (set_bar_state completed) ;;
    progress <- ProgressTracker.complete ;;
    RendererM.render progress ;;
    stop ;;
    ret progress.

Definition reset : M unit :=
  ProgressTracker.reset ;;
  modify_bar (set_bar_state idle) ;;
  RendererM.reset.

Definition isCompleted : M bool :=
  s <- this bar_state ;; ret (State_eqb s completed).
Definition getState : M State := this bar_state.

Definition onProgress (callback : Observer) := ProgressTracker.addObserver callback.
Definition offProgress (callback : Observer) := ProgressTracker.removeObserver callback.
Definition onStateChange (callback : Observer) :=
  ProgressTracker.addStateObserver callback.
Definition offStateChange (callback : Observer) :=
  ProgressTracker.removeStateObserver callback.

Definition createConsole (total : Q) (description : string) (a : ConfigArg)
  : M unit :=
  c <- ConsoleProgressRenderer.new a ;; new total description (Some (Console c)).
Definition createSilent (total : Q) (description : string) : M unit :=
  new total description (Some (Silent SilentProgressRenderer.new)).
End ProgressBar.

(** ** ProgressBarBuilder *)

Record Builder := {
  b_config : ConfigArg;
  b_total : Q;
  b_description : string
}.

Module ProgressBarBuilder.
Definition new : Builder :=
  {| b_config := empty_arg; b_total := 100; b_description := "Progress"%string |}.
Definition withTotal (total : Q) (b : Builder) : Builder :=
  {| b_config := b_config b; b_total := total; b_description := b_description b |}.
Definition withDescription (d : string) (b : Builder) : Builder :=
  {| b_config := b_config b; b_total := b_total b; b_description := d |}.

(** [updateThrottle: this.config.updateThrottle || 100] of the test mode *)
Definition testThrottle (a : ConfigArg) : ConfigArg :=
  {| arg_barLength := arg_barLength a; arg_filledChar := arg_filledChar a;
     arg_emptyChar := arg_emptyChar a; arg_showETA := arg_showETA a;
     arg_showSpeed := arg_showSpeed a;
     arg_showPercentage := arg_showPercentage a;
     arg_precision := arg_precision a; arg_useColors := arg_useColors a;
     arg_template := arg_template a;
     arg_updateThrottle :=
       Some (match arg_updateThrottle a with
             | Some x => if Qeq_bool x 0 then 100 else x
             | None => 100
             end);
     arg_testMode := arg_testMode a |}.

Definition build (b : Builder) : M unit :=
  let a := if or_default (arg_testMode (b_config b)) false
           then testThrottle (b_config b) else b_config b in
  c <- ConsoleProgressRenderer.new a ;;
  ProgressBar.new (b_total b) (b_description b) (Some (Console c)).

Definition buildSilent (b : Builder) : M unit :=
  ProgressBar.new (b_total b) (b_description b)
    (Some (Silent SilentProgressRenderer.new)).
(** the other setters of the builder *)
Definition with_config (f : ConfigArg -> ConfigArg) (b : Builder) : Builder :=
  {| b_config := f (b_config b); b_total := b_total b;
     b_description := b_description b |}.

Definition withBarLength (length : Q) : Builder -> Builder :=
  with_config (fun a =>
    {| arg_barLength := Some length; arg_filledChar := arg_filledChar a;
       arg_emptyChar := arg_emptyChar a; arg_showETA := arg_showETA a;
       arg_showSpeed := arg_showSpeed a;
       arg_showPercentage := arg_showPercentage a;
       arg_precision := arg_precision a; arg_useColors := arg_useColors a;
       arg_template := arg_template a;
       arg_updateThrottle := arg_updateThrottle a;
       arg_testMode := arg_testMode a |}).

Definition withChars (filled empty : string) : Builder -> Builder :=
  with_config (fun a =>
    {| arg_barLength := arg_barLength a; arg_filledChar := Some filled;
       arg_emptyChar := Some empty; arg_showETA := arg_showETA a;
       arg_showSpeed := arg_showSpeed a;
       arg_showPercentage := arg_showPercentage a;
       arg_precision := arg_precision a; arg_useColors := arg_useColors a;
       arg_template := arg_template a;
       arg_updateThrottle := arg_updateThrottle a;
       arg_testMode := arg_testMode a |}).

Definition withColors (enabled : bool) : Builder -> Builder :=
  with_config (fun a =>
    {| arg_barLength := arg_barLength a; arg_filledChar := arg_filledChar a;
       arg_emptyChar := arg_emptyChar a; arg_showETA := arg_showETA a;
       arg_showSpeed := arg_showSpeed a;
       arg_showPercentage := arg_showPercentage a;
       arg_precision := arg_precision a; arg_useColors := Some enabled;
       arg_template := arg_template a;
       arg_updateThrottle := arg_updateThrottle a;
       arg_testMode := arg_testMode a |}).

Definition withPrecision (precision : Q) : Builder -> Builder :=
  with_config (fun a =>
    {| arg_barLength := arg_barLength a; arg_filledChar := arg_filledChar a;
       arg_emptyChar := arg_emptyChar a; arg_showETA := arg_showETA a;
       arg_showSpeed := arg_showSpeed a;
       arg_showPercentage := arg_showPercentage a;
       arg_precision := Some precision; arg_useColors := arg_useColors a;
       arg_template := arg_template a;
       arg_updateThrottle := arg_updateThrottle a;
       arg_testMode := arg_testMode a |}).

Definition showETA (show : bool) : Builder -> Builder :=
  with_config (fun a =>
    {| arg_barLength := arg_barLength a; arg_filledChar := arg_filledChar a;
       arg_emptyChar := arg_emptyChar a; arg_showETA := Some show;
       arg_showSpeed := arg_showSpeed a;
       arg_showPercentage := arg_showPercentage a;
       arg_precision := arg_precision a; arg_useColors := arg_useColors a;
       arg_template := arg_template a;
       arg_updateThrottle := arg_updateThrottle a;
       arg_testMode := arg_testMode a |}).

Definition showSpeed (show : bool) : Builder -> Builder :=
  with_config (fun a =>
    {| arg_barLength := arg_barLength a; arg_filledChar := arg_filledChar a;
       arg_emptyChar := arg_emptyChar a; arg_showETA := arg_showETA a;
       arg_showSpeed := Some show;
       arg_showPercentage := arg_showPercentage a;
       arg_precision := arg_precision a; arg_useColors := arg_useColors a;
       arg_template := arg_template a;
       arg_updateThrottle := arg_updateThrottle a;
       arg_testMode := arg_testMode a |}).

Definition showPercentage (show : bool) : Builder -> Builder :=
  with_config (fun a =>
    {| arg_barLength := arg_barLength a; arg_filledChar := arg_filledChar a;
       arg_emptyChar := arg_emptyChar a; arg_showETA := arg_showETA a;
       arg_showSpeed := arg_showSpeed a;
       arg_showPercentage := Some show;
       arg_precision := arg_precision a; arg_useColors := arg_useColors a;
       arg_template := arg_template a;
       arg_updateThrottle := arg_updateThrottle a;
       arg_testMode := arg_testMode a |}).

Definition withTemplate (template : string) : Builder -> Builder :=
  with_config (fun a =>
    {| arg_barLength := arg_barLength a; arg_filledChar := arg_filledChar a;
       arg_emptyChar := arg_emptyChar a; arg_showETA := arg_showETA a;
       arg_showSpeed := arg_showSpeed a;
       arg_showPercentage := arg_showPercentage a;
       arg_precision := arg_precision a; arg_useColors := arg_useColors a;
       arg_template := Some template;
       arg_updateThrottle := arg_updateThrottle a;
       arg_testMode := arg_testMode a |}).


Definition forSpinner (b : Builder) : Builder :=
  showETA false (showPercentage false (withTotal 0 b)).
End ProgressBarBuilder.

(** ** CLIProgressHelper *)

(** an [Error] object: its identity and its [message] *)
Record JSError := {
  err_ref : nat;
  message : string
}.

(** how an awaited task ends *)
Inductive Outcome (R : Type) :=
| Returns (result : R)
| Throws (error : JSError).
Arguments Returns {R} result.
Arguments Throws {R} error.

(** One run of an asynchronous task, as the helper sees it: the calls it
    makes to the update callback it was given (the callback returns nothing,
    so the task learns nothing from the bar), then its end. *)
Record Task (R : Type) := {
  updates : list Q;
  outcome : Outcome R
}.
Arguments updates {R} t.
Arguments outcome {R} t.

Module CLIProgressHelper.
Definition withProgress {R} (total : Q) (description : string)
    (asyncTask : Task R) : M (Outcome R) :=
  ProgressBarBuilder.build
    (ProgressBarBuilder.withDescription description
       (ProgressBarBuilder.withTotal total ProgressBarBuilder.new)) ;;
  ProgressBar.start ;;
  forEach (updates asyncTask)
    (fun increment => _ <- ProgressBar.update increment ;; ret tt) ;;
  match outcome asyncTask with
  | Returns result =>
      c <- ProgressBar.isCompleted ;;
      when (negb c) (_ <- ProgressBar.complete ;; ret tt) ;;
      ret (Returns result)
  | Throws error =>
      ProgressBar.stop ;;
      msg <- Colors.error
               (LF ++ "✗ " ++ description ++ " failed: " ++ message error)%string ;;
      emit (ConsoleError msg) ;;
      ret (Throws error)
  end.
End CLIProgressHelper.

(** ** What the calculator computes, as functions of the world

    The methods above are compared with these closed forms in the first
    lemmas of the next part. *)

Definition now_of (w : World) : Q := performance_clock (env w) (tick w).
Definition elapsed_at (w : World) (st : Q) : Q := (now_of w - st) / 1000.

Definition sum (h : list Q) : Q := fold_left (fun a b => a + b) h 0.
Definition mean (h : list Q) : Q := sum h / JS.of_nat (List.length h).

(** [push] followed by the conditional [shift] *)
Definition push_sample (c : Calculator) (s : Q) : list Q :=
  let h := speedHistory c ++ [s] in
  if Nat.ltb (maxHistorySize c) (List.length h) then tl h else h.

Definition history_next (c : Calculator) (cur e : Q) : list Q :=
  if JS.le e 0 then speedHistory c else push_sample c (cur / e).
Definition speed_next (c : Calculator) (cur e : Q) : Q :=
  if JS.le e 0 then 0 else mean (push_sample c (cur / e)).

Definition percentage_of (cur tot : Q) : Q :=
  if JS.gt tot 0 then Math.round (cur / tot * 100 * 100) / 100 else 0.
Definition eta_of (cur tot spd : Q) : Q :=
  if JS.gt cur 0 && JS.lt cur tot && JS.gt spd 0
  then (tot - cur) / spd else 0.

(** some divisor of a run of [calculate] is zero *)
Definition zero_divisor (c : Calculator) (cur tot e : Q) : bool :=
  (JS.gt tot 0 && Qeq_bool tot 0)
  || (negb (JS.le e 0)
      && (Qeq_bool e 0
          || Qeq_bool (JS.of_nat (List.length (push_sample c (cur / e)))) 0))
  || (JS.gt cur 0 && JS.lt cur tot && JS.gt (speed_next c cur e) 0
      && Qeq_bool (speed_next c cur e) 0).

Definition calculated (w : World) (cur tot st : Q) : CalculatedData :=
  let c := calculator (tracker w) in
  let e := elapsed_at w st in
  {| cd_current := cur;
     cd_total := tot;
     cd_percentage := percentage_of cur tot;
     cd_elapsed := e;
     cd_eta := eta_of cur tot (speed_next c cur e);
     cd_speed := speed_next c cur e;
     cd_isComplete := JS.ge cur tot;
     cd_isIndeterminate := JS.le tot 0 |}.

Definition after_calculate (w : World) (cur tot st : Q) : World :=
  let c := calculator (tracker w) in
  let e := elapsed_at w st in
  set_div0 (div0 w || zero_divisor c cur tot e)
    (set_tracker
       (set_calculator (set_speedHistory (history_next c cur e) c) (tracker w))
       (set_tick (S (tick w)) w)).

(** the snapshot that [getProgress] builds, and the world it leaves *)
Definition snapshot (w : World) : ProgressData :=
  let t := tracker w in
  let cd := calculated w (trk_current t) (trk_total t) (startTime t) in
  {| current := cd_current cd;
     total := cd_total cd;
     percentage := cd_percentage cd;
     elapsed := cd_elapsed cd;
     eta := cd_eta cd;
     speed := cd_speed cd;
     isComplete := cd_isComplete cd;
     isIndeterminate := cd_isIndeterminate cd;
     description := trk_description t;
     state := trk_state t |}.

Definition after_getProgress (w : World) : World :=
  let t := tracker w in
  after_calculate w (trk_current t) (trk_total t) (startTime t).

(** the trace of one round of [notifyObservers] *)
Definition progress_events (s : JSSet.t) (p : ProgressData) : list Event :=
  flat_map
    (fun o =>
       match o with
       | Callback _ throws | Listener _ true _ throws =>
           Notify o p
           :: (if throws then [ConsoleError "Observer error:"] else [])
       | _ => []
       end) s.

(** the trace of one round of [notifyStateChange] *)
Definition state_events (s : JSSet.t) (n o : State) : list Event :=
  flat_map
    (fun ob =>
       match ob with
       | Callback _ throws | Listener _ _ true throws =>
           NotifyState ob n o
           :: (if throws then [ConsoleError "State observer error:"] else [])
       | _ => []
       end) s.

(** the bar's hook is registered and is told [completed] *)
Definition hook_fires (s : JSSet.t) (n : State) : bool :=
  JSSet.has BarStateHook s && State_eqb n completed.

Definition after_notifyStateChange (n o : State) (w : World) : World :=
  let s := stateObservers (tracker w) in
  set_bar (if hook_fires s n then set_bar_state completed (bar w) else bar w)
    (set_trace (trace w ++ state_events s n o) w).

Definition after_setState (n : State) (w : World) : World :=
  if State_eqb (trk_state (tracker w)) n then w
  else after_notifyStateChange n (trk_state (tracker w))
         (set_tracker (set_trk_state n (tracker w)) w).

(** [increment] on a tracker that is not completed *)
Definition after_increment (a : Q) (w : World) : ProgressData * World :=
  let t := tracker w in
  let w1 :=
    set_tracker
      (set_lastUpdateTime (now_of w)
         (set_trk_current (Math.min (trk_total t) (trk_current t + a)) t))
      (set_tick (S (tick w)) w) in
  let p := snapshot w1 in
  let w2 := after_getProgress w1 in
  let w3 := if isComplete p then after_setState completed w2 else w2 in
  (p, set_trace (trace w3 ++ progress_events (observers (tracker w3)) p) w3).

(** ** Sequences of calls *)

(** the public methods of a tracker *)
Inductive Op :=
| Increment (amount : Q)
| Complete
| Reset
| SetTotal (t : Q)
| GetProgress
| SetState (s : State)
| AddObserver (o : Observer)
| RemoveObserver (o : Observer)
| AddStateObserver (o : Observer)
| RemoveStateObserver (o : Observer).

Definition run_op (o : Op) : M unit :=
  match o with
  | Increment a => _ <- ProgressTracker.increment a ;; ret tt
  | Complete => _ <- ProgressTracker.complete ;; ret tt
  | Reset => ProgressTracker.reset
  | SetTotal t => ProgressTracker.setTotal t
  | GetProgress => _ <- ProgressTracker.getProgress ;; ret tt
  | SetState s => ProgressTracker.setState s
  | AddObserver o => _ <- ProgressTracker.addObserver o ;; ret tt
  | RemoveObserver o => _ <- ProgressTracker.removeObserver o ;; ret tt
  | AddStateObserver o => _ <- ProgressTracker.addStateObserver o ;; ret tt
  | RemoveStateObserver o => _ <- ProgressTracker.removeStateObserver o ;; ret tt
  end.

Definition run_ops (l : list Op) : M unit := forEach l run_op.

(** [increment(a_1); ...; increment(a_N)] *)
Definition increments (l : list Q) : M unit := run_ops (map Increment l).

(** ** Sample worlds

    A non-interactive process whose clock advances 250 ms per reading. *)

Definition env0 : Env :=
  {| performance_clock := fun n => 1000 + 250 * JS.of_nat n;
     date_clock := fun n => 1700000000000 + 250 * JS.of_nat n;
     isTTY := false;
     CI_true := false;
     FORCE_COLOR_0 := false;
     stdout_columns := 80;
     bar_line := fun _ p => description p;
     template_text := fun t _ => t |}.

(** the heap before any object of the model is constructed *)
Definition world0 : World :=
  {| env := env0;
     tick := 0;
     trace := [];
     div0 := false;
     tracker :=
       {| trk_total := 0; trk_current := 0; trk_description := EmptyString;
          startTime := 0; lastUpdateTime := 0;
          calculator := StandardProgressCalculator.new;
          observers := JSSet.empty; trk_state := idle;
          stateObservers := JSSet.empty |};
     renderer := Silent SilentProgressRenderer.new;
     bar := {| bar_state := idle; updateInterval := false; cleanupFn := false |};
     cleanupTasks := 0 |}.

(** ** Reading the trace *)

(** the events that a run from [w] to [w'] appended *)
Definition new_events (w w' : World) : list Event :=
  skipn (List.length (trace w)) (trace w').

Definition is_notify (o : Observer) (e : Event) : bool :=
  match e with
  | Notify o' _ => if Observer_eq_dec o' o then true else false
  | _ => false
  end.

(** how many times the progress observer [o] was called in a list of events *)
Definition notifications (o : Observer) (l : list Event) : nat :=
  List.length (filter (is_notify o) l).

Definition is_state_notify (e : Event) : bool :=
  match e with NotifyState _ _ _ => true | _ => false end.

(** [notifyObservers] calls it: a function, or an object with [onProgress] *)
Definition takes_progress (o : Observer) : bool :=
  match o with
  | Callback _ _ | Listener _ true _ _ => true
  | _ => false
  end.

(** the history of a buffering renderer ([getHistory()]) *)
Definition silent_history (w : World) : list (ProgressData * Q) :=
  match renderer w with
  | Silent s => SilentProgressRenderer.getHistory s
  | Console _ => []
  end.

(** ** Well-behaved sequences of calls

    Amounts are non-negative and [setTotal] does not put the total below
    the current value. *)

Definition op_ok (o : Op) (w : World) : Prop :=
  match o with
  | Increment a => 0 <= a
  | SetTotal t => trk_current (tracker w) <= t
  | _ => True
  end.

Fixpoint ops_ok (l : list Op) (w : World) : Prop :=
  match l with
  | [] => True
  | o :: l' => op_ok o w /\ ops_ok l' (snd (run_op o w))
  end.

(** the world that [reset] leaves *)
Definition after_reset (w : World) : World :=
  let w1 :=
    set_tracker
      (set_lastUpdateTime (now_of w)
         (set_startTime (now_of w) (set_trk_current 0 (tracker w))))
      (set_tick (S (tick w)) w) in
  let w2 := after_setState idle w1 in
  set_tracker
    (set_calculator (set_speedHistory [] (calculator (tracker w2))) (tracker w2))
    w2.




(** the snapshot of a bar of total 2 that has just been filled *)
Definition done_snapshot : ProgressData :=
  {| current := 2; total := 2; percentage := 100; elapsed := 1; eta := 0;
     speed := 2; isComplete := true; isIndeterminate := false;
     description := "job"; state := completed |}.

(** ** The speed history *)


(** [performance.now()] never goes back *)
Definition monotone (e : Env) : Prop :=
  forall n, performance_clock e n <= performance_clock e (S n).

(** The invariant of the history: the capacity is 10, at most 10 samples are
    held, and a sample is held only if some earlier reading of the clock was
    after [startTime]. *)
Definition history_ok (w : World) : Prop :=
  let c := calculator (tracker w) in
  maxHistorySize c = 10%nat
  /\ (List.length (speedHistory c) <= 10)%nat
  /\ (speedHistory c <> [] ->
      exists k, (k < tick w)%nat
                /\ startTime (tracker w) < performance_clock (env w) k).



(** ** More readings of the trace *)

(** the progress observers called in a list of events, in order, each with
    the snapshot it was given *)
Definition progress_calls (l : list Event) : list (Observer * ProgressData) :=
  flat_map (fun e => match e with Notify o p => [(o, p)] | _ => [] end) l.

(** the state observers called, in order, with the two states they were
    given *)
Definition state_calls (l : list Event) : list (Observer * State * State) :=
  flat_map
    (fun e => match e with NotifyState o n old => [(o, n, old)] | _ => [] end) l.

(** [notifyStateChange] calls it: a function, or an object with
    [onStateChange].  The hook of the bar is a function too, but it is not an
    outside observer and leaves no event. *)
Definition takes_state (o : Observer) : bool :=
  match o with
  | Callback _ _ | Listener _ _ true _ => true
  | _ => false
  end.

(** the lines that [console.error] wrote *)
Definition error_lines (l : list Event) : list string :=
  flat_map (fun e => match e with ConsoleError s => [s] | _ => [] end) l.

(** the observer raises when it is called *)
Definition raises (o : Observer) : bool :=
  match o with
  | Callback _ t | Listener _ _ _ t => t
  | BarStateHook => false
  end.

(** ** The numbers of a snapshot

    The invariant behind non-negative metrics: [current] is between 0 and
    the total, [startTime] is not after the next reading of the clock, and
    no sample of the speed history is negative. *)
Definition metrics_ok (w : World) : Prop :=
  0 <= trk_current (tracker w) <= trk_total (tracker w)
  /\ startTime (tracker w) <= now_of w
  /\ Forall (fun s => 0 <= s) (speedHistory (calculator (tracker w))).

(** no field of the snapshot is negative and [current] is within the total *)
Definition snapshot_nonneg (p : ProgressData) : Prop :=
  0 <= current p <= total p
  /\ 0 <= percentage p <= 100
  /\ 0 <= elapsed p
  /\ 0 <= speed p
  /\ 0 <= eta p.

(** ** Repeated calls of a renderer and of a spinner *)

(** [render(p_1); ...; render(p_n)] on the renderer of the bar *)
Definition render_all (ps : list ProgressData) : M unit :=
  forEach ps RendererM.render.

(** [n] calls of [next()]: the frames returned, and the spinner left *)
Fixpoint nexts (n : nat) (s : Spinner) : list string * Spinner :=
  match n with
  | O => ([], s)
  | S n' =>
      let (f, s1) := SpinnerM.next s in
      let (fs, s2) := nexts n' s1 in
      (f :: fs, s2)
  end.

(** the terminal is interactive ([TerminalUtils.isInteractive]) *)
Definition interactive (e : Env) : bool := isTTY e && negb (CI_true e).

(** ** More sample worlds *)





(** ** The resources of a bar *)

(** what [start] acquires and [stop] releases: the interval, the cleanup
    task of the bar and the size of the process manager's task set *)
Definition resources (w : World) : bool * bool * nat :=
  (updateInterval (bar w), cleanupFn (bar w), cleanupTasks w).

(** the writes that hide and show the cursor *)
Definition hide_cursor : Event := StdoutWrite (ESC ++ "[?25l").
Definition show_cursor : Event := StdoutWrite (ESC ++ "[?25h").

(** [update(a_1); ...; update(a_n)] on the bar *)
Definition updates_all (l : list Q) : M unit :=
  forEach l (fun increment => _ <- ProgressBar.update increment ;; ret tt).

(** a bar that was started by [update] and has not been stopped: the hook of
    the bar is registered on the tracker, the bar is active or completed
    (completed exactly when the tracker is), and it holds the resources that
    [start] acquired on top of the [n] tasks of the process manager *)
Definition bar_running (n : nat) (T : Q) (w : World) : Prop :=
  In BarStateHook (stateObservers (tracker w))
  /\ (bar_state (bar w) = active \/ bar_state (bar w) = completed)
  /\ (bar_state (bar w) = completed <-> trk_state (tracker w) = completed)
  /\ resources w = (JS.le T 0, true, S n).

(** ** The spinner bar and its interval *)

(** the configuration of the renderer that a build produces *)
Definition built_config (w : World) : option Config :=
  match renderer w with
  | Console c => Some (config c)
  | Silent _ => None
  end.

(** [ProgressBar.createSpinner(description)]: the configuration is [{}]
    with [showPercentage] and [showETA] switched off *)
Definition createSpinner (description : string) : M unit :=
  c <- ConsoleProgressRenderer.new
         (b_config (ProgressBarBuilder.showETA false
                      (ProgressBarBuilder.showPercentage false
                         ProgressBarBuilder.new))) ;;
  ProgressBar.new 0 description (Some (Console c)).

(** the body of the interval callback that [start] installs *)
Definition interval_tick : M unit :=
  s <- ProgressBar.this bar_state ;;
  when (State_eqb s active)
    (p <- ProgressTracker.getProgress ;; RendererM.render p).

(** the timer of the process fires: the callback runs when the interval is
    armed *)
Definition timer_fires : M unit :=
  i <- ProgressBar.this updateInterval ;;
  when i interval_tick.

(** One run of the task given to [withSpinner]: it gets no callback; while
    it is awaited the timer fires [ticks] times. *)
Record SpinnerTask (R : Type) := {
  ticks : nat;
  spinner_outcome : Outcome R
}.
Arguments ticks {R} s.
Arguments spinner_outcome {R} s.

Definition withSpinner {R} (description : string) (asyncTask : SpinnerTask R)
  : M (Outcome R) :=
  createSpinner description ;;
  ProgressBar.start ;;
  forEach (repeat tt (ticks asyncTask)) (fun _ => timer_fires) ;;
  match spinner_outcome asyncTask with
  | Returns result =>
      ProgressBar.stop ;;
      msg <- Colors.success ("✓ " ++ description ++ " completed")%string ;;
      emit (ConsoleLog msg) ;;
      ret (Returns result)
  | Throws error =>
      ProgressBar.stop ;;
      msg <- Colors.error
               ("✗ " ++ description ++ " failed: " ++ message error)%string ;;
      emit (ConsoleError msg) ;;
      ret (Throws error)
  end.

(** ** Several bars: MultiProgressManager

    A JavaScript [Map] with string keys is a list of pairs without repeated
    keys, in insertion order.  The objects of one bar are kept together; a
    method of a stored bar runs with these objects loaded into the slots of
    the world, and what it leaves there is stored back under the same key
    (the bar is mutated in place). *)

Module JSMap.
Definition t (V : Type) := list (string * V).
Definition get {V} (k : string) (m : t V) : option V :=
  match find (fun kv => String.eqb (fst kv) k) m with
  | Some kv => Some (snd kv)
  | None => None
  end.
Definition has {V} (k : string) (m : t V) : bool :=
  existsb (fun kv => String.eqb (fst kv) k) m.
(** [set]: an existing key keeps its place *)
Definition set {V} (k : string) (v : V) (m : t V) : t V :=
  if has k m
  then map (fun kv => if String.eqb (fst kv) k then (k, v) else kv) m
  else m ++ [(k, v)].
Definition delete {V} (k : string) (m : t V) : bool * t V :=
  (has k m, filter (fun kv => negb (String.eqb (fst kv) k)) m).
Definition keys {V} (m : t V) : list string := map fst m.
Definition size {V} (m : t V) : nat := List.length m.
End JSMap.

Record BarObj := {
  obj_tracker : Tracker;
  obj_renderer : Renderer;
  obj_bar : Bar
}.

(** the parts of the world that all bars of the process share *)
Definition shared (w : World) : Env * nat * list Event * bool * nat :=
  (env w, tick w, trace w, div0 w, cleanupTasks w).

Definition load (o : BarObj) (w : World) : World :=
  set_bar (obj_bar o) (set_renderer (obj_renderer o) (set_tracker (obj_tracker o) w)).
Definition store (w : World) : BarObj :=
  {| obj_tracker := tracker w; obj_renderer := renderer w; obj_bar := bar w |}.

Record Manager := {
  progressBars : JSMap.t BarObj;
  isActive : bool
}.

Definition MM (A : Type) : Type := World * Manager -> A * (World * Manager).

Definition set_progressBars (m : JSMap.t BarObj) (g : Manager) : Manager :=
  {| progressBars := m; isActive := isActive g |}.

Module MultiProgressManager.
Definition new : Manager := {| progressBars := []; isActive := false |}.

(** a method [m] of the bar stored under [id]; the caller has checked that
    it is there *)
Definition call {A} (id : string) (o : BarObj) (m : M A) : MM A :=
  fun wg =>
    let (a, w') := m (load o (fst wg)) in
    (a, (w', set_progressBars (JSMap.set id (store w') (progressBars (snd wg)))
               (snd wg))).

Definition add (id : string) (total : Q) (description : string) : MM BarObj :=
  fun wg =>
    let (_, w') :=
      ProgressBarBuilder.build
        (ProgressBarBuilder.withDescription description
           (ProgressBarBuilder.withTotal total ProgressBarBuilder.new))
        (fst wg) in
    (store w',
     (w', set_progressBars (JSMap.set id (store w') (progressBars (snd wg)))
            (snd wg))).

Definition get (id : string) : MM (option BarObj) :=
  fun wg => (JSMap.get id (progressBars (snd wg)), wg).

Definition remove (id : string) : MM unit :=
  fun wg =>
    match JSMap.get id (progressBars (snd wg)) with
    | Some o =>
        let (_, wg') := call id o ProgressBar.stop wg in
        (tt, (fst wg',
              set_progressBars (snd (JSMap.delete id (progressBars (snd wg'))))
                (snd wg')))
    | None => (tt, wg)
    end.

(** [null] is [None] *)
Definition update (id : string) (increment : Q) : MM (option ProgressData) :=
  fun wg =>
    match JSMap.get id (progressBars (snd wg)) with
    | Some o =>
        let (p, wg') := call id o (ProgressBar.update increment) wg in
        (Some p, wg')
    | None => (None, wg)
    end.

Definition complete (id : string) : MM (option ProgressData) :=
  fun wg =>
    match JSMap.get id (progressBars (snd wg)) with
    | Some o =>
        let (p, wg') := call id o ProgressBar.complete wg in
        (Some p, wg')
    | None => (None, wg)
    end.

(** [forEach(progressBar => progressBar.stop())] over the entries *)
Fixpoint stop_all (l : JSMap.t BarObj) : MM unit :=
  fun wg =>
    match l with
    | [] => (tt, wg)
    | (id, _) :: l' =>
        match JSMap.get id (progressBars (snd wg)) with
        | Some o =>
            let (_, wg') := call id o ProgressBar.stop wg in stop_all l' wg'
        | None => stop_all l' wg
        end
    end.

Definition clear : MM unit :=
  fun wg =>
    let (_, wg') := stop_all (progressBars (snd wg)) wg in
    (tt, (fst wg', set_progressBars [] (snd wg'))).
End MultiProgressManager.

(** the bar stored under [id] is running: neither idle nor stopped *)
Definition obj_running (o : BarObj) : bool :=
  negb (State_eqb (bar_state (obj_bar o)) idle
        || State_eqb (bar_state (obj_bar o)) stopped).

(** the bars of a map whose [stop] gives a cleanup task back *)
Definition releasing (m : JSMap.t BarObj) : nat :=
  List.length (filter (fun kv => obj_running (snd kv) && cleanupFn (obj_bar (snd kv))) m).


(** ** MultiProgressRenderer: the registry of renderers *)

(** renderers are held by reference; [R] is the type of the references *)
Record MultiRenderer (R : Type) := {
  renderers : JSMap.t R;
  lineCount : Z
}.
Arguments renderers {R} _.
Arguments lineCount {R} _.

Module MultiProgressRenderer.
Definition new {R} : MultiRenderer R := {| renderers := []; lineCount := 0 |}.

Definition addProgress {R} (id : string) (renderer : R) (mr : MultiRenderer R)
  : MultiRenderer R :=
  {| renderers := JSMap.set id renderer (renderers mr);
     lineCount := lineCount mr + 1 |}.

Definition removeProgress {R} (id : string) (mr : MultiRenderer R)
  : MultiRenderer R :=
  let (found, m) := JSMap.delete id (renderers mr) in
  if found then {| renderers := m; lineCount := lineCount mr - 1 |}
  else {| renderers := m; lineCount := lineCount mr |}.
End MultiProgressRenderer.

Inductive RegistryOp (R : Type) :=
| AddProgress (id : string) (renderer : R)
| RemoveProgress (id : string).
Arguments AddProgress {R} _ _.
Arguments RemoveProgress {R} _.

Definition run_registry_op {R} (mr : MultiRenderer R) (o : RegistryOp R)
  : MultiRenderer R :=
  match o with
  | AddProgress id r => MultiProgressRenderer.addProgress id r mr
  | RemoveProgress id => MultiProgressRenderer.removeProgress id mr
  end.

Definition run_registry_ops {R} (l : list (RegistryOp R)) (mr : MultiRenderer R)
  : MultiRenderer R :=
  fold_left run_registry_op l mr.

(** how many [addProgress] calls of [l] name an id that is registered at the
    time of the call *)
Fixpoint readds {R} (l : list (RegistryOp R)) (mr : MultiRenderer R) : nat :=
  match l with
  | [] => 0
  | o :: l' =>
      (match o with
       | AddProgress id _ => if JSMap.has id (renderers mr) then 1 else 0
       | RemoveProgress _ => 0
       end + readds l' (run_registry_op mr o))%nat
  end.

(** ** ConsoleProgressRenderer.formatTime *)

(** the three template literals of [formatTime] with the numbers in their
    holes: [`${s}s`], [`${m}m ${s}s`] and [`${h}h ${m}m`] *)
Inductive TimeText :=
| Seconds (s : Q)
| MinutesSeconds (m s : Q)
| HoursMinutes (h m : Q).

Definition formatTime (seconds : Q) : TimeText :=
  if JS.lt seconds 60 then Seconds (Math.round seconds)
  else if JS.lt seconds 3600
  then MinutesSeconds (Math.floor (seconds / 60)) (Math.round (JS.rem seconds 60))
  else HoursMinutes (Math.floor (seconds / 3600))
                    (Math.floor (JS.rem seconds 3600 / 60)).

(** the time that a text stands for, in seconds *)
Definition seconds_of (t : TimeText) : Q :=
  match t with
  | Seconds s => s
  | MinutesSeconds m s => 60 * m + s
  | HoursMinutes h m => 3600 * h + 60 * m
  end.
(** * Properties *)

(** ** Comparisons *)

Lemma JS_le_iff a b : JS.le a b = true <-> a <= b.
Proof. unfold JS.le. apply Qle_bool_iff. Qed.

Lemma JS_lt_iff a b : JS.lt a b = true <-> a < b.
Proof.
  unfold JS.lt. rewrite negb_true_iff.
  split; intros H.
  - apply Qnot_le_lt. intros Hle. apply Qle_bool_iff in Hle. congruence.
  - destruct (Qle_bool b a) eqn:E; [|reflexivity].
    apply Qle_bool_iff in E. exfalso. apply (Qlt_not_le _ _ H E).
Qed.

Lemma JS_gt_iff a b : JS.gt a b = true <-> b < a.
Proof. unfold JS.gt. apply JS_lt_iff. Qed.

Lemma JS_ge_iff a b : JS.ge a b = true <-> b <= a.
Proof. unfold JS.ge. apply JS_le_iff. Qed.

Lemma JS_lt_false_iff a b : JS.lt a b = false <-> b <= a.
Proof.
  unfold JS.lt. rewrite negb_false_iff. apply Qle_bool_iff.
Qed.

Lemma JS_le_false_iff a b : JS.le a b = false <-> b < a.
Proof.
  rewrite <- JS_lt_iff. unfold JS.lt, JS.le.
  destruct (Qle_bool a b); simpl; split; congruence.
Qed.

Lemma State_eqb_eq a b : State_eqb a b = true <-> a = b.
Proof. destruct a, b; simpl; split; congruence. Qed.

Lemma State_eqb_refl a : State_eqb a a = true.
Proof. destruct a; reflexivity. Qed.

Lemma State_eqb_neq a b : State_eqb a b = false <-> a <> b.
Proof. destruct a, b; simpl; split; congruence. Qed.

(** ** Rounding *)

Lemma round_nonneg x : 0 <= x -> 0 <= Math.round x.
Proof.
  intros H. unfold Math.round.
  change 0 with (inject_Z 0). rewrite <- Zle_Qle.
  rewrite <- (Qfloor_Z 0). apply Qfloor_resp_le. change (inject_Z 0) with 0. lra.
Qed.

Lemma round_le_Z x (z : Z) : x <= inject_Z z -> Math.round x <= inject_Z z.
Proof.
  intros H. unfold Math.round. rewrite <- Zle_Qle.
  assert (Hlt : inject_Z (Qfloor (x + (1 # 2))) < inject_Z (z + 1)).
  { eapply Qle_lt_trans; [apply Qfloor_le|].
    rewrite inject_Z_plus. change (inject_Z 1) with 1. lra. }
  rewrite <- Zlt_Qlt in Hlt. lia.
Qed.

Lemma round_Z (z : Z) : Math.round (inject_Z z) == inject_Z z.
Proof.
  apply Qle_antisym.
  - apply round_le_Z. lra.
  - unfold Math.round. rewrite <- Zle_Qle.
    rewrite <- (Qfloor_Z z) at 1. apply Qfloor_resp_le. lra.
Qed.

Lemma Qfloor_comp' x y : x == y -> Qfloor x = Qfloor y.
Proof.
  intros H. apply Z.le_antisymm; apply Qfloor_resp_le; rewrite H; lra.
Qed.

Lemma round_comp x y : x == y -> Math.round x == Math.round y.
Proof.
  intros H. unfold Math.round.
  rewrite (Qfloor_comp' (x + (1#2)) (y + (1#2))); [reflexivity | rewrite H; reflexivity].
Qed.

(** ** The calculator *)

Lemma calculate_run cur tot st lu w :
  StandardProgressCalculator.calculate cur tot st lu w
  = (calculated w cur tot st, after_calculate w cur tot st).
Proof.
  destruct w as [en tk tr d0 t rd b ct].
  destruct t as [ttot tcur tdesc tst tlu c ob tstate sob].
  destruct c as [h mx].
  unfold StandardProgressCalculator.calculate, calculated, after_calculate,
    StandardProgressCalculator.calculateSpeed, zero_divisor,
    speed_next, history_next, elapsed_at, now_of, push_sample, mean, sum,
    percentage_of, eta_of, StandardProgressCalculator.history,
    StandardProgressCalculator.set_history, modify_tracker, modify, get,
    when, div, bind, ret, performance_now.
  cbn.
  change (Qeq_bool 1000 0) with false. change (Qeq_bool 100 0) with false.
  cbv iota.
  set (e := (performance_clock en tk - st) / 1000).
  destruct (JS.gt tot 0); cbn;
  destruct (JS.le e 0); cbn;
  repeat match goal with
  | |- context [if ?b then _ else _] =>
      match b with
      | context [if _ then _ else _] => fail 1
      | _ => destruct b eqn:?; cbn
      end
  end; destruct d0; try reflexivity.
Qed.

(** ** The tracker *)

Ltac unfold_monad :=
  unfold ProgressTracker.this, ProgressBar.this, modify_tracker, modify_bar,
    emit, modify, get, when, bind, ret in *;
  cbv beta iota in *.

Lemma getProgress_run w :
  ProgressTracker.getProgress w = (snapshot w, after_getProgress w).
Proof.
  unfold ProgressTracker.getProgress. unfold_monad.
  rewrite calculate_run. reflexivity.
Qed.

Lemma forEach_callObserver p l w :
  forEach l (fun o => ProgressTracker.callObserver o p) w
  = (tt, set_trace (trace w ++ progress_events l p) w).
Proof.
  revert w. induction l as [|o l IH]; intros w.
  - cbn. rewrite app_nil_r. destruct w; reflexivity.
  - cbn [forEach]. unfold bind at 1.
    destruct (ProgressTracker.callObserver o p w) as [u w1] eqn:E.
    rewrite IH.
    assert (Hw1 : w1 = set_trace (trace w ++ progress_events [o] p) w).
    { unfold ProgressTracker.callObserver in E. destruct w.
      destruct o as [r th|r hp hs th|]; [destruct th | destruct hp, th |];
        unfold_monad; cbn in E; inversion E; cbn;
        rewrite ?app_nil_r, <- ?app_assoc; reflexivity. }
    subst w1. cbn [progress_events flat_map]. rewrite app_nil_r.
    cbn [trace set_trace]. rewrite <- app_assoc. destruct w; reflexivity.
Qed.

Lemma notifyObservers_run p w :
  ProgressTracker.notifyObservers p w
  = (tt, set_trace (trace w ++ progress_events (observers (tracker w)) p) w).
Proof.
  unfold ProgressTracker.notifyObservers. unfold_monad.
  apply forEach_callObserver.
Qed.

Lemma has_cons x o l :
  JSSet.has x (o :: l) = if Observer_eq_dec o x then true else JSSet.has x l.
Proof.
  unfold JSSet.has.
  destruct (in_dec Observer_eq_dec x (o :: l)) as [H|H],
           (Observer_eq_dec o x) as [E|E],
           (in_dec Observer_eq_dec x l) as [I|I];
    try reflexivity; exfalso; simpl in H; tauto.
Qed.

Lemma has_In x l : JSSet.has x l = true <-> In x l.
Proof.
  unfold JSSet.has. destruct (in_dec Observer_eq_dec x l); split; intros; congruence.
Qed.

Lemma forEach_callStateObserver n o l w :
  forEach l (fun ob => ProgressTracker.callStateObserver ob n o) w
  = (tt,
     set_bar (if JSSet.has BarStateHook l && State_eqb n completed
              then set_bar_state completed (bar w) else bar w)
       (set_trace (trace w ++ state_events l n o) w)).
Proof.
  revert w. induction l as [|ob l IH]; intros w.
  - cbn. rewrite app_nil_r. destruct w; reflexivity.
  - cbn [forEach]. unfold bind at 1.
    destruct (ProgressTracker.callStateObserver ob n o w) as [u w1] eqn:E.
    rewrite IH. rewrite has_cons. destruct w as [en tk tr d0 t rd b ct].
    unfold ProgressTracker.callStateObserver in E.
    destruct ob as [r th|r hp hs th|];
      [destruct th | destruct hs, th |];
      unfold_monad; cbn in E;
      try (destruct (State_eqb n completed));
      inversion E; cbn;
      try (destruct (JSSet.has BarStateHook l)); cbn;
      rewrite ?app_nil_r, <- ?app_assoc; try reflexivity.
Qed.

Lemma notifyStateChange_run n o w :
  ProgressTracker.notifyStateChange n o w = (tt, after_notifyStateChange n o w).
Proof.
  unfold ProgressTracker.notifyStateChange. unfold_monad.
  apply forEach_callStateObserver.
Qed.

Lemma setState_run n w :
  ProgressTracker.setState n w = (tt, after_setState n w).
Proof.
  unfold ProgressTracker.setState, after_setState. unfold_monad.
  destruct (State_eqb (trk_state (tracker w)) n); cbn [negb].
  - reflexivity.
  - rewrite notifyStateChange_run. reflexivity.
Qed.

Lemma increment_completed a w :
  trk_state (tracker w) = completed ->
  ProgressTracker.increment a w = (snapshot w, after_getProgress w).
Proof.
  intros H. unfold ProgressTracker.increment. unfold_monad.
  rewrite H. cbn [State_eqb]. apply getProgress_run.
Qed.

Lemma increment_active a w :
  trk_state (tracker w) <> completed ->
  ProgressTracker.increment a w = after_increment a w.
Proof.
  intros H. apply State_eqb_neq in H.
  unfold ProgressTracker.increment, after_increment, performance_now.
  unfold_monad. rewrite H.
  rewrite getProgress_run.
  cbn [trk_state tracker after_getProgress after_calculate set_div0
       set_tracker set_calculator set_tick set_lastUpdateTime set_trk_current].
  rewrite H. cbn [negb]. rewrite andb_true_r.
  destruct (isComplete _) eqn:E.
  - rewrite setState_run. rewrite notifyObservers_run. reflexivity.
  - rewrite notifyObservers_run. reflexivity.
Qed.

(** projections of a world built from setters *)
Ltac proj :=
  cbn [fst snd env tick trace div0 tracker renderer bar cleanupTasks
       set_tick set_trace set_div0 set_tracker set_renderer set_bar
       set_cleanupTasks
       trk_total trk_current trk_description startTime lastUpdateTime
       calculator observers trk_state stateObservers
       set_trk_total set_trk_current set_startTime set_lastUpdateTime
       set_calculator set_observers set_trk_state set_stateObservers
       speedHistory maxHistorySize set_speedHistory
       bar_state updateInterval cleanupFn set_bar_state set_updateInterval
       set_cleanupFn
       current total percentage elapsed eta speed isComplete isIndeterminate
       description state
       cd_current cd_total cd_percentage cd_elapsed cd_eta cd_speed
       cd_isComplete cd_isIndeterminate
       snapshot calculated after_getProgress after_calculate
       after_notifyStateChange] in *.

Lemma after_setState_tracker n w :
  tracker (after_setState n w) = set_trk_state n (tracker w).
Proof.
  unfold after_setState.
  destruct (State_eqb (trk_state (tracker w)) n) eqn:E; proj.
  - apply State_eqb_eq in E. rewrite <- E. destruct (tracker w); reflexivity.
  - reflexivity.
Qed.

Lemma increment_fields_completed a w :
  trk_state (tracker w) = completed ->
  let w' := snd (ProgressTracker.increment a w) in
  trk_total (tracker w') = trk_total (tracker w)
  /\ trk_current (tracker w') = trk_current (tracker w)
  /\ trk_state (tracker w') = completed.
Proof.
  intros H. rewrite (increment_completed a w H). proj. auto.
Qed.

Lemma increment_fields_active a w :
  trk_state (tracker w) <> completed ->
  let w' := snd (ProgressTracker.increment a w) in
  let c := Math.min (trk_total (tracker w)) (trk_current (tracker w) + a) in
  trk_total (tracker w') = trk_total (tracker w)
  /\ trk_current (tracker w') = c
  /\ trk_state (tracker w') =
       if JS.ge c (trk_total (tracker w)) then completed
       else trk_state (tracker w).
Proof.
  intros H. rewrite (increment_active a w H). unfold after_increment. proj.
  destruct (JS.ge _ _); proj; rewrite ?after_setState_tracker; proj; auto.
Qed.

(** *** Sums *)

Lemma fold_sum_acc (l : list Q) (x : Q) :
  fold_left (fun a b => a + b) l x == x + sum l.
Proof.
  unfold sum. revert x. induction l as [|a l IH]; intros x; cbn [fold_left].
  - lra.
  - rewrite (IH (x + a)), (IH (0 + a)). lra.
Qed.

Lemma sum_cons a l : sum (a :: l) == a + sum l.
Proof. unfold sum at 1. cbn [fold_left]. rewrite fold_sum_acc. lra. Qed.

Lemma sum_app l1 l2 : sum (l1 ++ l2) == sum l1 + sum l2.
Proof.
  induction l1 as [|a l1 IH]; cbn [app].
  - unfold sum at 2. cbn. lra.
  - rewrite !sum_cons, IH. lra.
Qed.

Lemma sum_nonneg l : Forall (fun a => 0 <= a) l -> 0 <= sum l.
Proof.
  induction 1 as [|a l Ha Hl IH].
  - unfold sum. cbn. lra.
  - rewrite sum_cons. lra.
Qed.

(** *** Sequences of calls *)


Lemma increments_cons a l w :
  snd (increments (a :: l) w)
  = snd (increments l (snd (ProgressTracker.increment a w))).
Proof.
  unfold increments, run_ops. cbn [map forEach run_op]. unfold bind, ret.
  destruct (ProgressTracker.increment a w) as [p w1]. reflexivity.
Qed.



Lemma min_cases (x y : Q) :
  (x <= y /\ Math.min x y == x) \/ (y < x /\ Math.min x y == y).
Proof.
  unfold Math.min.
  destruct (Q.min_spec x y) as [[H E]|[H E]].
  - left. split; [lra | exact E].
  - destruct (Qlt_le_dec y x) as [L|L].
    + right. split; [exact L | exact E].
    + left. split; [exact L |]. rewrite E. lra.
Qed.





(** ** Percentage *)

Lemma percentage_of_bounds cur tot :
  0 < tot -> 0 <= cur <= tot -> 0 <= percentage_of cur tot <= 100.
Proof.
  intros Ht [H0 H1]. unfold percentage_of.
  assert (G : JS.gt tot 0 = true) by (apply JS_gt_iff; exact Ht). rewrite G.
  assert (Hq0 : 0 <= cur / tot).
  { apply Qle_shift_div_l; [exact Ht | lra]. }
  assert (Hq1 : cur / tot <= 1).
  { apply Qle_shift_div_r; [exact Ht | lra]. }
  pose proof (round_nonneg (cur / tot * 100 * 100)) as R0.
  pose proof (round_le_Z (cur / tot * 100 * 100) 10000) as R1.
  change (inject_Z 10000) with 10000 in R1.
  split.
  - apply Qle_shift_div_l; [reflexivity | lra].
  - apply Qle_shift_div_r; [reflexivity | lra].
Qed.

Lemma percentage_of_full cur tot :
  0 < tot -> cur == tot -> percentage_of cur tot == 100.
Proof.
  intros Ht E. unfold percentage_of.
  assert (G : JS.gt tot 0 = true) by (apply JS_gt_iff; exact Ht). rewrite G.
  assert (Hq : cur / tot * 100 * 100 == inject_Z 10000).
  { rewrite E. unfold Qdiv. rewrite Qmult_inv_r; [reflexivity | lra]. }
  rewrite (round_comp _ _ Hq), round_Z. reflexivity.
Qed.

Lemma percentage_of_indeterminate cur tot :
  tot <= 0 -> percentage_of cur tot = 0.
Proof.
  intros Ht. unfold percentage_of.
  destruct (JS.gt tot 0) eqn:G; [|reflexivity].
  apply JS_gt_iff in G. lra.
Qed.

(** C2: for [total > 0] and [0 <= current <= total] the percentage that
    [calculate] returns is between 0 and 100; for [current = total] it is
    100; for [total <= 0] it is 0. *)
Theorem calculate_percentage_bounds (w : World) (cur tot st lu : Q) :
  let p := cd_percentage (fst (StandardProgressCalculator.calculate cur tot st lu w)) in
  (0 < tot -> 0 <= cur <= tot -> 0 <= p <= 100)
  /\ (0 < tot -> cur == tot -> p == 100)
  /\ (tot <= 0 -> p == 0).
Proof.
  rewrite calculate_run. proj. repeat split.
  - apply percentage_of_bounds; assumption.
  - apply percentage_of_bounds; assumption.
  - apply percentage_of_full.
  - intros H. rewrite (percentage_of_indeterminate _ _ H). reflexivity.
Qed.

Lemma calculate_percentage_bounds_witness :
  (0 <= cd_percentage (fst (StandardProgressCalculator.calculate 1 3 0 0 world0))
   <= 100)
  /\ cd_percentage (fst (StandardProgressCalculator.calculate 7 7 0 0 world0))
     == 100
  /\ cd_percentage (fst (StandardProgressCalculator.calculate 2 (-1) 0 0 world0))
     == 0.
Proof.
  split; [|split].
  - apply (calculate_percentage_bounds world0 1 3 0 0); [reflexivity|].
    split; discriminate.
  - apply (calculate_percentage_bounds world0 7 7 0 0); reflexivity.
  - apply (calculate_percentage_bounds world0 2 (-1) 0 0). discriminate.
Defined.

(** ** Speed history, divisors and the ETA *)

Lemma Qeq_bool_pos x : 0 < x -> Qeq_bool x 0 = false.
Proof.
  intros H. destruct (Qeq_bool x 0) eqn:E; [|reflexivity].
  apply Qeq_bool_iff in E. lra.
Qed.

Lemma push_sample_length c s :
  List.length (push_sample c s)
  = if Nat.ltb (maxHistorySize c) (S (List.length (speedHistory c)))
    then List.length (speedHistory c)
    else S (List.length (speedHistory c)).
Proof.
  unfold push_sample. rewrite length_app. cbn [List.length].
  rewrite Nat.add_1_r.
  destruct (Nat.ltb _ _); [|rewrite length_app, Nat.add_1_r; reflexivity].
  destruct (speedHistory c); cbn; [reflexivity|].
  rewrite length_app. cbn. lia.
Qed.

Lemma push_sample_nonempty c s :
  (1 <= maxHistorySize c)%nat -> (1 <= List.length (push_sample c s))%nat.
Proof.
  intros H. rewrite push_sample_length.
  destruct (Nat.ltb _ _) eqn:E; [apply Nat.ltb_lt in E|]; lia.
Qed.


Lemma of_nat_pos n : (1 <= n)%nat -> 0 < JS.of_nat n.
Proof.
  intros H. unfold JS.of_nat. change 0 with (inject_Z 0).
  rewrite <- Zlt_Qlt. lia.
Qed.

Lemma zero_divisor_never c cur tot e :
  (1 <= maxHistorySize c)%nat -> zero_divisor c cur tot e = false.
Proof.
  intros Hmax. unfold zero_divisor.
  apply orb_false_iff; split; [apply orb_false_iff; split|].
  - destruct (JS.gt tot 0) eqn:G; [|reflexivity].
    apply JS_gt_iff in G. cbn. apply Qeq_bool_pos, G.
  - destruct (JS.le e 0) eqn:L; [reflexivity|].
    apply JS_le_false_iff in L. cbn.
    rewrite (Qeq_bool_pos e L). cbn.
    apply Qeq_bool_pos, of_nat_pos, push_sample_nonempty, Hmax.
  - destruct (JS.gt (speed_next c cur e) 0) eqn:G.
    + apply JS_gt_iff in G. rewrite (Qeq_bool_pos _ G). apply andb_false_r.
    + rewrite andb_false_r. reflexivity.
Qed.

Lemma eta_of_nonneg cur tot spd : 0 <= eta_of cur tot spd.
Proof.
  unfold eta_of.
  destruct (JS.gt cur 0 && JS.lt cur tot && JS.gt spd 0) eqn:E; [|lra].
  apply andb_true_iff in E. destruct E as [E E3].
  apply andb_true_iff in E. destruct E as [E1 E2].
  apply JS_gt_iff in E1, E3. apply JS_lt_iff in E2.
  apply Qle_shift_div_l; [exact E3 | lra].
Qed.

(** C7: the ETA that [calculate] returns is [(total - current) / speed]
    exactly when [current > 0], [current < total] and [speed > 0] ([speed]
    being the speed of the same result), and [0] otherwise; it is never
    negative; and no division of the call has a zero divisor (the flag
    [div0] stays down), for a calculator whose history capacity is at least
    one (it is 10). *)
Theorem calculate_eta (w : World) (cur tot st lu : Q) :
  (1 <= maxHistorySize (calculator (tracker w)))%nat ->
  let r := StandardProgressCalculator.calculate cur tot st lu w in
  let cd := fst r in
  (0 < cur /\ cur < tot /\ 0 < cd_speed cd ->
   cd_eta cd = (tot - cur) / cd_speed cd)
  /\ (~ (0 < cur /\ cur < tot /\ 0 < cd_speed cd) -> cd_eta cd = 0)
  /\ 0 <= cd_eta cd
  /\ div0 (snd r) = div0 w.
Proof.
  intros Hmax. rewrite calculate_run. proj.
  set (s := speed_next _ _ _).
  repeat split.
  - intros (H1 & H2 & H3). unfold eta_of.
    apply JS_gt_iff in H1, H3. apply JS_lt_iff in H2.
    rewrite H1, H2, H3. reflexivity.
  - intros H. unfold eta_of.
    destruct (JS.gt cur 0 && JS.lt cur tot && JS.gt s 0) eqn:E; [|reflexivity].
    apply andb_true_iff in E. destruct E as [E E3].
    apply andb_true_iff in E. destruct E as [E1 E2].
    apply JS_gt_iff in E1, E3. apply JS_lt_iff in E2. tauto.
  - apply eta_of_nonneg.
  - rewrite zero_divisor_never by exact Hmax. apply orb_false_r.
Qed.

Lemma calculate_eta_witness :
  let r := StandardProgressCalculator.calculate 2 5 0 0 world0 in
  cd_eta (fst r) = (5 - 2) / cd_speed (fst r)
  /\ 0 <= cd_eta (fst r)
  /\ div0 (snd r) = false.
Proof.
  destruct (calculate_eta world0 2 5 0 0) as (H1 & _ & H3 & H4).
  - cbn. lia.
  - split; [|split; [exact H3 | exact H4]].
    apply H1. repeat split.
Defined.

(** the same call, evaluated: one second has passed, the speed is 2 per
    second and 3 units remain *)
Example calculate_eta_run :
  let r := StandardProgressCalculator.calculate 2 5 0 0 world0 in
  cd_elapsed (fst r) == 1 /\ cd_speed (fst r) == 2 /\ cd_eta (fst r) == 3 # 2.
Proof. cbv zeta. repeat split; vm_compute; reflexivity. Qed.

(** ** Observers *)

Lemma add_twice o s : JSSet.add o (JSSet.add o s) = JSSet.add o s.
Proof.
  unfold JSSet.add at 1.
  assert (H : JSSet.has o (JSSet.add o s) = true).
  { apply has_In. unfold JSSet.add. destruct (JSSet.has o s) eqn:E.
    - apply has_In, E.
    - apply in_or_app. right. left. reflexivity. }
  rewrite H. reflexivity.
Qed.

Lemma add_count o s :
  NoDup s -> count_occ Observer_eq_dec (JSSet.add o s) o = 1%nat.
Proof.
  intros Hnd. unfold JSSet.add. destruct (JSSet.has o s) eqn:E.
  - apply has_In in E. apply NoDup_count_occ'; assumption.
  - rewrite count_occ_app. cbn [count_occ].
    destruct (Observer_eq_dec o o); [|congruence].
    assert (Hn : ~ In o s).
    { intros Hin. apply has_In in Hin. congruence. }
    apply (count_occ_not_In Observer_eq_dec) in Hn. rewrite Hn. reflexivity.
Qed.

Lemma notifications_app o l1 l2 :
  notifications o (l1 ++ l2) = (notifications o l1 + notifications o l2)%nat.
Proof. unfold notifications. rewrite filter_app, length_app. reflexivity. Qed.

Lemma progress_events_cons x s p :
  progress_events (x :: s) p = progress_events [x] p ++ progress_events s p.
Proof.
  unfold progress_events. cbn [flat_map]. rewrite app_nil_r. reflexivity.
Qed.

Lemma state_events_cons x s n old :
  state_events (x :: s) n old = state_events [x] n old ++ state_events s n old.
Proof.
  unfold state_events. cbn [flat_map]. rewrite app_nil_r. reflexivity.
Qed.

Lemma notifications_progress o s p :
  notifications o (progress_events s p)
  = if takes_progress o then count_occ Observer_eq_dec s o else 0%nat.
Proof.
  induction s as [|x s IH].
  - cbn. destruct (takes_progress o); reflexivity.
  - rewrite progress_events_cons.
    rewrite notifications_app, IH. cbn [count_occ].
    destruct (Observer_eq_dec x o) as [E|E].
    + subst x. destruct o as [r th|r hp hs th|];
        [destruct th | destruct hp, th |]; cbn;
        repeat match goal with
        | |- context [Observer_eq_dec ?a ?b] =>
            destruct (Observer_eq_dec a b); [|congruence]
        end; reflexivity.
    + assert (H0 : notifications o (progress_events [x] p) = 0%nat).
      { destruct x as [r th|r hp hs th|];
          [destruct th | destruct hp, th |]; cbn;
          repeat match goal with
          | |- context [Observer_eq_dec ?a ?b] =>
              destruct (Observer_eq_dec a b); [congruence|]
          end; reflexivity. }
      rewrite H0. destruct (takes_progress o); reflexivity.
Qed.

Lemma notifications_state o s n old :
  notifications o (state_events s n old) = 0%nat.
Proof.
  induction s as [|x s IH]; [reflexivity|].
  rewrite state_events_cons.
  rewrite notifications_app, IH.
  destruct x as [r th|r hp hs th|]; [destruct th | destruct hs, th |];
    reflexivity.
Qed.

Lemma new_events_app w w' l :
  trace w' = trace w ++ l -> new_events w w' = l.
Proof.
  intros H. unfold new_events. rewrite H.
  rewrite skipn_app, skipn_all, Nat.sub_diag. reflexivity.
Qed.

(** the events of one [increment] on a tracker that is not completed *)
Lemma increment_trace a w :
  trk_state (tracker w) <> completed ->
  let r := ProgressTracker.increment a w in
  exists sev,
    trace (snd r)
    = trace w ++ sev ++ progress_events (observers (tracker w)) (fst r)
    /\ forall o, notifications o sev = 0%nat.
Proof.
  intros H. cbv zeta. rewrite (increment_active a w H).
  unfold after_increment. proj.
  destruct (JS.ge _ _).
  - unfold after_setState. proj.
    apply State_eqb_neq in H. rewrite H. proj.
    eexists. split.
    + rewrite <- app_assoc. reflexivity.
    + intros o. apply notifications_state.
  - proj. exists []. split; [reflexivity|]. reflexivity.
Qed.

Lemma addObserver_run o w :
  ProgressTracker.addObserver o w
  = (DeleteObserver o,
     set_tracker (set_observers (JSSet.add o (observers (tracker w))) (tracker w)) w).
Proof. reflexivity. Qed.

Lemma removeObserver_run o w :
  ProgressTracker.removeObserver o w
  = (JSSet.has o (observers (tracker w)),
     set_tracker
       (set_observers (remove Observer_eq_dec o (observers (tracker w)))
          (tracker w)) w).
Proof. reflexivity. Qed.

(** C10: registering the same observer twice with [addObserver] stores it
    once; one [increment] (on a tracker that is not completed) then calls it
    exactly once; and calling either of the two returned functions removes
    it, so that a later [increment] does not call it. *)
Theorem addObserver_twice (w : World) (o : Observer) (a : Q) :
  NoDup (observers (tracker w)) ->
  takes_progress o = true ->
  trk_state (tracker w) <> completed ->
  let r1 := ProgressTracker.addObserver o w in
  let r2 := ProgressTracker.addObserver o (snd r1) in
  let w2 := snd r2 in
  count_occ Observer_eq_dec (observers (tracker w2)) o = 1%nat
  /\ notifications o (new_events w2 (snd (ProgressTracker.increment a w2))) = 1%nat
  /\ forall h, h = fst r1 \/ h = fst r2 ->
       let w3 := snd (ProgressTracker.call h w2) in
       ~ In o (observers (tracker w3))
       /\ notifications o (new_events w3 (snd (ProgressTracker.increment a w3)))
          = 0%nat.
Proof.
  intros Hnd Hcall Hst r1 r2 w2.
  assert (Hobs : observers (tracker w2) = JSSet.add o (observers (tracker w))).
  { subst w2 r2 r1. rewrite !addObserver_run. proj. apply add_twice. }
  assert (Hst2 : trk_state (tracker w2) <> completed) by exact Hst.
  split; [rewrite Hobs; apply add_count, Hnd|]. split.
  - destruct (increment_trace a w2 Hst2) as (sev & E & Hsev). cbv zeta in E.
    rewrite (new_events_app _ _ _ E), !notifications_app, Hsev.
    rewrite notifications_progress, Hcall, Hobs.
    apply add_count, Hnd.
  - intros h Hh w3.
    assert (Eh : h = DeleteObserver o) by (destruct Hh; assumption).
    assert (Hst3 : trk_state (tracker w3) <> completed).
    { subst w3 h. exact Hst. }
    assert (Hnot : ~ In o (observers (tracker w3))).
    { subst w3 h. cbn [ProgressTracker.call]. rewrite removeObserver_run.
      proj. apply remove_In. }
    split; [exact Hnot|].
    destruct (increment_trace a w3 Hst3) as (sev & E & Hsev). cbv zeta in E.
    rewrite (new_events_app _ _ _ E), !notifications_app, Hsev.
    rewrite notifications_progress, Hcall.
    apply (count_occ_not_In Observer_eq_dec) in Hnot. rewrite Hnot. reflexivity.
Qed.

Lemma addObserver_twice_witness :
  let w := snd (ProgressTracker.new 5 "job" world0) in
  let o := Callback 1 false in
  let r1 := ProgressTracker.addObserver o w in
  let r2 := ProgressTracker.addObserver o (snd r1) in
  let w2 := snd r2 in
  count_occ Observer_eq_dec (observers (tracker w2)) o = 1%nat
  /\ notifications o (new_events w2 (snd (ProgressTracker.increment 1 w2))) = 1%nat
  /\ forall h, h = fst r1 \/ h = fst r2 ->
       let w3 := snd (ProgressTracker.call h w2) in
       ~ In o (observers (tracker w3))
       /\ notifications o (new_events w3 (snd (ProgressTracker.increment 1 w3)))
          = 0%nat.
Proof.
  apply (addObserver_twice (snd (ProgressTracker.new 5 "job" world0))
           (Callback 1 false) 1).
  - constructor.
  - reflexivity.
  - discriminate.
Defined.

(** ** complete *)

Lemma complete_completed w :
  trk_state (tracker w) = completed ->
  ProgressTracker.complete w = (snapshot w, after_getProgress w).
Proof.
  intros H. unfold ProgressTracker.complete. unfold_monad.
  rewrite H. cbn [State_eqb]. apply getProgress_run.
Qed.

Lemma complete_active w :
  trk_state (tracker w) <> completed ->
  ProgressTracker.complete w
  = let w1 := set_tracker (set_trk_current (trk_total (tracker w)) (tracker w)) w in
    let w2 := after_setState completed w1 in
    (snapshot w2, after_getProgress w2).
Proof.
  intros H. apply State_eqb_neq in H.
  unfold ProgressTracker.complete. unfold_monad. rewrite H.
  rewrite setState_run, getProgress_run. reflexivity.
Qed.

Lemma after_setState_trace_same n w :
  trk_state (tracker w) = n -> after_setState n w = w.
Proof.
  intros H. unfold after_setState. rewrite H, State_eqb_refl. reflexivity.
Qed.

Lemma eta_of_complete cur tot spd : tot <= cur -> eta_of cur tot spd = 0.
Proof.
  intros H. unfold eta_of.
  assert (E : JS.lt cur tot = false) by (apply JS_lt_false_iff; exact H).
  rewrite E, andb_false_r. reflexivity.
Qed.

(** C3 (amended): [complete()] on a tracker that is not completed sets
    [current] to [total] and the state to [completed]; a second call changes
    neither [current], [total] nor the state, appends nothing to the trace
    (no observer is called) and returns a snapshot that agrees with the first
    one in [current], [total], [percentage], [eta], [isComplete],
    [isIndeterminate], [description] and [state]. *)
Theorem complete_twice (w : World) :
  trk_state (tracker w) <> completed ->
  let r1 := ProgressTracker.complete w in
  let r2 := ProgressTracker.complete (snd r1) in
  let t1 := tracker (snd r1) in
  let t2 := tracker (snd r2) in
  (trk_current t1 = trk_total (tracker w)
   /\ trk_total t1 = trk_total (tracker w)
   /\ trk_state t1 = completed)
  /\ (trk_current t2 = trk_current t1
      /\ trk_total t2 = trk_total t1
      /\ trk_state t2 = trk_state t1)
  /\ new_events (snd r1) (snd r2) = []
  /\ bar (snd r2) = bar (snd r1)
  /\ (current (fst r2) = current (fst r1)
      /\ total (fst r2) = total (fst r1)
      /\ percentage (fst r2) = percentage (fst r1)
      /\ eta (fst r2) = eta (fst r1)
      /\ isComplete (fst r2) = isComplete (fst r1)
      /\ isIndeterminate (fst r2) = isIndeterminate (fst r1)
      /\ description (fst r2) = description (fst r1)
      /\ state (fst r2) = state (fst r1)).
Proof.
  intros H r1 r2 t1 t2.
  assert (E1 : r1 = _) by (apply (complete_active w H)). cbv zeta in E1.
  assert (Hs1 : trk_state (tracker (snd r1)) = completed).
  { rewrite E1. proj. rewrite after_setState_tracker. reflexivity. }
  assert (E2 : r2 = _) by (apply (complete_completed (snd r1) Hs1)).
  assert (Hc1 : trk_current t1 = trk_total (tracker w)).
  { subst t1. rewrite E1. proj. rewrite after_setState_tracker. reflexivity. }
  assert (Ht1 : trk_total t1 = trk_total (tracker w)).
  { subst t1. rewrite E1. proj. rewrite after_setState_tracker. reflexivity. }
  split; [auto|]. split.
  { subst t2. rewrite E2. proj. auto. }
  split.
  { apply new_events_app. rewrite E2. proj. rewrite app_nil_r. reflexivity. }
  split.
  { rewrite E2. reflexivity. }
  rewrite E2. proj. unfold t1 in Hc1, Ht1. rewrite Hc1, Ht1, Hs1.
  rewrite E1. proj. rewrite !after_setState_tracker. proj.
  rewrite !eta_of_complete by lra.
  repeat split; reflexivity.
Qed.

Lemma complete_twice_witness :
  let w := snd (ProgressTracker.new 5 "job" world0) in
  let r1 := ProgressTracker.complete w in
  let r2 := ProgressTracker.complete (snd r1) in
  let t1 := tracker (snd r1) in
  let t2 := tracker (snd r2) in
  (trk_current t1 = trk_total (tracker w)
   /\ trk_total t1 = trk_total (tracker w)
   /\ trk_state t1 = completed)
  /\ (trk_current t2 = trk_current t1
      /\ trk_total t2 = trk_total t1
      /\ trk_state t2 = trk_state t1)
  /\ new_events (snd r1) (snd r2) = []
  /\ bar (snd r2) = bar (snd r1)
  /\ (current (fst r2) = current (fst r1)
      /\ total (fst r2) = total (fst r1)
      /\ percentage (fst r2) = percentage (fst r1)
      /\ eta (fst r2) = eta (fst r1)
      /\ isComplete (fst r2) = isComplete (fst r1)
      /\ isIndeterminate (fst r2) = isIndeterminate (fst r1)
      /\ description (fst r2) = description (fst r1)
      /\ state (fst r2) = state (fst r1)).
Proof.
  apply (complete_twice (snd (ProgressTracker.new 5 "job" world0))).
  discriminate.
Defined.

(** C3 as stated fails: the second [complete()] recomputes the snapshot, so
    its [elapsed] and [speed] are those of a later clock reading. *)
Lemma complete_twice_snapshots_differ :
  let w := snd (ProgressTracker.new 5 "job" world0) in
  let r1 := ProgressTracker.complete w in
  let r2 := ProgressTracker.complete (snd r1) in
  fst r2 <> fst r1
  /\ elapsed (fst r1) == 1 # 4 /\ elapsed (fst r2) == 1 # 2
  /\ speed (fst r1) == 20 /\ speed (fst r2) == 15.
Proof.
  cbv zeta. split.
  - intros H. apply (f_equal elapsed) in H. vm_compute in H. discriminate.
  - repeat split; vm_compute; reflexivity.
Qed.

(** ** The bar: [stop] after completion *)

(** [stop()] writes ["stopped"] over ["completed"]: after
    [bar.complete()] the bar's state is ["stopped"], so the guard
    [this.state === "completed"] of a second [complete()] does not hold and
    the renderer is called again. *)
Lemma bar_complete_twice_renders_twice :
  let w1 := snd (ProgressBar.createSilent 5 "job" world0) in
  let w2 := snd (ProgressBar.complete w1) in
  let w3 := snd (ProgressBar.complete w2) in
  bar_state (bar w2) = stopped
  /\ List.length (silent_history w2) = 1%nat
  /\ List.length (silent_history w3) = 2%nat.
Proof. cbv zeta. repeat split; vm_compute; reflexivity. Qed.

(** C4, at the failing input: a silent bar of total 5 is completed with
    [complete()]; the tracker is completed, the bar's state is ["stopped"];
    [update(1)] then calls the renderer once more (the history grows from
    one entry to two) with a snapshot that is complete. *)
Theorem update_after_complete_renders_again :
  let w1 := snd (ProgressBar.createSilent 5 "job" world0) in
  let w2 := snd (ProgressBar.complete w1) in
  let r3 := ProgressBar.update 1 w2 in
  trk_state (tracker w2) = completed
  /\ bar_state (bar w2) = stopped
  /\ List.length (silent_history w2) = 1%nat
  /\ isComplete (fst r3) = true
  /\ List.length (silent_history (snd r3)) = 2%nat.
Proof. cbv zeta. repeat split; vm_compute; reflexivity. Qed.

(** C4, the part that holds: [increment] on a completed tracker returns a
    snapshot in state [completed], changes neither [current], [total] nor
    the state, and calls no observer. *)
Lemma increment_after_completed a w :
  trk_state (tracker w) = completed ->
  let r := ProgressTracker.increment a w in
  state (fst r) = completed
  /\ trk_current (tracker (snd r)) = trk_current (tracker w)
  /\ trk_total (tracker (snd r)) = trk_total (tracker w)
  /\ trk_state (tracker (snd r)) = trk_state (tracker w)
  /\ new_events w (snd r) = []
  /\ bar (snd r) = bar w
  /\ renderer (snd r) = renderer w.
Proof.
  intros H. cbv zeta. rewrite (increment_completed a w H). proj.
  repeat split; try assumption.
  apply new_events_app. rewrite app_nil_r. reflexivity.
Qed.

(** and [update] on a bar whose own state is [completed] does not call the
    renderer *)
Lemma update_when_bar_completed a w :
  bar_state (bar w) = completed ->
  let r := ProgressBar.update a w in
  r = ProgressTracker.getProgress w
  /\ new_events w (snd r) = []
  /\ bar (snd r) = bar w
  /\ renderer (snd r) = renderer w.
Proof.
  intros H. cbv zeta. unfold ProgressBar.update. unfold_monad.
  rewrite H. cbn [State_eqb]. unfold ProgressBar.getProgress.
  rewrite getProgress_run. proj. repeat split.
  apply new_events_app. rewrite app_nil_r. reflexivity.
Qed.

(** C9, at the failing input: the task calls [update(1)] twice and returns
    42 for a total of 5; the helper returns 42, the tracker is completed,
    but the bar's state is ["stopped"]. *)
Theorem withProgress_returning_ends_stopped :
  let task := {| updates := [1; 1]; outcome := Returns 42%nat |} in
  let r := CLIProgressHelper.withProgress 5 "job" task world0 in
  fst r = Returns 42%nat
  /\ trk_state (tracker (snd r)) = completed
  /\ bar_state (bar (snd r)) = stopped.
Proof. cbv zeta. repeat split; vm_compute; reflexivity. Qed.

(** when the updates of the task reach the total, the bar ends
    ["completed"] *)
Lemma withProgress_full_task_ends_completed :
  let task := {| updates := [1; 1; 1; 1; 1]; outcome := Returns 42%nat |} in
  let r := CLIProgressHelper.withProgress 5 "job" task world0 in
  fst r = Returns 42%nat
  /\ trk_state (tracker (snd r)) = completed
  /\ bar_state (bar (snd r)) = completed.
Proof. cbv zeta. repeat split; vm_compute; reflexivity. Qed.

(** ** reset *)

Lemma reset_run w : ProgressTracker.reset w = (tt, after_reset w).
Proof.
  unfold ProgressTracker.reset, after_reset, performance_now,
    StandardProgressCalculator.set_history.
  unfold_monad. rewrite setState_run. reflexivity.
Qed.

(** ** The range of [current] *)


Lemma run_ops_cons o l w :
  snd (run_ops (o :: l) w) = snd (run_ops l (snd (run_op o w))).
Proof.
  unfold run_ops. cbn [forEach]. unfold bind.
  destruct (run_op o w) as [u w1]. reflexivity.
Qed.






(** ** The throttle of the console renderer *)

Ltac unfold_render :=
  unfold ConsoleProgressRenderer.render, ConsoleProgressRenderer.spinnerLine,
    ConsoleProgressRenderer.renderTemplate, ConsoleProgressRenderer.put,
    Colors.success, Colors.info, Colors.colorize,
    TerminalUtils.clearLine, TerminalUtils.supportsColor,
    TerminalUtils.isInteractive, performance_now in *;
  unfold_monad.






(** ** The speed history *)

Lemma monotone_le e m n :
  monotone e -> (m <= n)%nat -> performance_clock e m <= performance_clock e n.
Proof.
  intros H Hle. induction Hle as [|n Hle IH]; [lra|].
  pose proof (H n). lra.
Qed.






Lemma after_setState_env n w : env (after_setState n w) = env w.
Proof.
  unfold after_setState. destruct (State_eqb _ _); reflexivity.
Qed.

Lemma after_setState_tick n w : tick (after_setState n w) = tick w.
Proof.
  unfold after_setState. destruct (State_eqb _ _); reflexivity.
Qed.










Lemma new_history_ok T d w0 :
  let w := snd (ProgressTracker.new T d w0) in
  env w = env w0 /\ history_ok w.
Proof.
  unfold ProgressTracker.new, performance_now. unfold_monad. cbn [snd].
  split; [reflexivity|]. unfold history_ok. proj. cbn.
  split; [reflexivity|]. split; [lia|]. congruence.
Qed.




Lemma env0_monotone : monotone env0.
Proof.
  intros n. unfold env0, performance_clock, JS.of_nat.
  rewrite Nat2Z.inj_succ. unfold Z.succ. rewrite inject_Z_plus.
  change (inject_Z 1) with 1. lra.
Qed.



(** ** The bar and the helper *)

Lemma console_render_bar r p w :
  bar (snd (ConsoleProgressRenderer.render r p w)) = bar w.
Proof.
  destruct w as [en tk tr d0 t rd b ct].
  destruct r as [cfg lll sp lrt hrc].
  destruct en as [pc dc tty ci fc0 cols bl tt'].
  unfold_render.
  cbn [env tick config lastRenderTime set_tick set_lastRenderTime
       hasRenderedCompletion spinner performance_clock].
  destruct (JS.gt (updateThrottle cfg) 0 && JS.lt (pc tk - lrt) (updateThrottle cfg));
    [reflexivity|].
  destruct (isComplete p), hrc; cbn [andb]; try reflexivity;
    destruct (template cfg); try reflexivity;
    destruct (isIndeterminate p), tty, ci, fc0;
    cbn -[String.append String.length nth Nat.modulo JS.eq JS.rem_is_zero];
    try destruct (useColors cfg);
    cbn -[String.append String.length nth Nat.modulo JS.eq JS.rem_is_zero];
    try reflexivity;
    repeat match goal with
    | |- context [if ?b then _ else _] => destruct b
    end; reflexivity.
Qed.

Lemma render_bar p w : bar (snd (RendererM.render p w)) = bar w.
Proof.
  unfold RendererM.render. unfold_monad.
  destruct (renderer w) as [c|s].
  - pose proof (console_render_bar c p w) as H.
    destruct (ConsoleProgressRenderer.render c p w) as [o w']. exact H.
  - reflexivity.
Qed.

Lemma after_setState_bar_state n w :
  bar_state (bar (after_setState n w)) = bar_state (bar w)
  \/ bar_state (bar (after_setState n w)) = completed.
Proof.
  unfold after_setState. destruct (State_eqb _ _); [left; reflexivity|].
  proj. destruct (hook_fires _ _); [right | left]; reflexivity.
Qed.

Lemma increment_bar_state a w :
  let w' := snd (ProgressTracker.increment a w) in
  bar_state (bar w') = bar_state (bar w) \/ bar_state (bar w') = completed.
Proof.
  cbv zeta.
  destruct (State_eqb (trk_state (tracker w)) completed) eqn:Es.
  - apply State_eqb_eq in Es. rewrite (increment_completed a w Es).
    left. reflexivity.
  - apply State_eqb_neq in Es. rewrite (increment_active a w Es).
    unfold after_increment.
    set (w1 := set_tracker _ (set_tick _ w)).
    destruct (isComplete (snapshot w1)); proj; [|left; reflexivity].
    apply (after_setState_bar_state completed (after_getProgress w1)).
Qed.

Lemma stop_bar_state w :
  bar_state (bar (snd (ProgressBar.stop w)))
  = match bar_state (bar w) with idle => idle | _ => stopped end.
Proof.
  unfold ProgressBar.stop, TerminalUtils.showCursor,
    TerminalUtils.isInteractive, ProcessManager.deleteTask.
  unfold_monad.
  destruct (bar_state (bar w)) eqn:E; cbn [State_eqb orb]; proj;
    rewrite ?E; try reflexivity;
    destruct (isTTY (env w) && negb (CI_true (env w))); proj;
    destruct (updateInterval (bar w)); proj;
    destruct (cleanupFn (bar w)); proj; reflexivity.
Qed.

Lemma update_not_idle a w :
  bar_state (bar w) <> idle ->
  bar_state (bar (snd (ProgressBar.update a w))) <> idle.
Proof.
  intros H. unfold ProgressBar.update. unfold_monad.
  destruct (State_eqb (bar_state (bar w)) completed) eqn:Ec.
  - unfold ProgressBar.getProgress. rewrite getProgress_run. exact H.
  - apply State_eqb_neq in H. rewrite H.
    destruct (ProgressTracker.increment a w) as [p w1] eqn:Ei.
    assert (H1 : bar_state (bar w1) <> idle).
    { pose proof (increment_bar_state a w) as Hb. cbv zeta in Hb.
      rewrite Ei in Hb. cbn [snd] in Hb. apply State_eqb_neq in H.
      destruct Hb as [Hb|Hb]; rewrite Hb; [exact H | discriminate]. }
    destruct (RendererM.render p w1) as [u w2] eqn:Er.
    assert (H2 : bar (w2) = bar w1).
    { pose proof (render_bar p w1) as Hb. rewrite Er in Hb. exact Hb. }
    rewrite H2.
    destruct (isComplete p && negb (State_eqb (bar_state (bar w1)) completed)).
    + destruct (ProgressBar.stop _) as [u' w3] eqn:Es. cbn [snd].
      pose proof (stop_bar_state
                    (set_bar (set_bar_state completed (bar w2)) w2)) as Hs.
      rewrite Es in Hs. cbn [snd] in Hs. proj. rewrite Hs. discriminate.
    + cbn [snd]. rewrite H2. exact H1.
Qed.

Lemma start_not_idle w : bar_state (bar (snd (ProgressBar.start w))) <> idle.
Proof.
  unfold ProgressBar.start, TerminalUtils.hideCursor,
    TerminalUtils.isInteractive, ProcessManager.addCleanupTask.
  unfold_monad.
  destruct (State_eqb (bar_state (bar w)) idle) eqn:E; cbn [negb].
  - rewrite setState_run. proj.
    set (w1 := set_bar _ w).
    assert (Hb : bar_state (bar (after_setState active w1)) = active).
    { unfold after_setState.
      destruct (State_eqb (trk_state (tracker w1)) active); [reflexivity|].
      proj. unfold hook_fires. cbn [State_eqb]. rewrite andb_false_r.
      reflexivity. }
    destruct (isTTY (env (after_setState active w1))
              && negb (CI_true (env (after_setState active w1)))); proj;
      destruct (JS.le _ 0); proj; rewrite Hb; discriminate.
  - apply State_eqb_neq in E. exact E.
Qed.

Lemma updates_not_idle l w :
  bar_state (bar w) <> idle ->
  bar_state
    (bar (snd (forEach l (fun increment => _ <- ProgressBar.update increment ;; ret tt) w)))
  <> idle.
Proof.
  revert w. induction l as [|a l IH]; intros w H; [exact H|].
  cbn [forEach]. unfold bind at 1. unfold bind at 1. unfold ret at 1.
  pose proof (update_not_idle a w H) as H1.
  destruct (ProgressBar.update a w) as [p w1]. apply IH. exact H1.
Qed.

(** C9, the part that holds: when the task raises, the helper hands the same
    error on, the bar ends ["stopped"], and the last thing written is the
    failure line that names the description and the message. *)
Lemma withProgress_failure {R} (T : Q) (d : string) (task : Task R)
    (e : JSError) (w : World) :
  outcome task = Throws e ->
  let r := CLIProgressHelper.withProgress T d task w in
  let text := (LF ++ "✗ " ++ d ++ " failed: " ++ message e)%string in
  fst r = Throws e
  /\ bar_state (bar (snd r)) = stopped
  /\ exists tr msg,
       trace (snd r) = tr ++ [ConsoleError msg]
       /\ (msg = text
           \/ msg = (Colors.codes Colors.red ++ text
                     ++ Colors.codes Colors.reset)%string).
Proof.
  intros Ho. cbv zeta.
  unfold CLIProgressHelper.withProgress, Colors.error, Colors.colorize,
    TerminalUtils.supportsColor.
  rewrite Ho. unfold_monad.
  destruct (ProgressBarBuilder.build _ w) as [u0 w0].
  pose proof (start_not_idle w0) as Hs.
  destruct (ProgressBar.start w0) as [u1 w1]. cbn [snd] in Hs.
  pose proof (updates_not_idle (updates task) w1 Hs) as Hu. unfold_monad.
  destruct (forEach (updates task) _ w1) as [u2 w2]. cbn [snd] in Hu.
  pose proof (stop_bar_state w2) as Hst.
  destruct (ProgressBar.stop w2) as [u3 w3]. cbn [snd] in Hst.
  assert (Hb : bar_state (bar w3) = stopped).
  { rewrite Hst. destruct (bar_state (bar w2)); congruence. }
  proj.
  split; [reflexivity|]. split; [exact Hb|].
  exists (trace w3). eexists. split; [reflexivity|].
  destruct (isTTY (env w3) && negb (FORCE_COLOR_0 (env w3))); auto.
Qed.

(** ** Runs *)

(** [Math.round] rounds halves up *)
Example round_halves :
  Math.round (5 # 2) == 3 /\ Math.round (- (5 # 2)) == -2
  /\ Math.round (- (2 # 5)) == 0 /\ Math.round (33333 # 10) == 3333.
Proof. repeat split; vm_compute; reflexivity. Qed.

(** a tracker of total 5 after five [increment(1)]: the last snapshot has
    [current = 5], 100 percent and [isComplete]; the tracker is completed *)
Example five_increments :
  let w := snd (increments [1; 1; 1; 1]
                  (snd (ProgressTracker.new 5 "job" world0))) in
  let r := ProgressTracker.increment 1 w in
  current (fst r) == 5 /\ percentage (fst r) == 100
  /\ isComplete (fst r) = true /\ eta (fst r) == 0
  /\ trk_state (tracker (snd r)) = completed.
Proof. cbv zeta. repeat split; vm_compute; reflexivity. Qed.

(** an indeterminate tracker (total 0): every snapshot is indeterminate with
    0 percent *)
Example indeterminate_snapshot :
  let r := ProgressTracker.increment 1 (snd (ProgressTracker.new 0 "job" world0)) in
  isIndeterminate (fst r) = true /\ percentage (fst r) == 0.
Proof. cbv zeta. repeat split; vm_compute; reflexivity. Qed.

(** twelve snapshots in a row: the history holds the ten most recent
    samples *)
Example twelve_snapshots :
  let w := snd (run_ops (Increment 3 :: repeat GetProgress 11)
                  (snd (ProgressTracker.new 5 "job" world0))) in
  List.length (speedHistory (calculator (tracker w))) = 10%nat
  /\ hd 0 (speedHistory (calculator (tracker w))) == 3.
Proof. cbv zeta. repeat split; vm_compute; reflexivity. Qed.

(** when the bar is filled by [update] itself, its state stays
    ["completed"] ([stop] is not called) and a further [update] does not
    call the renderer *)
Example update_after_full_bar :
  let w1 := snd (ProgressBar.createSilent 2 "job" world0) in
  let w2 := snd (ProgressBar.update 1 (snd (ProgressBar.update 1 w1))) in
  let w3 := snd (ProgressBar.update 1 w2) in
  bar_state (bar w2) = completed
  /\ List.length (silent_history w2) = 2%nat
  /\ List.length (silent_history w3) = 2%nat
  /\ bar_state (bar w3) = completed.
Proof. cbv zeta. repeat split; vm_compute; reflexivity. Qed.

(** * Further properties of the code *)

(** ** Percentage and [current] *)

Lemma round_monotone x y : x <= y -> Math.round x <= Math.round y.
Proof.
  intros H. unfold Math.round. rewrite <- Zle_Qle.
  apply Qfloor_resp_le. lra.
Qed.

Lemma percentage_of_monotone c1 c2 tot :
  c1 <= c2 -> percentage_of c1 tot <= percentage_of c2 tot.
Proof.
  intros H. unfold percentage_of.
  destruct (JS.gt tot 0) eqn:G; [|lra].
  apply JS_gt_iff in G.
  assert (Hq : c1 / tot <= c2 / tot).
  { unfold Qdiv. apply Qmult_le_compat_r; [exact H|].
    apply Qlt_le_weak, Qinv_lt_0_compat, G. }
  pose proof (round_monotone (c1 / tot * 100 * 100) (c2 / tot * 100 * 100)) as R.
  apply Qle_shift_div_l; [reflexivity|].
  assert (E : Math.round (c1 / tot * 100 * 100) / 100 * 100
              == Math.round (c1 / tot * 100 * 100)) by field.
  rewrite E. apply R. lra.
Qed.

(** [increment] with a non-negative amount never lowers the percentage: the
    snapshot it returns has a percentage at least that of a snapshot taken
    just before, on a tracker whose [current] does not exceed its total (or
    that is completed). *)
Theorem increment_percentage_monotone (a : Q) (w : World) :
  0 <= a ->
  trk_current (tracker w) <= trk_total (tracker w)
  \/ trk_state (tracker w) = completed ->
  percentage (fst (ProgressTracker.getProgress w))
  <= percentage (fst (ProgressTracker.increment a w)).
Proof.
  intros Ha Hr. rewrite getProgress_run. proj.
  destruct (State_eqb (trk_state (tracker w)) completed) eqn:Es.
  - apply State_eqb_eq in Es. rewrite (increment_completed a w Es). proj. lra.
  - apply State_eqb_neq in Es. rewrite (increment_active a w Es).
    unfold after_increment. proj.
    destruct Hr as [Hr|Hr]; [|congruence].
    apply percentage_of_monotone.
    destruct (min_cases (trk_total (tracker w)) (trk_current (tracker w) + a))
      as [[? E]|[? E]]; rewrite E; lra.
Qed.

Lemma increment_percentage_monotone_witness :
  let w := snd (increments [1] (snd (ProgressTracker.new 3 "job" world0))) in
  percentage (fst (ProgressTracker.getProgress w))
  <= percentage (fst (ProgressTracker.increment 1 w)).
Proof.
  apply (increment_percentage_monotone 1
           (snd (increments [1] (snd (ProgressTracker.new 3 "job" world0))))).
  - discriminate.
  - left. vm_compute. discriminate.
Defined.

(** ** When the tracker completes *)




(** The snapshot that the completing [increment] returns is built before
    the state changes: it has [isComplete = true] but still carries the
    state the tracker had before the call, while the tracker itself is
    [completed] afterwards and [current] equals the total. *)
Theorem completing_increment_snapshot (a : Q) (w : World) :
  trk_state (tracker w) <> completed ->
  trk_total (tracker w) <= trk_current (tracker w) + a ->
  let r := ProgressTracker.increment a w in
  isComplete (fst r) = true
  /\ state (fst r) = trk_state (tracker w)
  /\ current (fst r) == trk_total (tracker w)
  /\ trk_state (tracker (snd r)) = completed.
Proof.
  intros Hs Hle r.
  destruct (increment_fields_active a w Hs) as (_ & _ & Hst). cbv zeta in Hst.
  subst r. rewrite (increment_active a w Hs) in *. unfold after_increment in *.
  proj.
  destruct (min_cases (trk_total (tracker w)) (trk_current (tracker w) + a))
    as [[? E]|[? E]]; [|lra].
  assert (Hge : JS.ge (Math.min (trk_total (tracker w))
                         (trk_current (tracker w) + a))
                  (trk_total (tracker w)) = true).
  { apply JS_ge_iff. rewrite E. lra. }
  rewrite Hge in *. repeat split; auto.
Qed.

Lemma completing_increment_snapshot_witness :
  let w := snd (ProgressTracker.new 2 "job" world0) in
  let r := ProgressTracker.increment 5 w in
  isComplete (fst r) = true
  /\ state (fst r) = trk_state (tracker w)
  /\ current (fst r) == trk_total (tracker w)
  /\ trk_state (tracker (snd r)) = completed.
Proof.
  apply (completing_increment_snapshot 5 (snd (ProgressTracker.new 2 "job" world0))).
  - discriminate.
  - discriminate.
Defined.

(** ** Who is called, and in which order *)

Lemma progress_calls_app l1 l2 :
  progress_calls (l1 ++ l2) = progress_calls l1 ++ progress_calls l2.
Proof. apply flat_map_app. Qed.

Lemma state_calls_app l1 l2 :
  state_calls (l1 ++ l2) = state_calls l1 ++ state_calls l2.
Proof. apply flat_map_app. Qed.

Lemma progress_calls_progress_events s p :
  progress_calls (progress_events s p)
  = map (fun o => (o, p)) (filter takes_progress s).
Proof.
  induction s as [|x s IH]; [reflexivity|].
  rewrite progress_events_cons, progress_calls_app, IH.
  destruct x as [r th|r hp hs th|]; [destruct th | destruct hp, th |];
    reflexivity.
Qed.

Lemma state_calls_progress_events s p : state_calls (progress_events s p) = [].
Proof.
  induction s as [|x s IH]; [reflexivity|].
  rewrite progress_events_cons, state_calls_app, IH.
  destruct x as [r th|r hp hs th|]; [destruct th | destruct hp, th |];
    reflexivity.
Qed.

Lemma state_calls_state_events s n old :
  state_calls (state_events s n old)
  = map (fun o => (o, n, old)) (filter takes_state s).
Proof.
  induction s as [|x s IH]; [reflexivity|].
  rewrite state_events_cons, state_calls_app, IH.
  destruct x as [r th|r hp hs th|]; [destruct th | destruct hs, th |];
    reflexivity.
Qed.

Lemma progress_calls_state_events s n old :
  progress_calls (state_events s n old) = [].
Proof.
  induction s as [|x s IH]; [reflexivity|].
  rewrite state_events_cons, progress_calls_app, IH.
  destruct x as [r th|r hp hs th|]; [destruct th | destruct hs, th |];
    reflexivity.
Qed.

Lemma after_setState_trace n w :
  trk_state (tracker w) <> n ->
  trace (after_setState n w)
  = trace w ++ state_events (stateObservers (tracker w)) n (trk_state (tracker w)).
Proof.
  intros H. apply State_eqb_neq in H. unfold after_setState. rewrite H.
  reflexivity.
Qed.

(** One [increment] on a tracker that is not completed calls every progress
    observer that is a function or has [onProgress] exactly once, in the
    order of registration, each with the snapshot that the call returns; an
    observer that raises does not keep the later ones from being called. *)
Theorem increment_calls_in_order (a : Q) (w : World) :
  trk_state (tracker w) <> completed ->
  let r := ProgressTracker.increment a w in
  progress_calls (new_events w (snd r))
  = map (fun o => (o, fst r)) (filter takes_progress (observers (tracker w))).
Proof.
  intros Hs r. subst r. rewrite (increment_active a w Hs).
  unfold after_increment.
  set (w1 := set_tracker _ (set_tick _ w)).
  cbn [fst snd].
  assert (Hs1 : trk_state (tracker (after_getProgress w1)) <> completed)
    by exact Hs.
  destruct (isComplete (snapshot w1)).
  - erewrite new_events_app.
    2:{ cbn [trace set_trace].
        rewrite (after_setState_trace _ _ Hs1), after_setState_tracker.
        subst w1. proj. rewrite <- app_assoc. reflexivity. }
    rewrite progress_calls_app, progress_calls_state_events,
      progress_calls_progress_events. reflexivity.
  - erewrite new_events_app by (subst w1; proj; reflexivity).
    apply progress_calls_progress_events.
Qed.

Lemma increment_calls_in_order_witness :
  let w := snd (run_ops [AddObserver (Callback 1 true);
                         AddObserver (Listener 2 false true false);
                         AddObserver (Callback 3 false)]
                  (snd (ProgressTracker.new 5 "job" world0))) in
  let r := ProgressTracker.increment 1 w in
  progress_calls (new_events w (snd r))
  = map (fun o => (o, fst r)) (filter takes_progress (observers (tracker w))).
Proof.
  apply (increment_calls_in_order 1
           (snd (run_ops [AddObserver (Callback 1 true);
                          AddObserver (Listener 2 false true false);
                          AddObserver (Callback 3 false)]
                   (snd (ProgressTracker.new 5 "job" world0))))).
  discriminate.
Defined.

(** in that run the first observer raises, the second has no [onProgress],
    and the third is still called *)
Example raising_observer_run :
  let w := snd (run_ops [AddObserver (Callback 1 true);
                         AddObserver (Listener 2 false true false);
                         AddObserver (Callback 3 false)]
                  (snd (ProgressTracker.new 5 "job" world0))) in
  let r := ProgressTracker.increment 1 w in
  map fst (progress_calls (new_events w (snd r)))
  = [Callback 1 true; Callback 3 false]
  /\ error_lines (new_events w (snd r)) = ["Observer error:"%string].
Proof. cbv zeta. split; vm_compute; reflexivity. Qed.

(** [setState(s)] with the state the tracker already has changes nothing
    and calls nobody; with another state it sets the state and calls every
    state observer that is a function or has [onStateChange] exactly once,
    in the order of registration, with the new and the old state, and no
    progress observer. *)
Theorem setState_calls (n : State) (w : World) :
  let w' := snd (ProgressTracker.setState n w) in
  (trk_state (tracker w) = n -> w' = w)
  /\ (trk_state (tracker w) <> n ->
      trk_state (tracker w') = n
      /\ state_calls (new_events w w')
         = map (fun o => (o, n, trk_state (tracker w)))
             (filter takes_state (stateObservers (tracker w)))
      /\ progress_calls (new_events w w') = []).
Proof.
  cbv zeta. rewrite setState_run. cbn [snd]. split.
  - apply after_setState_trace_same.
  - intros H. split; [rewrite after_setState_tracker; reflexivity|].
    rewrite (new_events_app _ _ _ (after_setState_trace n w H)).
    split; [apply state_calls_state_events | apply progress_calls_state_events].
Qed.

Lemma setState_calls_witness :
  let w := snd (run_ops [AddStateObserver (Callback 1 false)]
                  (snd (ProgressTracker.new 5 "job" world0))) in
  snd (ProgressTracker.setState idle w) = w
  /\ state_calls (new_events w (snd (ProgressTracker.setState active w)))
     = [(Callback 1 false, active, idle)].
Proof.
  split.
  - apply (setState_calls idle
             (snd (run_ops [AddStateObserver (Callback 1 false)]
                     (snd (ProgressTracker.new 5 "job" world0))))).
    reflexivity.
  - apply (setState_calls active
             (snd (run_ops [AddStateObserver (Callback 1 false)]
                     (snd (ProgressTracker.new 5 "job" world0))))).
    discriminate.
Defined.

(** [complete()] on a tracker that is not completed calls the state
    observers (once each, in order, with [completed] and the old state) and
    never a progress observer. *)
Theorem complete_calls (w : World) :
  trk_state (tracker w) <> completed ->
  let w' := snd (ProgressTracker.complete w) in
  progress_calls (new_events w w') = []
  /\ state_calls (new_events w w')
     = map (fun o => (o, completed, trk_state (tracker w)))
         (filter takes_state (stateObservers (tracker w))).
Proof.
  intros Hs. cbv zeta. rewrite (complete_active w Hs). cbv zeta. cbn [snd].
  set (w1 := set_tracker _ w).
  assert (Hs1 : trk_state (tracker w1) <> completed) by exact Hs.
  erewrite new_events_app.
  2:{ cbn [trace after_getProgress after_calculate set_div0 set_tracker
             set_tick].
      rewrite (after_setState_trace _ _ Hs1). subst w1. proj. reflexivity. }
  split; [apply progress_calls_state_events | apply state_calls_state_events].
Qed.

Lemma complete_calls_witness :
  let w := snd (run_ops [AddObserver (Callback 1 false);
                         AddStateObserver (Callback 2 false)]
                  (snd (ProgressTracker.new 5 "job" world0))) in
  let w' := snd (ProgressTracker.complete w) in
  progress_calls (new_events w w') = []
  /\ state_calls (new_events w w')
     = map (fun o => (o, completed, trk_state (tracker w)))
         (filter takes_state (stateObservers (tracker w))).
Proof.
  apply (complete_calls
           (snd (run_ops [AddObserver (Callback 1 false);
                          AddStateObserver (Callback 2 false)]
                   (snd (ProgressTracker.new 5 "job" world0))))).
  discriminate.
Defined.

(** ** Registering and removing observers *)

Lemma remove_notin x (s : list Observer) :
  ~ In x s -> remove Observer_eq_dec x s = s.
Proof. apply notin_remove. Qed.

Lemma remove_add_fresh o s :
  ~ In o s -> remove Observer_eq_dec o (JSSet.add o s) = s.
Proof.
  intros H. unfold JSSet.add.
  assert (E : JSSet.has o s = false).
  { destruct (JSSet.has o s) eqn:E; [|reflexivity].
    apply has_In in E. contradiction. }
  rewrite E, remove_app. cbn [remove].
  destruct (Observer_eq_dec o o); [|congruence].
  rewrite app_nil_r. apply remove_notin, H.
Qed.

Lemma set_observers_same t : set_observers (observers t) t = t.
Proof. destruct t; reflexivity. Qed.

Lemma set_tracker_same w : set_tracker (tracker w) w = w.
Proof. destruct w; reflexivity. Qed.

(** Registering an observer that was not registered and then calling the
    function that [addObserver] returned gives back the set of observers as
    it was, and the function reports [true]; [removeObserver] on an observer
    that is not registered reports [false] and changes nothing. *)
Theorem addObserver_then_remove (o : Observer) (w : World) :
  ~ In o (observers (tracker w)) ->
  let r1 := ProgressTracker.addObserver o w in
  let r2 := ProgressTracker.call (fst r1) (snd r1) in
  fst r2 = true
  /\ snd r2 = w
  /\ ProgressTracker.removeObserver o w = (false, w).
Proof.
  intros H r1 r2. subst r2 r1. rewrite addObserver_run. cbn [fst snd].
  cbn [ProgressTracker.call]. rewrite !removeObserver_run. proj.
  rewrite (remove_add_fresh o _ H), (remove_notin o _ H).
  rewrite set_observers_same.
  assert (E : JSSet.has o (observers (tracker w)) = false).
  { destruct (JSSet.has o _) eqn:E; [|reflexivity].
    apply has_In in E. contradiction. }
  rewrite E. repeat split.
  - apply has_In. unfold JSSet.add. rewrite E.
    apply in_or_app. right. left. reflexivity.
  - destruct w as [en tk tr d0 t rd b ct]. destruct t. reflexivity.
  - rewrite set_tracker_same. reflexivity.
Qed.

Lemma addObserver_then_remove_witness :
  let w := snd (run_ops [AddObserver (Callback 1 false)]
                  (snd (ProgressTracker.new 5 "job" world0))) in
  let r1 := ProgressTracker.addObserver (Callback 2 false) w in
  let r2 := ProgressTracker.call (fst r1) (snd r1) in
  fst r2 = true
  /\ snd r2 = w
  /\ ProgressTracker.removeObserver (Callback 2 false) w = (false, w).
Proof.
  apply (addObserver_then_remove (Callback 2 false)
           (snd (run_ops [AddObserver (Callback 1 false)]
                   (snd (ProgressTracker.new 5 "job" world0))))).
  vm_compute. intros [H|[]]. discriminate.
Defined.

(** ** reset *)



(** ** No negative metric *)

Lemma Qdiv_nonneg x y : 0 <= x -> 0 <= y -> 0 <= x / y.
Proof.
  intros Hx Hy. unfold Qdiv. apply Qmult_le_0_compat; [exact Hx|].
  apply Qinv_le_0_compat, Hy.
Qed.

Lemma fold_sum_nonneg l x :
  0 <= x -> Forall (fun s => 0 <= s) l -> 0 <= fold_left (fun a b => a + b) l x.
Proof.
  intros Hx Hl. rewrite fold_sum_acc. pose proof (sum_nonneg l Hl). lra.
Qed.

Lemma mean_nonneg l : Forall (fun s => 0 <= s) l -> 0 <= mean l.
Proof.
  intros H. unfold mean. apply Qdiv_nonneg.
  - apply sum_nonneg, H.
  - unfold JS.of_nat. change 0 with (inject_Z 0). rewrite <- Zle_Qle. lia.
Qed.

Lemma Forall_tl {A} (P : A -> Prop) l : Forall P l -> Forall P (tl l).
Proof. intros H. destruct H; [constructor | assumption]. Qed.

Lemma push_sample_nonneg c s :
  Forall (fun s => 0 <= s) (speedHistory c) -> 0 <= s ->
  Forall (fun s => 0 <= s) (push_sample c s).
Proof.
  intros H Hs. unfold push_sample.
  assert (Ha : Forall (fun s => 0 <= s) (speedHistory c ++ [s])).
  { apply Forall_app. split; [exact H | repeat constructor; exact Hs]. }
  destruct (Nat.ltb _ _); [apply Forall_tl, Ha | exact Ha].
Qed.

Lemma elapsed_nonneg w st : st <= now_of w -> 0 <= elapsed_at w st.
Proof.
  intros H. unfold elapsed_at. apply Qle_shift_div_l; [reflexivity | lra].
Qed.

Lemma now_of_next e w w' :
  monotone e -> env w = e -> env w' = e -> (tick w <= tick w')%nat ->
  now_of w <= now_of w'.
Proof.
  intros Hm E E' Ht. unfold now_of. rewrite E, E'.
  apply monotone_le; assumption.
Qed.

Lemma metrics_ok_frame w w' :
  monotone (env w) ->
  metrics_ok w ->
  env w' = env w ->
  (tick w <= tick w')%nat ->
  startTime (tracker w') = startTime (tracker w) ->
  calculator (tracker w') = calculator (tracker w) ->
  0 <= trk_current (tracker w') <= trk_total (tracker w') ->
  metrics_ok w'.
Proof.
  intros Hm (Hr & Hs & Hh) He Ht Hst Hc Hr'. unfold metrics_ok.
  rewrite Hst, Hc. split; [exact Hr'|]. split; [|exact Hh].
  eapply Qle_trans; [exact Hs|].
  apply (now_of_next (env w)); auto.
Qed.

Lemma snapshot_nonneg_ok w :
  metrics_ok w -> snapshot_nonneg (snapshot w).
Proof.
  intros (Hr & Hs & Hh). unfold snapshot_nonneg. proj.
  set (c := calculator (tracker w)) in *.
  set (e := elapsed_at w (startTime (tracker w))).
  assert (He : 0 <= e) by (apply elapsed_nonneg, Hs).
  split; [exact Hr|]. split.
  { destruct (Qlt_le_dec 0 (trk_total (tracker w))) as [Hp|Hp].
    - apply percentage_of_bounds; assumption.
    - rewrite (percentage_of_indeterminate _ _ Hp). lra. }
  split; [exact He|]. split; [|apply eta_of_nonneg].
  unfold speed_next. destruct (JS.le e 0); [lra|].
  apply mean_nonneg, push_sample_nonneg; [exact Hh|].
  apply Qdiv_nonneg; [apply Hr | exact He].
Qed.

Lemma metrics_ok_getProgress w :
  monotone (env w) -> metrics_ok w -> metrics_ok (after_getProgress w).
Proof.
  intros Hm H. pose proof H as (Hr & Hs & Hh). unfold metrics_ok. proj.
  split; [exact Hr|]. split.
  - eapply Qle_trans; [exact Hs|].
    apply (now_of_next (env w)); [exact Hm | reflexivity | reflexivity |].
    cbn. lia.
  - unfold history_next.
    destruct (JS.le _ 0); [exact Hh|].
    apply push_sample_nonneg; [exact Hh|].
    apply Qdiv_nonneg; [apply Hr | apply elapsed_nonneg, Hs].
Qed.

Ltac metrics_frame w0 :=
  apply (metrics_ok_frame w0);
  [ try assumption
  | try assumption
  | proj; rewrite ?after_setState_env; reflexivity
  | proj; rewrite ?after_setState_tick; proj; lia
  | proj; rewrite ?after_setState_tracker; reflexivity
  | proj; rewrite ?after_setState_tracker; reflexivity
  | proj; rewrite ?after_setState_tracker; proj ].

Lemma metrics_ok_setState n w :
  monotone (env w) -> metrics_ok w -> metrics_ok (after_setState n w).
Proof.
  intros Hm H. metrics_frame w. apply H.
Qed.

Lemma increment_metrics a w :
  monotone (env w) -> 0 <= a -> metrics_ok w ->
  let r := ProgressTracker.increment a w in
  env (snd r) = env w /\ metrics_ok (snd r) /\ snapshot_nonneg (fst r).
Proof.
  intros Hm Ha H. cbv zeta. pose proof H as (Hr & Hs & Hh).
  destruct (State_eqb (trk_state (tracker w)) completed) eqn:Es.
  - apply State_eqb_eq in Es. rewrite (increment_completed a w Es). cbn [fst snd].
    split; [reflexivity|]. split.
    + apply metrics_ok_getProgress; assumption.
    + apply snapshot_nonneg_ok, H.
  - apply State_eqb_neq in Es. rewrite (increment_active a w Es).
    unfold after_increment.
    set (w1 := set_tracker _ (set_tick _ w)).
    assert (H1 : metrics_ok w1).
    { subst w1. unfold metrics_ok. proj. split; [|split].
      - destruct (min_cases (trk_total (tracker w)) (trk_current (tracker w) + a))
          as [[? E]|[? E]]; rewrite E; lra.
      - eapply Qle_trans; [exact Hs|].
        apply (now_of_next (env w)); [exact Hm | reflexivity | reflexivity |].
        cbn. lia.
      - exact Hh. }
    assert (Hm1 : monotone (env w1)) by exact Hm.
    assert (H2 : metrics_ok (after_getProgress w1))
      by (apply metrics_ok_getProgress; assumption).
    assert (Hm2 : monotone (env (after_getProgress w1))) by exact Hm.
    cbn [fst snd]. split; [|split].
    + destruct (isComplete (snapshot w1)); proj;
        rewrite ?after_setState_env; reflexivity.
    + destruct (isComplete (snapshot w1)).
      * metrics_frame (after_setState completed (after_getProgress w1)).
        -- rewrite after_setState_env. exact Hm.
        -- apply metrics_ok_setState; assumption.
        -- apply H1.
      * metrics_frame (after_getProgress w1). apply H1.
    + apply snapshot_nonneg_ok, H1.
Qed.

Lemma complete_metrics w :
  monotone (env w) -> metrics_ok w ->
  let r := ProgressTracker.complete w in
  env (snd r) = env w /\ metrics_ok (snd r) /\ snapshot_nonneg (fst r).
Proof.
  intros Hm H. cbv zeta. pose proof H as (Hr & Hs & Hh).
  destruct (State_eqb (trk_state (tracker w)) completed) eqn:Es.
  - apply State_eqb_eq in Es. rewrite (complete_completed w Es). cbn [fst snd].
    split; [reflexivity|]. split.
    + apply metrics_ok_getProgress; assumption.
    + apply snapshot_nonneg_ok, H.
  - apply State_eqb_neq in Es. rewrite (complete_active w Es). cbv zeta.
    set (w1 := set_tracker _ w).
    assert (H1 : metrics_ok w1).
    { subst w1. metrics_frame w. lra. }
    assert (Hm1 : monotone (env w1)) by exact Hm.
    assert (H2 : metrics_ok (after_setState completed w1))
      by (apply metrics_ok_setState; assumption).
    assert (Hm2 : monotone (env (after_setState completed w1)))
      by (rewrite after_setState_env; exact Hm).
    cbn [fst snd]. split; [|split].
    + proj. rewrite after_setState_env. reflexivity.
    + apply metrics_ok_getProgress; assumption.
    + apply snapshot_nonneg_ok, H2.
Qed.

Lemma reset_metrics w :
  monotone (env w) -> metrics_ok w ->
  let w' := snd (ProgressTracker.reset w) in
  env w' = env w /\ metrics_ok w'.
Proof.
  intros Hm (Hr & Hs & Hh). cbv zeta. rewrite reset_run. unfold after_reset.
  cbn [snd]. split; [proj; rewrite after_setState_env; reflexivity|].
  unfold metrics_ok. proj. rewrite after_setState_tracker. proj.
  split; [lra|]. split; [|constructor].
  apply (now_of_next (env w)); [exact Hm | reflexivity | |].
  - proj. rewrite after_setState_env. reflexivity.
  - proj. rewrite after_setState_tick. cbn. lia.
Qed.

Lemma run_op_metrics o w :
  monotone (env w) -> op_ok o w -> metrics_ok w ->
  let w' := snd (run_op o w) in
  env w' = env w /\ metrics_ok w'.
Proof.
  intros Hm Hok H. cbv zeta. pose proof H as (Hr & Hs & Hh).
  destruct o as [a| | |t| |s|o|o|o|o]; cbn [run_op op_ok] in *; unfold bind, ret.
  - destruct (increment_metrics a w Hm Hok H) as (He & Hi & _).
    destruct (ProgressTracker.increment a w) as [p w']. auto.
  - destruct (complete_metrics w Hm H) as (He & Hi & _).
    destruct (ProgressTracker.complete w) as [p w']. auto.
  - apply reset_metrics; assumption.
  - unfold ProgressTracker.setTotal. unfold_monad. cbn [snd].
    split; [reflexivity|]. metrics_frame w. lra.
  - rewrite getProgress_run. cbn [snd].
    split; [reflexivity|]. apply metrics_ok_getProgress; assumption.
  - rewrite setState_run. cbn [snd].
    split; [apply after_setState_env|]. apply metrics_ok_setState; assumption.
  - rewrite addObserver_run. cbn [snd].
    split; [reflexivity|]. metrics_frame w. exact Hr.
  - rewrite removeObserver_run. cbn [snd].
    split; [reflexivity|]. metrics_frame w. exact Hr.
  - unfold ProgressTracker.addStateObserver. unfold_monad. cbn [snd].
    split; [reflexivity|]. metrics_frame w. exact Hr.
  - unfold ProgressTracker.removeStateObserver. unfold_monad. cbn [snd].
    split; [reflexivity|]. metrics_frame w. exact Hr.
Qed.

Lemma run_ops_metrics l w :
  monotone (env w) -> ops_ok l w -> metrics_ok w ->
  let w' := snd (run_ops l w) in
  env w' = env w /\ metrics_ok w'.
Proof.
  revert w. induction l as [|o l IH]; intros w Hm Hok H.
  - cbn. auto.
  - cbv zeta. rewrite run_ops_cons. destruct Hok as [Ho Hl].
    destruct (run_op_metrics o w Hm Ho H) as (He & H1). cbv zeta in He, H1.
    assert (Hm1 : monotone (env (snd (run_op o w)))) by (rewrite He; exact Hm).
    destruct (IH _ Hm1 Hl H1) as (He' & H2). cbv zeta in He', H2.
    split; [congruence | exact H2].
Qed.

Lemma new_metrics_ok T d w0 :
  monotone (env w0) -> 0 <= T ->
  metrics_ok (snd (ProgressTracker.new T d w0)).
Proof.
  intros Hm HT. unfold ProgressTracker.new, performance_now. unfold_monad.
  cbn [snd]. unfold metrics_ok. proj. split; [lra|]. split; [|constructor].
  unfold now_of. proj. apply Hm.
Qed.

(** With a clock that never goes back, in every state reached from a fresh
    tracker with a non-negative total by calls whose increments are
    non-negative and whose [setTotal] does not go below [current], every
    snapshot that [getProgress], [increment] (non-negative amount) or
    [complete] returns has [0 <= current <= total], a percentage between 0
    and 100, and non-negative [elapsed], [speed] and [eta]. *)
Theorem snapshots_nonneg (w0 : World) (T : Q) (d : string) (ops : list Op) :
  monotone (env w0) ->
  0 <= T ->
  let fresh := snd (ProgressTracker.new T d w0) in
  ops_ok ops fresh ->
  let w := snd (run_ops ops fresh) in
  snapshot_nonneg (fst (ProgressTracker.getProgress w))
  /\ (forall a, 0 <= a -> snapshot_nonneg (fst (ProgressTracker.increment a w)))
  /\ snapshot_nonneg (fst (ProgressTracker.complete w)).
Proof.
  intros Hm HT fresh Hok w.
  pose proof (new_metrics_ok T d w0 Hm HT) as H0. fold fresh in H0.
  destruct (new_history_ok T d w0) as (He0 & _). cbv zeta in He0. fold fresh in He0.
  assert (Hm0 : monotone (env fresh)) by (rewrite He0; exact Hm).
  destruct (run_ops_metrics ops fresh Hm0 Hok H0) as (He & H). cbv zeta in He, H.
  fold w in He, H.
  assert (Hmw : monotone (env w)) by (rewrite He; exact Hm0).
  split; [|split].
  - rewrite getProgress_run. apply snapshot_nonneg_ok, H.
  - intros a Ha. apply (increment_metrics a w Hmw Ha H).
  - apply (complete_metrics w Hmw H).
Qed.

Lemma snapshots_nonneg_witness :
  let ops := [Increment 1; GetProgress; SetTotal 4; Increment 2; Reset;
              Increment 1] in
  let w := snd (run_ops ops (snd (ProgressTracker.new 5 "job" world0))) in
  snapshot_nonneg (fst (ProgressTracker.getProgress w))
  /\ (forall a, 0 <= a -> snapshot_nonneg (fst (ProgressTracker.increment a w)))
  /\ snapshot_nonneg (fst (ProgressTracker.complete w)).
Proof.
  apply (snapshots_nonneg world0 5 "job"
           [Increment 1; GetProgress; SetTotal 4; Increment 2; Reset;
            Increment 1]).
  - exact env0_monotone.
  - discriminate.
  - vm_compute. intuition discriminate.
Defined.

(** ** The buffering renderer *)

Lemma silent_render_run s p w :
  renderer w = Silent s ->
  RendererM.render p w
  = (tt,
     set_renderer
       (Silent {| progressHistory := progressHistory s ++ [(p, date_clock (env w) (tick w))];
                  lastProgress := Some p |})
       (set_tick (S (tick w)) w)).
Proof.
  intros H. unfold RendererM.render, SilentProgressRenderer.render,
    SilentProgressRenderer.put, Date_now.
  unfold_monad. rewrite H. reflexivity.
Qed.

Lemma last_default_irrelevant {A} (l : list A) (d d' : A) :
  l <> [] -> last l d = last l d'.
Proof.
  induction l as [|a l IH]; [congruence|]. intros _.
  destruct l as [|b l]; [reflexivity|].
  change (last (b :: l) d = last (b :: l) d'). apply IH. discriminate.
Qed.

Lemma last_cons_default {A} (a : A) (l : list A) (d : A) :
  last (a :: l) d = last l a.
Proof.
  destruct l as [|b l]; [reflexivity|].
  change (last (b :: l) d = last (b :: l) a).
  apply last_default_irrelevant. discriminate.
Qed.

(** A buffering renderer that is given the snapshots [p_1 ... p_n] holds
    them afterwards, in order, behind what it held before; its last snapshot
    is [p_n] (unchanged for [n = 0]); and nothing is written to the terminal
    or the console. *)
Theorem silent_render_all (s : SilentRenderer) (ps : list ProgressData)
    (w : World) :
  renderer w = Silent s ->
  let w' := snd (render_all ps w) in
  map fst (silent_history w') = map fst (SilentProgressRenderer.getHistory s) ++ ps
  /\ (exists s', renderer w' = Silent s'
                 /\ SilentProgressRenderer.getLastProgress s'
                    = last (map Some ps) (SilentProgressRenderer.getLastProgress s))
  /\ trace w' = trace w.
Proof.
  revert s w. induction ps as [|p ps IH]; intros s w H.
  - cbn. unfold silent_history. rewrite H, app_nil_r.
    split; [reflexivity|]. split; [exists s; auto | reflexivity].
  - cbv zeta. unfold render_all. cbn [forEach]. unfold bind.
    rewrite (silent_render_run s p w H).
    set (s1 := {| progressHistory := _; lastProgress := Some p |}).
    set (w1 := set_renderer (Silent s1) _).
    destruct (IH s1 w1 eq_refl) as (Hh & (s' & Hr & Hl) & Ht).
    cbv zeta in Hh, Hr, Ht. unfold render_all in Hh, Hr, Ht.
    split; [|split].
    + rewrite Hh. subst s1. unfold SilentProgressRenderer.getHistory.
      cbn [progressHistory]. rewrite map_app. cbn [map fst].
      rewrite <- app_assoc. reflexivity.
    + exists s'. split; [exact Hr|]. rewrite Hl.
      subst s1. unfold SilentProgressRenderer.getLastProgress.
      cbn [lastProgress map]. rewrite last_cons_default. reflexivity.
    + rewrite Ht. reflexivity.
Qed.

Lemma silent_render_all_witness :
  let w := snd (ProgressBar.createSilent 5 "job" world0) in
  let w' := snd (render_all [done_snapshot; done_snapshot] w) in
  map fst (silent_history w')
  = map fst (SilentProgressRenderer.getHistory SilentProgressRenderer.new)
    ++ [done_snapshot; done_snapshot]
  /\ (exists s', renderer w' = Silent s'
                 /\ SilentProgressRenderer.getLastProgress s'
                    = last (map Some [done_snapshot; done_snapshot])
                        (SilentProgressRenderer.getLastProgress
                           SilentProgressRenderer.new))
  /\ trace w' = trace w.
Proof.
  apply (silent_render_all SilentProgressRenderer.new
           [done_snapshot; done_snapshot]
           (snd (ProgressBar.createSilent 5 "job" world0))).
  reflexivity.
Defined.

(** ** The console renderer: completion line, template *)











(** ** Spinner *)

Lemma nexts_spec n :
  forall s,
    frames s <> [] ->
    (spin_current s < List.length (frames s))%nat ->
    let len := List.length (frames s) in
    fst (nexts n s)
    = map (fun k => nth (Nat.modulo (spin_current s + k) len) (frames s) EmptyString)
        (seq 0 n)
    /\ frames (snd (nexts n s)) = frames s
    /\ spin_current (snd (nexts n s)) = Nat.modulo (spin_current s + n) len.
Proof.
  induction n as [|n IH]; intros s Hne Hlt len.
  - cbn. rewrite Nat.add_0_r, Nat.mod_small by exact Hlt. auto.
  - cbn [nexts]. unfold SpinnerM.next.
    set (s1 := {| frames := frames s; spin_current := _ |}).
    assert (Hlen : len <> 0%nat).
    { subst len. destruct (frames s); [congruence | discriminate]. }
    assert (Hlt1 : (spin_current s1 < List.length (frames s1))%nat).
    { subst s1. cbn [frames spin_current]. apply Nat.mod_upper_bound, Hlen. }
    destruct (IH s1 Hne Hlt1) as (Ho & Hf & Hc).
    destruct (nexts n s1) as [fs s2]. cbn [fst snd] in *.
    subst s1. cbn [frames spin_current] in *. fold len in Ho, Hc.
    split; [|split].
    + rewrite Ho. cbn [seq map].
      rewrite Nat.add_0_r, (Nat.mod_small (spin_current s) len Hlt).
      f_equal. rewrite <- seq_shift, map_map. apply map_ext. intros k.
      rewrite Nat.Div0.add_mod_idemp_l.
      replace (spin_current s + 1 + k)%nat with (spin_current s + S k)%nat by lia.
      reflexivity.
    + exact Hf.
    + rewrite Hc. rewrite Nat.Div0.add_mod_idemp_l.
      f_equal. lia.
Qed.

(** A spinner with at least one frame and its index inside the frame list
    walks its frames round and round:
    the [k]-th call of [next()] returns frame [(current + k) mod length],
    the index never leaves the frame list, and after [length] calls the
    spinner is where it started. *)
Theorem spinner_cycles (s : Spinner) (n : nat) :
  frames s <> [] ->
  (spin_current s < List.length (frames s))%nat ->
  let len := List.length (frames s) in
  fst (nexts n s)
  = map (fun k => nth (Nat.modulo (spin_current s + k) len) (frames s) EmptyString)
      (seq 0 n)
  /\ (spin_current (snd (nexts n s)) < len)%nat
  /\ snd (nexts len s) = s.
Proof.
  intros Hne Hlt len.
  assert (Hlen : len <> 0%nat).
  { subst len. destruct (frames s); [congruence | discriminate]. }
  destruct (nexts_spec n s Hne Hlt) as (Ho & Hf & Hc).
  split; [exact Ho|]. split.
  - rewrite Hc. apply Nat.mod_upper_bound, Hlen.
  - destruct (nexts_spec len s Hne Hlt) as (_ & Hf' & Hc').
    fold len in Hc'.
    destruct (snd (nexts len s)) as [f c]. destruct s as [f0 c0].
    cbn [frames spin_current] in *. subst f.
    f_equal. rewrite Hc'.
    rewrite <- Nat.Div0.add_mod_idemp_r, Nat.Div0.mod_same, Nat.add_0_r.
    apply Nat.mod_small, Hlt.
Qed.

Lemma spinner_cycles_witness :
  let s := SpinnerM.new in
  let len := List.length (frames s) in
  fst (nexts 13 s)
  = map (fun k => nth (Nat.modulo (spin_current s + k) len) (frames s) EmptyString)
      (seq 0 13)
  /\ (spin_current (snd (nexts 13 s)) < len)%nat
  /\ snd (nexts len s) = s.
Proof.
  apply (spinner_cycles SpinnerM.new 13).
  - discriminate.
  - cbn. lia.
Defined.

(** ** The life cycle of a bar *)

Lemma console_render_frame r p w :
  let w' := snd (ConsoleProgressRenderer.render r p w) in
  tracker w' = tracker w /\ bar w' = bar w
  /\ cleanupTasks w' = cleanupTasks w /\ env w' = env w /\ div0 w' = div0 w.
Proof.
  cbv zeta.
  destruct w as [en tk tr d0 t rd b ct].
  destruct r as [cfg lll sp lrt hrc].
  destruct en as [pc dc tty ci fc0 cols bl tt'].
  unfold_render.
  cbn [env tick config lastRenderTime set_tick set_lastRenderTime
       hasRenderedCompletion spinner performance_clock].
  destruct (JS.gt (updateThrottle cfg) 0 && JS.lt (pc tk - lrt) (updateThrottle cfg));
    [cbn; auto|].
  destruct (isComplete p), hrc; cbn [andb]; try (cbn; auto; fail);
    destruct (template cfg); try (cbn; auto; fail);
    destruct (isIndeterminate p), tty, ci, fc0;
    cbn -[String.append String.length nth Nat.modulo JS.eq JS.rem_is_zero];
    try destruct (useColors cfg);
    cbn -[String.append String.length nth Nat.modulo JS.eq JS.rem_is_zero];
    auto;
    repeat match goal with
    | |- context [if ?b then _ else _] => destruct b
    end; cbn; auto.
Qed.

Lemma render_frame p w :
  let w' := snd (RendererM.render p w) in
  tracker w' = tracker w /\ bar w' = bar w
  /\ cleanupTasks w' = cleanupTasks w /\ env w' = env w /\ div0 w' = div0 w.
Proof.
  cbv zeta. unfold RendererM.render. unfold_monad.
  destruct (renderer w) as [c|s].
  - pose proof (console_render_frame c p w) as H.
    destruct (ConsoleProgressRenderer.render c p w) as [o w']. exact H.
  - unfold SilentProgressRenderer.render, SilentProgressRenderer.put, Date_now.
    unfold_monad. cbn. auto.
Qed.

Lemma start_started w :
  bar_state (bar w) <> idle -> ProgressBar.start w = (tt, w).
Proof.
  intros H. apply State_eqb_neq in H. unfold ProgressBar.start. unfold_monad.
  rewrite H. reflexivity.
Qed.

Lemma stop_stopped w :
  bar_state (bar w) = idle \/ bar_state (bar w) = stopped ->
  ProgressBar.stop w = (tt, w).
Proof.
  intros H. unfold ProgressBar.stop. unfold_monad.
  destruct H as [H|H]; rewrite H; reflexivity.
Qed.

Lemma after_setState_bar_not_completed n w :
  n <> completed -> bar (after_setState n w) = bar w.
Proof.
  intros H. unfold after_setState. destruct (State_eqb _ n); [reflexivity|].
  proj. unfold hook_fires. apply State_eqb_neq in H. rewrite H, andb_false_r.
  reflexivity.
Qed.

Lemma after_setState_cleanupTasks n w :
  cleanupTasks (after_setState n w) = cleanupTasks w.
Proof. unfold after_setState. destruct (State_eqb _ n); reflexivity. Qed.

Lemma after_setState_renderer n w :
  renderer (after_setState n w) = renderer w.
Proof. unfold after_setState. destruct (State_eqb _ n); reflexivity. Qed.

(** [start] on an idle bar *)
Lemma start_idle w :
  bar_state (bar w) = idle ->
  let w' := snd (ProgressBar.start w) in
  bar_state (bar w') = active
  /\ cleanupFn (bar w') = true
  /\ cleanupTasks w' = S (cleanupTasks w)
  /\ updateInterval (bar w')
     = (JS.le (trk_total (tracker w)) 0 || updateInterval (bar w))
  /\ tracker w' = set_trk_state active (tracker w)
  /\ renderer w' = renderer w
  /\ env w' = env w.
Proof.
  intros H. cbv zeta.
  unfold ProgressBar.start, TerminalUtils.hideCursor,
    TerminalUtils.isInteractive, ProcessManager.addCleanupTask.
  unfold_monad. rewrite H. cbn [State_eqb negb].
  rewrite setState_run. cbn [fst snd].
  set (w1 := set_bar _ w).
  set (w2 := after_setState active w1).
  assert (Hb : bar w2 = set_bar_state active (bar w)).
  { subst w2. rewrite after_setState_bar_not_completed by discriminate.
    reflexivity. }
  assert (Ht : tracker w2 = set_trk_state active (tracker w)).
  { subst w2. rewrite after_setState_tracker. reflexivity. }
  assert (Hc : cleanupTasks w2 = cleanupTasks w).
  { subst w2. rewrite after_setState_cleanupTasks. reflexivity. }
  assert (Hr : renderer w2 = renderer w).
  { subst w2. rewrite after_setState_renderer. reflexivity. }
  assert (He : env w2 = env w).
  { subst w2. rewrite after_setState_env. reflexivity. }
  clearbody w2.
  destruct (isTTY (env w2) && negb (CI_true (env w2))); proj;
    rewrite ?Ht; proj;
    destruct (JS.le (trk_total (tracker w)) 0); proj;
    rewrite ?Hb, ?Ht, ?Hc, ?Hr, ?He; proj; repeat split.
Qed.

(** [start()] on a bar that is not idle changes nothing, so starting twice
    is starting once; on an idle bar it makes the bar and the tracker
    active, registers one cleanup task and arms the interval when the total
    is not positive (otherwise the interval flag stays as it was). *)
Theorem start_once (w : World) :
  let w1 := snd (ProgressBar.start w) in
  snd (ProgressBar.start w1) = w1
  /\ (bar_state (bar w) <> idle -> w1 = w)
  /\ (bar_state (bar w) = idle ->
      bar_state (bar w1) = active
      /\ trk_state (tracker w1) = active
      /\ cleanupTasks w1 = S (cleanupTasks w)
      /\ updateInterval (bar w1)
         = (JS.le (trk_total (tracker w)) 0 || updateInterval (bar w))).
Proof.
  cbv zeta. split; [|split].
  - rewrite (start_started _ (start_not_idle w)). reflexivity.
  - intros H. rewrite (start_started w H). reflexivity.
  - intros H. destruct (start_idle w H) as (Hb & _ & Hc & Hi & Ht & _).
    cbv zeta in *. rewrite Ht. auto.
Qed.

Lemma start_once_witness :
  let w := snd (ProgressBar.createSilent 0 "job" world0) in
  let w1 := snd (ProgressBar.start w) in
  snd (ProgressBar.start w1) = w1
  /\ bar_state (bar w1) = active
  /\ trk_state (tracker w1) = active
  /\ cleanupTasks w1 = S (cleanupTasks w)
  /\ updateInterval (bar w1)
     = (JS.le (trk_total (tracker w)) 0 || updateInterval (bar w)).
Proof.
  destruct (start_once (snd (ProgressBar.createSilent 0 "job" world0)))
    as (H1 & _ & H3).
  split; [exact H1|]. apply H3. reflexivity.
Defined.

Lemma stop_running w :
  bar_state (bar w) <> idle -> bar_state (bar w) <> stopped ->
  let w' := snd (ProgressBar.stop w) in
  bar w' = {| bar_state := stopped; updateInterval := false; cleanupFn := false |}
  /\ cleanupTasks w'
     = (if cleanupFn (bar w) then pred (cleanupTasks w) else cleanupTasks w)
  /\ tracker w' = tracker w
  /\ renderer w' = renderer w
  /\ env w' = env w
  /\ trace w' = trace w ++ (if interactive (env w) then [show_cursor] else []).
Proof.
  intros H1 H2. cbv zeta. apply State_eqb_neq in H1, H2.
  unfold ProgressBar.stop, TerminalUtils.showCursor,
    TerminalUtils.isInteractive, ProcessManager.deleteTask, interactive,
    show_cursor.
  unfold_monad. rewrite H1, H2. cbn [orb].
  destruct w as [en tk tr d0 t rd [bs ui cf] ct].
  cbn [env bar set_bar set_bar_state].
  destruct (isTTY en && negb (CI_true en)), ui, cf; cbn;
    rewrite ?app_nil_r; repeat split.
Qed.

(** [stop()] on a bar that is idle or stopped changes nothing, so stopping
    twice is stopping once; on any other bar it sets the state to
    ["stopped"], clears the interval, removes the bar's cleanup task from
    the process manager, leaves the tracker and the renderer alone and, on
    an interactive terminal, shows the cursor. *)
Theorem stop_releases (w : World) :
  let w1 := snd (ProgressBar.stop w) in
  snd (ProgressBar.stop w1) = w1
  /\ (bar_state (bar w) = idle \/ bar_state (bar w) = stopped -> w1 = w)
  /\ (bar_state (bar w) = active \/ bar_state (bar w) = completed ->
      resources w1
      = (false, false,
         if cleanupFn (bar w) then pred (cleanupTasks w) else cleanupTasks w)
      /\ bar_state (bar w1) = stopped
      /\ tracker w1 = tracker w
      /\ renderer w1 = renderer w
      /\ new_events w w1 = if interactive (env w) then [show_cursor] else []).
Proof.
  cbv zeta.
  assert (Hrun : bar_state (bar w) = active \/ bar_state (bar w) = completed ->
                 bar_state (bar w) <> idle /\ bar_state (bar w) <> stopped).
  { intros [H|H]; rewrite H; split; discriminate. }
  split; [|split].
  - assert (H : bar_state (bar (snd (ProgressBar.stop w))) = idle
                \/ bar_state (bar (snd (ProgressBar.stop w))) = stopped).
    { rewrite (stop_bar_state w). destruct (bar_state (bar w)); auto. }
    rewrite (stop_stopped _ H). reflexivity.
  - intros H. rewrite (stop_stopped w H). reflexivity.
  - intros H. destruct (Hrun H) as [H1 H2].
    destruct (stop_running w H1 H2) as (Hb & Hc & Ht & Hr & _ & Htr).
    cbv zeta in *. unfold resources. rewrite Hb, Hc. cbn.
    repeat split; try assumption.
    apply new_events_app, Htr.
Qed.

Lemma stop_releases_witness :
  let w := snd (ProgressBar.start (snd (ProgressBar.createSilent 0 "job" world0))) in
  let w1 := snd (ProgressBar.stop w) in
  snd (ProgressBar.stop w1) = w1
  /\ resources w1
     = (false, false,
        if cleanupFn (bar w) then pred (cleanupTasks w) else cleanupTasks w)
  /\ bar_state (bar w1) = stopped
  /\ tracker w1 = tracker w
  /\ renderer w1 = renderer w
  /\ new_events w w1 = if interactive (env w) then [show_cursor] else [].
Proof.
  destruct (stop_releases
              (snd (ProgressBar.start
                      (snd (ProgressBar.createSilent 0 "job" world0)))))
    as (H1 & _ & H3).
  split; [exact H1|]. apply H3. left. reflexivity.
Defined.

(** What [start] acquires, [stop] gives back: on an idle bar that holds no
    interval and no cleanup task, [start()] followed by [stop()] leaves the
    interval cleared, no cleanup task of the bar and the process manager's
    task set at its old size; the bar is ["stopped"] and the tracker stays
    ["active"]. *)
Theorem start_stop_round_trip (w : World) :
  bar_state (bar w) = idle ->
  updateInterval (bar w) = false ->
  cleanupFn (bar w) = false ->
  let w2 := snd (ProgressBar.stop (snd (ProgressBar.start w))) in
  resources w2 = resources w
  /\ bar_state (bar w2) = stopped
  /\ trk_state (tracker w2) = active.
Proof.
  intros Hs Hi Hc w2.
  destruct (start_idle w Hs) as (Hb & Hf & Hn & Hu & Ht & _).
  cbv zeta in *. set (w1 := snd (ProgressBar.start w)) in *.
  assert (H1 : bar_state (bar w1) <> idle) by (rewrite Hb; discriminate).
  assert (H2 : bar_state (bar w1) <> stopped) by (rewrite Hb; discriminate).
  destruct (stop_running w1 H1 H2) as (Hb2 & Hc2 & Ht2 & _).
  cbv zeta in *. fold w2 in Hb2, Hc2, Ht2.
  unfold resources. rewrite Hb2, Hc2, Ht2, Hf, Hn, Ht, Hi, Hc. cbn.
  repeat split.
Qed.

Lemma start_stop_round_trip_witness :
  let w := snd (ProgressBar.createSilent 0 "job" world0) in
  let w2 := snd (ProgressBar.stop (snd (ProgressBar.start w))) in
  resources w2 = resources w
  /\ bar_state (bar w2) = stopped
  /\ trk_state (tracker w2) = active.
Proof.
  apply (start_stop_round_trip (snd (ProgressBar.createSilent 0 "job" world0)));
    reflexivity.
Defined.

Lemma update_idle a w :
  bar_state (bar w) = idle ->
  ProgressBar.update a w = ProgressBar.update a (snd (ProgressBar.start w)).
Proof.
  intros H. destruct (start_idle w H) as (Hb & _). cbv zeta in Hb.
  unfold ProgressBar.update at 1 2. unfold_monad. rewrite H, Hb.
  cbn [State_eqb]. destruct (ProgressBar.start w) as [u w1]. reflexivity.
Qed.

Lemma after_setState_completed_hook w :
  In BarStateHook (stateObservers (tracker w)) ->
  trk_state (tracker w) <> completed ->
  bar (after_setState completed w) = set_bar_state completed (bar w).
Proof.
  intros Hin Hs. unfold after_setState. apply State_eqb_neq in Hs. rewrite Hs.
  proj. unfold hook_fires. apply has_In in Hin. rewrite Hin. reflexivity.
Qed.

Lemma update_running n T a w :
  bar_running n T w -> bar_running n T (snd (ProgressBar.update a w)).
Proof.
  intros (Hh & Hb & Hiff & Hres).
  unfold ProgressBar.update. unfold_monad.
  destruct (State_eqb (bar_state (bar w)) completed) eqn:Ec.
  - unfold ProgressBar.getProgress. rewrite getProgress_run. cbn [snd].
    unfold bar_running, resources in *. proj. auto.
  - apply State_eqb_neq in Ec.
    assert (Ha : bar_state (bar w) = active) by (destruct Hb; congruence).
    rewrite Ha. cbn [State_eqb].
    assert (Hs : trk_state (tracker w) <> completed).
    { intros E. apply Hiff in E. congruence. }
    rewrite (increment_active a w Hs). unfold after_increment.
    set (w1 := set_tracker _ (set_tick _ w)).
    set (p := snapshot w1).
    set (w3 := if isComplete p then _ else _).
    set (w4 := set_trace _ w3).
    assert (H3 : tracker w3
                 = (if isComplete p then set_trk_state completed
                    else (fun t => t))
                     (tracker (after_getProgress w1))
                 /\ bar w3
                    = (if isComplete p then set_bar_state completed
                       else (fun b => b)) (bar w)
                 /\ cleanupTasks w3 = cleanupTasks w).
    { subst w3. destruct (isComplete p).
      - rewrite after_setState_tracker, after_setState_cleanupTasks.
        rewrite after_setState_completed_hook; [auto | exact Hh | exact Hs].
      - auto. }
    destruct H3 as (Ht3 & Hb3 & Hc3).
    destruct (render_frame p w4) as (Rt & Rb & Rc & _). cbv zeta in Rt, Rb, Rc.
    destruct (RendererM.render p w4) as [u w5]. cbn [snd] in Rt, Rb, Rc.
    assert (Ht5 : tracker w5 = tracker w3) by (rewrite Rt; reflexivity).
    assert (Hb5 : bar w5 = bar w3) by (rewrite Rb; reflexivity).
    assert (Hc5 : cleanupTasks w5 = cleanupTasks w) by (rewrite Rc; exact Hc3).
    destruct (isComplete p) eqn:Ep.
    + rewrite Hb5, Hb3. cbn [bar_state set_bar_state State_eqb negb andb snd].
      unfold bar_running, resources in *.
      rewrite Ht5, Ht3, Hb5, Hb3, Hc5. proj.
      split; [exact Hh|]. split; [auto|]. split; [tauto|].
      inversion Hres. reflexivity.
    + cbn [andb snd]. unfold bar_running, resources in *.
      rewrite Ht5, Ht3, Hb5, Hb3, Hc5. proj.
      split; [exact Hh|]. split; [auto|]. split; [|exact Hres].
      rewrite Ha. split; intros E; [discriminate | contradiction].
Qed.

Lemma updates_running n T l w :
  bar_running n T w -> bar_running n T (snd (updates_all l w)).
Proof.
  revert w. induction l as [|a l IH]; intros w H; [exact H|].
  unfold updates_all in *. cbn [forEach]. unfold bind at 1. unfold bind at 1.
  unfold ret at 1.
  pose proof (update_running n T a w H) as H1.
  destruct (ProgressBar.update a w) as [p w1]. apply IH, H1.
Qed.

Lemma bar_new_fields T d r w0 :
  let w := snd (ProgressBar.new T d r w0) in
  bar w = {| bar_state := idle; updateInterval := false; cleanupFn := false |}
  /\ stateObservers (tracker w) = [BarStateHook]
  /\ observers (tracker w) = []
  /\ trk_state (tracker w) = idle
  /\ trk_total (tracker w) = T
  /\ trk_current (tracker w) = 0
  /\ cleanupTasks w = cleanupTasks w0
  /\ trace w = trace w0.
Proof.
  cbv zeta. unfold ProgressBar.new, ProgressTracker.new,
    ProgressTracker.addStateObserver, ProgressBar.createDefaultRenderer,
    ConsoleProgressRenderer.new, TerminalUtils.isInteractive, performance_now.
  unfold_monad.
  destruct w0 as [en tk tr d0 t rd b ct].
  destruct r as [r|]; [|destruct (isTTY en && negb (CI_true en)) eqn:E];
    cbn; rewrite ?E; cbn; repeat split.
Qed.

(** [update] never calls [stop] on a bar that it drives from the start: a
    fresh bar after any [update] calls (at least one) is active or
    completed, completed exactly when its tracker is, and it still holds
    what the automatic [start] acquired; the cleanup task stays registered
    and, for a total that is not positive, the interval stays armed, also
    after the bar is completed. *)
Theorem updates_never_stop (w0 : World) (T : Q) (d : string)
    (r : option Renderer) (a : Q) (l : list Q) :
  let w := snd (updates_all (a :: l) (snd (ProgressBar.new T d r w0))) in
  (bar_state (bar w) = active \/ bar_state (bar w) = completed)
  /\ (bar_state (bar w) = completed <-> trk_state (tracker w) = completed)
  /\ resources w = (JS.le T 0, true, S (cleanupTasks w0)).
Proof.
  cbv zeta.
  destruct (bar_new_fields T d r w0) as (Hb & Hso & _ & Hs & Ht & _ & Hc & _).
  cbv zeta in *. set (w1 := snd (ProgressBar.new T d r w0)) in *.
  assert (Hidle : bar_state (bar w1) = idle) by (rewrite Hb; reflexivity).
  destruct (start_idle w1 Hidle) as (Sb & Sf & Sn & Su & St & _).
  cbv zeta in *. set (w2 := snd (ProgressBar.start w1)) in *.
  assert (Hrun : bar_running (cleanupTasks w0) T w2).
  { unfold bar_running, resources. rewrite St, Sb, Sf, Sn, Su, Ht, Hc, Hb.
    proj. rewrite Hso. rewrite orb_false_r.
    split; [left; reflexivity|]. split; [auto|].
    split; [|reflexivity]. split; discriminate. }
  assert (E : snd (updates_all (a :: l) w1)
              = snd (updates_all l (snd (ProgressBar.update a w2)))).
  { unfold updates_all. cbn [forEach]. unfold bind at 1. unfold bind at 1.
    unfold ret at 1. rewrite (update_idle a w1 Hidle). fold w2.
    destruct (ProgressBar.update a w2) as [p w3]. reflexivity. }
  rewrite E.
  pose proof (update_running _ _ a w2 Hrun) as H1.
  destruct (updates_running _ _ l _ H1) as (_ & H2 & H3 & H4).
  split; [exact H2 | split; [exact H3 | exact H4]].
Qed.

(** a spinner-like bar (total 0) driven to completion by one [update]: it
    is completed, and its interval and its cleanup task are still there *)
Example update_completes_without_stop :
  let w := snd (updates_all [1] (snd (ProgressBar.createSilent 0 "job" world0))) in
  bar_state (bar w) = completed /\ resources w = (true, true, 1%nat).
Proof. cbv zeta. split; vm_compute; reflexivity. Qed.

Lemma after_reset_fields w :
  tracker (after_reset w)
  = set_calculator (set_speedHistory [] (calculator (tracker w)))
      (set_trk_state idle
         (set_lastUpdateTime (now_of w)
            (set_startTime (now_of w) (set_trk_current 0 (tracker w)))))
  /\ bar (after_reset w) = bar w
  /\ cleanupTasks (after_reset w) = cleanupTasks w
  /\ renderer (after_reset w) = renderer w
  /\ env (after_reset w) = env w.
Proof.
  unfold after_reset. proj.
  rewrite after_setState_tracker, after_setState_cleanupTasks,
    after_setState_renderer, after_setState_env.
  rewrite after_setState_bar_not_completed by discriminate.
  proj. repeat split.
Qed.

(** [reset()] of the bar makes bar and tracker idle again, with
    [current = 0] and an empty speed history, and resets the renderer (a
    console renderer may write its completion line again, a buffering
    renderer is emptied); but it does not [stop]: the interval and the
    cleanup task of a bar that was started stay, and the next [start]
    registers one more cleanup task. *)
Theorem bar_reset_keeps_resources (w : World) :
  let w1 := snd (ProgressBar.reset w) in
  bar_state (bar w1) = idle
  /\ trk_state (tracker w1) = idle
  /\ trk_current (tracker w1) = 0
  /\ speedHistory (calculator (tracker w1)) = []
  /\ resources w1 = resources w
  /\ match renderer w, renderer w1 with
     | Console r, Console r' =>
         hasRenderedCompletion r' = false /\ lastRenderTime r' = 0
         /\ config r' = config r
     | Silent _, Silent s' => s' = SilentProgressRenderer.new
     | _, _ => False
     end
  /\ cleanupTasks (snd (ProgressBar.start w1)) = S (cleanupTasks w).
Proof.
  cbv zeta.
  assert (E : snd (ProgressBar.reset w)
              = snd (RendererM.reset
                       (set_bar (set_bar_state idle (bar (after_reset w)))
                          (after_reset w)))).
  { unfold ProgressBar.reset. unfold_monad. rewrite reset_run. reflexivity. }
  destruct (after_reset_fields w) as (Ht & Hb & Hc & Hr & He).
  set (w0 := set_bar _ (after_reset w)) in E.
  assert (F : tracker (snd (RendererM.reset w0)) = tracker (after_reset w)
              /\ bar (snd (RendererM.reset w0)) = set_bar_state idle (bar w)
              /\ cleanupTasks (snd (RendererM.reset w0)) = cleanupTasks w
              /\ match renderer w, renderer (snd (RendererM.reset w0)) with
                 | Console r, Console r' =>
                     hasRenderedCompletion r' = false /\ lastRenderTime r' = 0
                     /\ config r' = config r
                 | Silent _, Silent s' => s' = SilentProgressRenderer.new
                 | _, _ => False
                 end).
  { unfold RendererM.reset, ConsoleProgressRenderer.reset,
      ConsoleProgressRenderer.put, SilentProgressRenderer.reset,
      SilentProgressRenderer.clear, SilentProgressRenderer.put.
    unfold_monad.
    assert (Hr0 : renderer w0 = renderer w) by (subst w0; proj; exact Hr).
    rewrite Hr0. subst w0.
    destruct (renderer w); proj; rewrite ?Hb, ?Hc; repeat split. }
  destruct F as (Ft & Fb & Fc & Fr).
  set (w1 := snd (ProgressBar.reset w)) in *.
  rewrite <- E in Ft, Fb, Fc, Fr.
  assert (Hidle : bar_state (bar w1) = idle) by (rewrite Fb; reflexivity).
  split; [exact Hidle|].
  rewrite Ft, Ht. proj. repeat split.
  - unfold resources. rewrite Fb, Fc. reflexivity.
  - exact Fr.
  - destruct (start_idle w1 Hidle) as (_ & _ & Hn & _). cbv zeta in Hn.
    rewrite Hn, Fc. reflexivity.
Qed.

(** a started bar that is reset and started again has two cleanup tasks in
    the process manager *)
Example reset_then_start_registers_again :
  let w := snd (ProgressBar.start (snd (ProgressBar.createSilent 5 "job" world0))) in
  let w1 := snd (ProgressBar.start (snd (ProgressBar.reset w))) in
  cleanupTasks w = 1%nat /\ cleanupTasks w1 = 2%nat.
Proof. cbv zeta. split; vm_compute; reflexivity. Qed.

(** ** The builder *)

Lemma build_config b w :
  built_config (snd (ProgressBarBuilder.build b w))
  = Some (config (fst (ConsoleProgressRenderer.new
                         (if or_default (arg_testMode (b_config b)) false
                          then ProgressBarBuilder.testThrottle (b_config b)
                          else b_config b) w))).
Proof.
  unfold ProgressBarBuilder.build, ProgressBar.new, ProgressTracker.new,
    ProgressTracker.addStateObserver, ConsoleProgressRenderer.new,
    performance_now, built_config.
  unfold_monad. destruct w. reflexivity.
Qed.



Lemma build_fields b w :
  let w' := snd (ProgressBarBuilder.build b w) in
  trk_total (tracker w') = b_total b
  /\ trk_description (tracker w') = b_description b
  /\ bar w' = {| bar_state := idle; updateInterval := false; cleanupFn := false |}.
Proof.
  cbv zeta. unfold ProgressBarBuilder.build. unfold_monad.
  destruct (ConsoleProgressRenderer.new _ w) as [c w1].
  destruct (bar_new_fields (b_total b) (b_description b) (Some (Console c)) w1)
    as (Hb & _ & _ & _ & Ht & _).
  cbv zeta in *. split; [exact Ht|]. split; [|exact Hb].
  unfold ProgressBar.new, ProgressTracker.new, ProgressTracker.addStateObserver,
    performance_now. unfold_monad. reflexivity.
Qed.

Lemma increments_total l w :
  trk_total (tracker (snd (increments l w))) = trk_total (tracker w).
Proof.
  revert w. induction l as [|a l IH]; intros w; [reflexivity|].
  rewrite increments_cons, IH.
  destruct (State_eqb (trk_state (tracker w)) completed) eqn:Es.
  - apply State_eqb_eq in Es. apply (increment_fields_completed a w Es).
  - apply State_eqb_neq in Es. apply (increment_fields_active a w Es).
Qed.

(** After [forSpinner()] the built bar is indeterminate: its
    renderer shows neither percentage nor ETA, every snapshot of its tracker
    is indeterminate with 0 percent, also after increments, and [start] arms
    the interval. *)
Theorem forSpinner_builds_indeterminate (b : Builder) (w : World) (l : list Q) :
  let w1 := snd (ProgressBarBuilder.build (ProgressBarBuilder.forSpinner b) w) in
  let p := fst (ProgressTracker.getProgress (snd (increments l w1))) in
  (exists c, built_config w1 = Some c
             /\ showPercentage c = false /\ showETA c = false)
  /\ isIndeterminate p = true
  /\ percentage p = 0
  /\ updateInterval (bar (snd (ProgressBar.start w1))) = true.
Proof.
  intros w1 p.
  destruct (build_fields (ProgressBarBuilder.forSpinner b) w) as (Ht & _ & Hb).
  cbv zeta in Ht, Hb. fold w1 in Ht, Hb.
  change (b_total (ProgressBarBuilder.forSpinner b)) with 0 in Ht.
  split; [|split; [|split]].
  - subst w1. rewrite build_config. eexists. split; [reflexivity|].
    destruct (or_default _ false); split; reflexivity.
  - subst p. rewrite getProgress_run. proj. rewrite increments_total, Ht.
    reflexivity.
  - subst p. rewrite getProgress_run. proj. rewrite increments_total, Ht.
    reflexivity.
  - assert (Hi : bar_state (bar w1) = idle) by (rewrite Hb; reflexivity).
    destruct (start_idle w1 Hi) as (_ & _ & _ & Hu & _). cbv zeta in Hu.
    rewrite Hu, Ht. reflexivity.
Qed.

(** ** withSpinner *)

Lemma string_app_assoc (a b c : string) :
  ((a ++ b) ++ c = a ++ (b ++ c))%string.
Proof. induction a as [|x a IH]; cbn; [reflexivity | rewrite IH; reflexivity]. Qed.

Lemma timer_fires_frame w :
  let w' := snd (timer_fires w) in
  bar w' = bar w /\ cleanupTasks w' = cleanupTasks w
  /\ trk_state (tracker w') = trk_state (tracker w).
Proof.
  cbv zeta. unfold timer_fires, interval_tick. unfold_monad.
  destruct (updateInterval (bar w)); [|cbn; auto].
  destruct (State_eqb (bar_state (bar w)) active); [|cbn; auto].
  rewrite getProgress_run.
  destruct (render_frame (snapshot w) (after_getProgress w)) as (Ht & Hb & Hc & _).
  cbv zeta in *. rewrite Ht, Hb, Hc. proj. auto.
Qed.

Lemma timer_fires_all n w :
  let w' := snd (forEach (repeat tt n) (fun _ => timer_fires) w) in
  bar w' = bar w /\ cleanupTasks w' = cleanupTasks w
  /\ trk_state (tracker w') = trk_state (tracker w).
Proof.
  revert w. induction n as [|n IH]; intros w; [cbn; auto|].
  cbv zeta.
  assert (E : snd (forEach (repeat tt (S n)) (fun _ => timer_fires) w)
              = snd (forEach (repeat tt n) (fun _ => timer_fires)
                       (snd (timer_fires w)))).
  { cbn [repeat forEach]. unfold bind. destruct (timer_fires w). reflexivity. }
  rewrite E.
  destruct (timer_fires_frame w) as (Hb & Hc & Ht). cbv zeta in *.
  destruct (IH (snd (timer_fires w))) as (Hb' & Hc' & Ht'). cbv zeta in *.
  rewrite Hb', Hc', Ht'. auto.
Qed.

Lemma createSpinner_fields d w0 :
  let w := snd (createSpinner d w0) in
  bar w = {| bar_state := idle; updateInterval := false; cleanupFn := false |}
  /\ trk_total (tracker w) = 0
  /\ trk_state (tracker w) = idle
  /\ cleanupTasks w = cleanupTasks w0.
Proof.
  cbv zeta. unfold createSpinner. unfold_monad.
  unfold ConsoleProgressRenderer.new. unfold_monad.
  match goal with
  | |- context [ProgressBar.new 0 d ?r w0] =>
      destruct (bar_new_fields 0 d r w0) as (Hb & _ & _ & Hs & Ht & _ & Hc & _)
  end.
  cbv zeta in *. auto.
Qed.

(** [withSpinner] never leaves its bar running: however the task ends and
    however often the timer fires meanwhile, the helper hands on the task's
    result or error, the bar ends ["stopped"] with the interval cleared and
    its cleanup task removed (the process manager holds as many tasks as
    before), the tracker stays ["active"], and the last thing written is
    the line that reports the outcome and names the description. *)
Theorem withSpinner_releases {R} (d : string) (task : SpinnerTask R) (w0 : World) :
  let r := withSpinner d task w0 in
  fst r = spinner_outcome task
  /\ bar_state (bar (snd r)) = stopped
  /\ resources (snd r) = (false, false, cleanupTasks w0)
  /\ trk_state (tracker (snd r)) = active
  /\ exists tr pre post,
       trace (snd r)
       = tr ++ [match spinner_outcome task with
                | Returns _ => ConsoleLog (pre ++ d ++ post)
                | Throws _ => ConsoleError (pre ++ d ++ post)
                end].
Proof.
  cbv zeta. unfold withSpinner, Colors.success, Colors.error, Colors.colorize,
    TerminalUtils.supportsColor.
  destruct (spinner_outcome task) as [res|err]; unfold_monad;
    destruct (createSpinner_fields d w0) as (Hb & Ht & Hs & Hc);
    cbv zeta in *;
    destruct (createSpinner d w0) as [u1 w1]; cbn [snd] in *;
    assert (Hidle : bar_state (bar w1) = idle) by (rewrite Hb; reflexivity);
    destruct (start_idle w1 Hidle) as (Sb & Sf & Sn & Su & St & _);
    cbv zeta in *;
    destruct (ProgressBar.start w1) as [u2 w2]; cbn [snd] in *;
    destruct (timer_fires_all (ticks task) w2) as (Tb & Tc & Tt);
    cbv zeta in *;
    destruct (forEach (repeat tt (ticks task)) _ w2) as [u3 w3];
    cbn [snd] in *;
    assert (H1 : bar_state (bar w3) <> idle) by (rewrite Tb, Sb; discriminate);
    assert (H2 : bar_state (bar w3) <> stopped)
      by (rewrite Tb, Sb; discriminate);
    destruct (stop_running w3 H1 H2) as (Pb & Pc & Pt & _); cbv zeta in *;
    destruct (ProgressBar.stop w3) as [u4 w4]; cbn [fst snd] in *;
    assert (Hres : resources w4 = (false, false, cleanupTasks w0))
      by (unfold resources; rewrite Pb, Pc, Tb, Tc, Sf, Sn, Hc; reflexivity);
    assert (Hst : trk_state (tracker w4) = active)
      by (rewrite Pt, Tt, St; reflexivity);
    assert (Hbs : bar_state (bar w4) = stopped) by (rewrite Pb; reflexivity);
    proj;
    (split; [reflexivity|]); (split; [exact Hbs|]);
    (split; [exact Hres|]); (split; [exact Hst|]);
    exists (trace w4);
    destruct (isTTY (env w4) && negb (FORCE_COLOR_0 (env w4))).
  - exists (Colors.codes Colors.green ++ "✓ ")%string,
      (" completed" ++ Colors.codes Colors.reset)%string.
    proj. do 3 f_equal.
    rewrite !string_app_assoc. reflexivity.
  - exists "✓ "%string, " completed"%string. reflexivity.
  - exists (Colors.codes Colors.red ++ "✗ ")%string,
      (" failed: " ++ message err ++ Colors.codes Colors.reset)%string.
    proj. do 3 f_equal.
    rewrite !string_app_assoc. reflexivity.
  - exists "✗ "%string, (" failed: " ++ message err)%string. reflexivity.
Qed.

(** ** Several bars *)

Section JSMapFacts.
Context {V : Type}.
Implicit Types (m : JSMap.t V) (k : string) (v : V).

Lemma map_has_get k m : JSMap.has k m = true <-> JSMap.get k m <> None.
Proof.
  unfold JSMap.has, JSMap.get. induction m as [|[k0 v0] m IH]; cbn.
  - split; [discriminate | congruence].
  - destruct (String.eqb k0 k); cbn; [split; [discriminate | reflexivity]|].
    exact IH.
Qed.

Lemma map_has_false k m : JSMap.has k m = false <-> JSMap.get k m = None.
Proof.
  pose proof (map_has_get k m) as H.
  destruct (JSMap.has k m), (JSMap.get k m); split; intros E;
    try reflexivity; try discriminate.
  - exfalso. apply (proj1 H); [reflexivity | exact E].
  - exfalso. assert (X : false = true) by (apply H; discriminate). discriminate.
Qed.

Lemma map_get_app_absent k v m :
  JSMap.get k m = None -> JSMap.get k (m ++ [(k, v)]) = Some v.
Proof.
  unfold JSMap.get. induction m as [|[k0 v0] m IH]; cbn.
  - rewrite String.eqb_refl. reflexivity.
  - destruct (String.eqb k0 k); [discriminate | exact IH].
Qed.

Lemma map_get_replace k v m :
  JSMap.get k m <> None ->
  JSMap.get k (map (fun kv => if String.eqb (fst kv) k then (k, v) else kv) m)
  = Some v.
Proof.
  unfold JSMap.get. induction m as [|[k0 v0] m IH]; cbn; [congruence|].
  destruct (String.eqb k0 k) eqn:E; cbn.
  - rewrite String.eqb_refl. reflexivity.
  - rewrite E. exact IH.
Qed.

Lemma map_get_set_same k v m : JSMap.get k (JSMap.set k v m) = Some v.
Proof.
  unfold JSMap.set. destruct (JSMap.has k m) eqn:E.
  - apply map_get_replace, map_has_get, E.
  - apply map_get_app_absent, map_has_false, E.
Qed.

Lemma map_get_set_other k k' v m :
  k' <> k -> JSMap.get k' (JSMap.set k v m) = JSMap.get k' m.
Proof.
  intros Hne. unfold JSMap.set. destruct (JSMap.has k m).
  - unfold JSMap.get. induction m as [|[k0 v0] m IH]; cbn; [reflexivity|].
    destruct (String.eqb k0 k) eqn:E; cbn.
    + apply String.eqb_eq in E. subst k0.
      assert (E' : String.eqb k k' = false) by (apply String.eqb_neq; congruence).
      rewrite E'. exact IH.
    + destruct (String.eqb k0 k'); [reflexivity | exact IH].
  - unfold JSMap.get. induction m as [|[k0 v0] m IH]; cbn.
    + assert (E' : String.eqb k k' = false) by (apply String.eqb_neq; congruence).
      rewrite E'. reflexivity.
    + destruct (String.eqb k0 k'); [reflexivity | exact IH].
Qed.

Lemma map_keys_set k v m :
  JSMap.keys (JSMap.set k v m)
  = if JSMap.has k m then JSMap.keys m else JSMap.keys m ++ [k].
Proof.
  unfold JSMap.set, JSMap.keys. destruct (JSMap.has k m).
  - rewrite map_map. apply map_ext_in. intros [k0 v0] _. cbn.
    destruct (String.eqb k0 k) eqn:E; [|reflexivity].
    apply String.eqb_eq in E. subst. reflexivity.
  - rewrite map_app. reflexivity.
Qed.


End JSMapFacts.

Lemma load_shared o w : shared (load o w) = shared w.
Proof. reflexivity. Qed.

Lemma manager_call_run {A} id o (m : M A) w g :
  MultiProgressManager.call id o m (w, g)
  = (fst (m (load o w)),
     (snd (m (load o w)),
      set_progressBars
        (JSMap.set id (store (snd (m (load o w)))) (progressBars g)) g)).
Proof.
  unfold MultiProgressManager.call. cbn [fst snd].
  destruct (m (load o w)). reflexivity.
Qed.



Lemma console_new_frame c w :
  let w' := snd (ConsoleProgressRenderer.new c w) in
  cleanupTasks w' = cleanupTasks w /\ trace w' = trace w.
Proof.
  cbv zeta. unfold ConsoleProgressRenderer.new, TerminalUtils.isInteractive.
  unfold_monad. destruct w as [en tk tr d0 t rd b ct].
  cbn. destruct (isTTY en && negb (CI_true en)); cbn; split; reflexivity.
Qed.

Lemma build_frame b w :
  let w' := snd (ProgressBarBuilder.build b w) in
  cleanupTasks w' = cleanupTasks w
  /\ trace w' = trace w
  /\ trk_state (tracker w') = idle
  /\ trk_current (tracker w') = 0.
Proof.
  cbv zeta. unfold ProgressBarBuilder.build. unfold_monad.
  match goal with
  | |- context [ConsoleProgressRenderer.new ?a w] =>
      pose proof (console_new_frame a w) as Hc;
      destruct (ConsoleProgressRenderer.new a w) as [c w1]
  end.
  destruct (bar_new_fields (b_total b) (b_description b) (Some (Console c)) w1)
    as (_ & _ & _ & Hs & _ & Hcur & Hct & Htr).
  cbv zeta in *. cbn [snd] in Hc. destruct Hc as [Hc1 Hc2].
  rewrite Hct, Htr, Hc1, Hc2. repeat split; assumption.
Qed.

(** [add(id, total, description)] stores a fresh idle bar with that total and
    description under [id] and returns it.  A new id goes to the end of the
    keys; an id that is already there keeps its place and its old bar is
    dropped without being stopped: nothing is written and the registered
    cleanup tasks stay as they were.  Every other entry is unchanged. *)
Theorem manager_add (id description : string) (total : Q) (w : World) (g : Manager) :
  let r := MultiProgressManager.add id total description (w, g) in
  let g' := snd (snd r) in
  JSMap.get id (progressBars g') = Some (fst r)
  /\ trk_total (obj_tracker (fst r)) = total
  /\ trk_description (obj_tracker (fst r)) = description
  /\ trk_state (obj_tracker (fst r)) = idle
  /\ trk_current (obj_tracker (fst r)) = 0
  /\ obj_bar (fst r)
     = {| bar_state := idle; updateInterval := false; cleanupFn := false |}
  /\ JSMap.keys (progressBars g')
     = (if JSMap.has id (progressBars g) then JSMap.keys (progressBars g)
        else JSMap.keys (progressBars g) ++ [id])
  /\ (forall id', id' <> id ->
        JSMap.get id' (progressBars g') = JSMap.get id' (progressBars g))
  /\ cleanupTasks (fst (snd r)) = cleanupTasks w
  /\ trace (fst (snd r)) = trace w.
Proof.
  cbv zeta. unfold MultiProgressManager.add. cbn [fst snd].
  set (b := ProgressBarBuilder.withDescription description
              (ProgressBarBuilder.withTotal total ProgressBarBuilder.new)).
  pose proof (build_fields b w) as Hf. pose proof (build_frame b w) as Hr.
  destruct (ProgressBarBuilder.build b w) as [x w'].
  cbv zeta in *. cbn [fst snd progressBars set_progressBars store obj_tracker
                       obj_bar] in *.
  destruct Hf as (Ht & Hd & Hb). destruct Hr as (Hc & Htr & Hs & Hcur).
  rewrite map_get_set_same, map_keys_set.
  repeat split; try assumption.
  intros id' Hne. apply map_get_set_other. exact Hne.
Qed.

Lemma manager_add_witness :
  let wg := snd (MultiProgressManager.add "a" 5 "first"
                   (world0, MultiProgressManager.new)) in
  JSMap.get "a" (progressBars
                   (snd (snd (MultiProgressManager.add "b" 3 "second"
                                (fst wg, snd wg)))))
  = JSMap.get "a" (progressBars (snd wg)).
Proof.
  cbv zeta.
  set (wg := snd (MultiProgressManager.add "a" 5 "first"
                    (world0, MultiProgressManager.new))).
  destruct (manager_add "b" "second" 3 (fst wg) (snd wg))
    as (_ & _ & _ & _ & _ & _ & _ & H & _).
  apply (H "a"%string). discriminate.
Defined.

Lemma stop_cleanupTasks o w :
  let w' := snd (ProgressBar.stop (load o w)) in
  cleanupTasks w'
  = (if obj_running o && cleanupFn (obj_bar o) then pred (cleanupTasks w)
     else cleanupTasks w)
  /\ bar_state (bar w') = match bar_state (obj_bar o) with
                          | idle => idle | _ => stopped end.
Proof.
  cbv zeta. split; [|apply (stop_bar_state (load o w))].
  unfold obj_running.
  destruct (State_eqb (bar_state (obj_bar o)) idle) eqn:E1.
  { apply State_eqb_eq in E1. rewrite (stop_stopped (load o w)); [reflexivity|].
    left. exact E1. }
  destruct (State_eqb (bar_state (obj_bar o)) stopped) eqn:E2.
  { apply State_eqb_eq in E2. rewrite (stop_stopped (load o w)); [reflexivity|].
    right. exact E2. }
  apply State_eqb_neq in E1, E2.
  destruct (stop_running (load o w) E1 E2) as (_ & H & _).
  cbv zeta in H. rewrite H. reflexivity.
Qed.

Lemma map_keys_delete {V} k (m : JSMap.t V) :
  JSMap.keys (snd (JSMap.delete k m))
  = filter (fun k' => negb (String.eqb k' k)) (JSMap.keys m).
Proof.
  unfold JSMap.delete, JSMap.keys. cbn [snd].
  induction m as [|[k0 v0] m IH]; cbn; [reflexivity|].
  destruct (String.eqb k0 k); cbn; rewrite IH; reflexivity.
Qed.




Lemma stop_all_cleanupTasks l :
  forall w g,
    NoDup (JSMap.keys l) ->
    (forall id o, In (id, o) l -> JSMap.get id (progressBars g) = Some o) ->
    cleanupTasks (fst (snd (MultiProgressManager.stop_all l (w, g))))
    = (cleanupTasks w - releasing l)%nat.
Proof.
  induction l as [|[id o] l IH]; intros w g Hnd Hin.
  - cbn. unfold releasing. cbn. lia.
  - cbn [MultiProgressManager.stop_all fst snd].
    rewrite (Hin id o (or_introl eq_refl)).
    rewrite manager_call_run. cbn [JSMap.keys map fst] in Hnd.
    inversion Hnd as [|? ? Hni Hnd']; subst.
    rewrite IH.
    + destruct (stop_cleanupTasks o w) as [Hc _]. cbv zeta in Hc. rewrite Hc.
      unfold releasing. cbn [filter snd].
      destruct (obj_running o && cleanupFn (obj_bar o)); cbn [Datatypes.length]; lia.
    + exact Hnd'.
    + intros id' o' Hi. cbn [progressBars set_progressBars].
      rewrite map_get_set_other.
      * apply Hin. right. exact Hi.
      * intros ->. apply Hni. unfold JSMap.keys.
        change id with (fst (id, o')). apply in_map. exact Hi.
Qed.

Lemma map_get_in {V} (m : JSMap.t V) :
  NoDup (JSMap.keys m) ->
  forall k v, In (k, v) m -> JSMap.get k m = Some v.
Proof.
  unfold JSMap.keys, JSMap.get.
  induction m as [|[k0 v0] m IH]; intros Hnd k v Hi; [destruct Hi|].
  cbn in *. inversion Hnd as [|? ? Hni Hnd']; subst.
  destruct Hi as [Hi|Hi].
  - inversion Hi; subst. rewrite String.eqb_refl. reflexivity.
  - destruct (String.eqb k0 k) eqn:E.
    + apply String.eqb_eq in E. subst k0. exfalso. apply Hni.
      change k with (fst (k, v)). apply in_map. exact Hi.
    + apply IH; assumption.
Qed.

(** [clear()] stops every stored bar and empties the map: afterwards no id is
    found, and the registered cleanup tasks are fewer by the number of bars
    that were running with a cleanup task of their own. *)
Theorem manager_clear (w : World) (g : Manager)
    (Hkeys : NoDup (JSMap.keys (progressBars g))) :
  let r := MultiProgressManager.clear (w, g) in
  progressBars (snd (snd r)) = []
  /\ (forall id, fst (MultiProgressManager.get id (snd r)) = None)
  /\ cleanupTasks (fst (snd r))
     = (cleanupTasks w - releasing (progressBars g))%nat.
Proof.
  cbv zeta. unfold MultiProgressManager.clear. cbn [fst snd].
  pose proof (stop_all_cleanupTasks (progressBars g) w g Hkeys
                (map_get_in (progressBars g) Hkeys)) as H.
  destruct (MultiProgressManager.stop_all (progressBars g) (w, g)) as [u wg'].
  cbn [fst snd progressBars set_progressBars] in *.
  split; [reflexivity|]. split; [reflexivity|]. exact H.
Qed.

Lemma manager_clear_witness :
  let wg := snd (MultiProgressManager.update "a" 1
                   (snd (MultiProgressManager.add "a" 5 "first"
                           (world0, MultiProgressManager.new)))) in
  NoDup (JSMap.keys (progressBars (snd wg)))
  /\ cleanupTasks (fst wg) = 1%nat
  /\ cleanupTasks (fst (snd (MultiProgressManager.clear (fst wg, snd wg)))) = 0%nat.
Proof.
  cbv zeta.
  set (wg := snd (MultiProgressManager.update "a" 1
                    (snd (MultiProgressManager.add "a" 5 "first"
                            (world0, MultiProgressManager.new))))).
  assert (K : JSMap.keys (progressBars (snd wg)) = ["a"%string])
    by (vm_compute; reflexivity).
  assert (N : NoDup (JSMap.keys (progressBars (snd wg)))).
  { rewrite K. constructor; [intros []|constructor]. }
  split; [exact N|]. split; [vm_compute; reflexivity|].
  destruct (manager_clear (fst wg) (snd wg) N) as (_ & _ & H).
  rewrite H. vm_compute. reflexivity.
Defined.

(** ** The registry of renderers *)

Section Registry.
Context {R : Type}.
Implicit Types (mr : MultiRenderer R) (l : list (RegistryOp R)).

Lemma map_keys_nodup_set k (v : R) (m : JSMap.t R) :
  NoDup (JSMap.keys m) -> NoDup (JSMap.keys (JSMap.set k v m)).
Proof.
  intros H. rewrite map_keys_set. destruct (JSMap.has k m) eqn:E; [exact H|].
  apply NoDup_app; [exact H | constructor; [intros [] | constructor] |].
  intros x Hx [<-|[]]. apply map_has_false in E. unfold JSMap.keys in Hx.
  apply in_map_iff in Hx. destruct Hx as ([k0 v0] & Hk & Hi). cbn in Hk. subst k0.
  unfold JSMap.get in E. destruct (find _ m) eqn:F; [discriminate|].
  pose proof (find_none _ _ F _ Hi) as F'. cbn in F'.
  rewrite String.eqb_refl in F'. discriminate.
Qed.

Lemma map_keys_nodup_delete k (m : JSMap.t R) :
  NoDup (JSMap.keys m) -> NoDup (JSMap.keys (snd (JSMap.delete k m))).
Proof. intros H. rewrite map_keys_delete. apply NoDup_filter, H. Qed.

Lemma map_size_set k (v : R) (m : JSMap.t R) :
  JSMap.size (JSMap.set k v m)
  = (if JSMap.has k m then JSMap.size m else S (JSMap.size m)).
Proof.
  unfold JSMap.size, JSMap.set. destruct (JSMap.has k m).
  - apply length_map.
  - rewrite length_app. cbn. lia.
Qed.

Lemma map_size_delete k (m : JSMap.t R) :
  NoDup (JSMap.keys m) ->
  JSMap.size (snd (JSMap.delete k m))
  = (if JSMap.has k m then pred (JSMap.size m) else JSMap.size m)
  /\ (JSMap.has k m = true -> (0 < JSMap.size m)%nat).
Proof.
  unfold JSMap.size, JSMap.delete, JSMap.has, JSMap.keys. cbn [snd].
  induction m as [|[k0 v0] m IH]; intros Hnd; cbn.
  - split; [reflexivity | discriminate].
  - inversion Hnd as [|? ? Hni Hnd']; subst. destruct (IH Hnd') as [IH1 IH2].
    split; [|intros _; lia].
    destruct (String.eqb k0 k) eqn:E; cbn.
    + apply String.eqb_eq in E. subst k0.
      destruct (existsb (fun kv => String.eqb (fst kv) k) m) eqn:Ex.
      * exfalso. apply existsb_exists in Ex. destruct Ex as ([k1 v1] & Hi & Hk).
        cbn in Hk. apply String.eqb_eq in Hk. subst k1. apply Hni.
        change k with (fst (k, v1)). apply in_map. exact Hi.
      * rewrite IH1. reflexivity.
    + rewrite IH1. destruct (existsb _ m); [|reflexivity].
      specialize (IH2 eq_refl). lia.
Qed.

Lemma registry_invariant l :
  forall mr,
    NoDup (JSMap.keys (renderers mr)) ->
    NoDup (JSMap.keys (renderers (run_registry_ops l mr)))
    /\ (lineCount (run_registry_ops l mr)
          - Z.of_nat (JSMap.size (renderers (run_registry_ops l mr)))
        = lineCount mr - Z.of_nat (JSMap.size (renderers mr))
          + Z.of_nat (readds l mr))%Z.
Proof.
  induction l as [|o l IH]; intros mr Hnd.
  - cbn. split; [exact Hnd | lia].
  - change (run_registry_ops (o :: l) mr)
      with (run_registry_ops l (run_registry_op mr o)).
    cbn [readds].
    assert (Hstep : NoDup (JSMap.keys (renderers (run_registry_op mr o)))
                    /\ (lineCount (run_registry_op mr o)
                          - Z.of_nat (JSMap.size (renderers (run_registry_op mr o)))
                        = lineCount mr - Z.of_nat (JSMap.size (renderers mr))
                          + Z.of_nat (match o with
                                      | AddProgress id _ =>
                                          if JSMap.has id (renderers mr)
                                          then 1%nat else 0%nat
                                      | RemoveProgress _ => 0%nat
                                      end))%Z).
    { destruct o as [id r|id]; cbn [run_registry_op].
      - unfold MultiProgressRenderer.addProgress. cbn [renderers lineCount].
        split; [apply map_keys_nodup_set, Hnd|].
        rewrite map_size_set. destruct (JSMap.has id (renderers mr)); lia.
      - unfold MultiProgressRenderer.removeProgress.
        destruct (map_size_delete id (renderers mr) Hnd) as [Hs Hp].
        pose proof (map_keys_nodup_delete id (renderers mr) Hnd) as Hd.
        unfold JSMap.delete in *. cbn [snd] in *.
        destruct (JSMap.has id (renderers mr)); cbn [renderers lineCount].
        + split; [exact Hd|]. rewrite Hs. specialize (Hp eq_refl).
          unfold JSMap.size in *. lia.
        + split; [exact Hd|]. rewrite Hs. lia. }
    destruct Hstep as [Hnd1 Hs1]. destruct (IH _ Hnd1) as [Hnd2 Hs2].
    split; [exact Hnd2|]. rewrite Hs2, Hs1. lia.
Qed.
End Registry.

(** [lineCount] of a multi renderer counts [addProgress] calls, not
    registered renderers: after any calls of [addProgress] and
    [removeProgress] on a new multi renderer it is the number of registered
    renderers plus the number of [addProgress] calls that named an id
    registered at the time.  So it is never below the number of renderers. *)
Theorem lineCount_counts_adds {R : Type} (l : list (RegistryOp R)) :
  let mr := run_registry_ops l MultiProgressRenderer.new in
  (lineCount mr
   = Z.of_nat (JSMap.size (renderers mr))
     + Z.of_nat (readds l MultiProgressRenderer.new))%Z
  /\ (Z.of_nat (JSMap.size (renderers mr)) <= lineCount mr)%Z
  /\ NoDup (JSMap.keys (renderers mr)).
Proof.
  cbv zeta.
  destruct (registry_invariant l (@MultiProgressRenderer.new R)) as [Hnd H].
  { constructor. }
  cbn [MultiProgressRenderer.new renderers lineCount JSMap.size Datatypes.length]
    in H.
  split; [lia|]. split; [lia | exact Hnd].
Qed.

(** Registering a renderer twice under one id and removing it once leaves one
    line counted with no renderer registered. *)
Example lineCount_after_readd :
  let mr := run_registry_ops
              [AddProgress "a" 1%nat; AddProgress "a" 2%nat; RemoveProgress "a"]
              MultiProgressRenderer.new in
  renderers mr = [] /\ lineCount mr = 1%Z.
Proof. split; reflexivity. Qed.

(** ** Formatting of times *)

Lemma floor_bounds x : inject_Z (Qfloor x) <= x /\ x < inject_Z (Qfloor x) + 1.
Proof.
  split; [apply Qfloor_le|].
  pose proof (Qlt_floor x) as H. rewrite inject_Z_plus in H. exact H.
Qed.

Lemma round_bounds x :
  Math.round x - (1 # 2) <= x /\ x < Math.round x + (1 # 2).
Proof.
  unfold Math.round. destruct (floor_bounds (x + (1 # 2))) as [H1 H2].
  split; lra.
Qed.

Lemma inject_Z_le_inv a b : inject_Z a < inject_Z b + 1 -> inject_Z a <= inject_Z b.
Proof.
  intros H. rewrite <- Zle_Qle.
  change 1 with (inject_Z 1) in H. rewrite <- inject_Z_plus in H.
  rewrite <- Zlt_Qlt in H. lia.
Qed.

Lemma rem_nonneg a b :
  0 <= a -> 0 < b ->
  JS.rem a b == a - b * Math.floor (a / b)
  /\ 0 <= JS.rem a b /\ JS.rem a b < b
  /\ b * Math.floor (a / b) <= a.
Proof.
  intros Ha Hb. unfold JS.rem, JS.trunc, Math.floor.
  assert (Hq : 0 <= a / b).
  { apply Qle_shift_div_l; [exact Hb | lra]. }
  assert (E : Qle_bool 0 (a / b) = true) by (apply Qle_bool_iff, Hq).
  rewrite E. destruct (floor_bounds (a / b)) as [H1 H2].
  assert (Hab : a == b * (a / b)) by (field; lra).
  split; [reflexivity|].
  assert (X1 : b * inject_Z (Qfloor (a / b)) <= b * (a / b)).
  { apply Qmult_le_l; assumption. }
  assert (X2 : b * (a / b) < b * (inject_Z (Qfloor (a / b)) + 1)).
  { apply Qmult_lt_l; assumption. }
  repeat split; lra.
Qed.

Lemma floor_ge (k : Z) x : inject_Z k <= x -> inject_Z k <= Math.floor x.
Proof.
  intros H. unfold Math.floor. rewrite <- Zle_Qle.
  rewrite <- (Qfloor_Z k). apply Qfloor_resp_le, H.
Qed.

Lemma floor_lt (k : Z) x : x < inject_Z k -> Math.floor x <= inject_Z (k - 1).
Proof.
  intros H. unfold Math.floor. rewrite <- Zle_Qle.
  assert (Hlt : inject_Z (Qfloor x) < inject_Z k).
  { apply Qle_lt_trans with x; [apply Qfloor_le | exact H]. }
  rewrite <- Zlt_Qlt in Hlt. lia.
Qed.

(** [formatTime] on the rationals.  Below one hour the text is exact to half
    a second; from one hour on it drops the seconds and is less than a minute
    short.  The minutes field stays within 0..59, but the seconds are rounded
    after the minutes are taken, so the seconds field ranges over 0..60. *)
Theorem formatTime_accuracy (seconds : Q) :
  let t := formatTime seconds in
  (seconds < 3600 ->
   seconds_of t - (1 # 2) <= seconds /\ seconds < seconds_of t + (1 # 2))
  /\ (3600 <= seconds -> seconds_of t <= seconds /\ seconds < seconds_of t + 60)
  /\ match t with
     | Seconds s => s <= 60
     | MinutesSeconds m s => 1 <= m /\ m <= 59 /\ 0 <= s /\ s <= 60
     | HoursMinutes h m => 1 <= h /\ 0 <= m /\ m <= 59
     end.
Proof.
  cbv zeta. unfold formatTime.
  destruct (JS.lt seconds 60) eqn:E1.
  { apply JS_lt_iff in E1. cbn [seconds_of].
    pose proof (round_bounds seconds) as Hr.
    split; [intros _; exact Hr|]. split; [intros H; lra|].
    change 60 with (inject_Z 60). apply round_le_Z.
    change (inject_Z 60) with 60. lra. }
  apply JS_lt_false_iff in E1.
  assert (H0 : 0 <= seconds) by lra.
  destruct (JS.lt seconds 3600) eqn:E2.
  - apply JS_lt_iff in E2. cbn [seconds_of].
    destruct (rem_nonneg seconds 60 H0) as (Hr & Hr0 & Hr1 & _); [lra|].
    pose proof (round_bounds (JS.rem seconds 60)) as Hb.
    split; [intros _; lra|]. split; [intros H; lra|].
    split; [|split; [|split]].
    + change 1 with (inject_Z 1). apply floor_ge.
      change (inject_Z 1) with 1. apply Qle_shift_div_l; lra.
    + change 59 with (inject_Z (60 - 1)). apply floor_lt.
      change (inject_Z 60) with 60. apply Qlt_shift_div_r; lra.
    + apply round_nonneg, Hr0.
    + change 60 with (inject_Z 60). apply round_le_Z.
      change (inject_Z 60) with 60. lra.
  - apply JS_lt_false_iff in E2. cbn [seconds_of].
    destruct (rem_nonneg seconds 3600 H0) as (Hr & Hr0 & Hr1 & _); [lra|].
    set (r := JS.rem seconds 3600) in *.
    assert (Hq : r == 60 * (r / 60)) by (field; lra).
    destruct (floor_bounds (r / 60)) as [F1 F2]. fold (Math.floor (r / 60)) in F1, F2.
    split; [intros H; lra|]. split; [intros _; split; lra|].
    split; [|split].
    + change 1 with (inject_Z 1). apply floor_ge.
      change (inject_Z 1) with 1. apply Qle_shift_div_l; lra.
    + change 0 with (inject_Z 0). apply floor_ge.
      change (inject_Z 0) with 0. apply Qle_shift_div_l; lra.
    + change 59 with (inject_Z (60 - 1)). apply floor_lt.
      change (inject_Z 60) with 60. apply Qlt_shift_div_r; lra.
Qed.

Lemma formatTime_accuracy_witness :
  seconds_of (formatTime 90) - (1 # 2) <= 90 /\ 90 < seconds_of (formatTime 90) + (1 # 2).
Proof.
  apply (formatTime_accuracy 90). reflexivity.
Defined.

(** 119.5 seconds are shown as one minute and sixty seconds, 59.5 seconds as
    sixty seconds. *)
Example formatTime_sixty_seconds :
  formatTime (239 # 2) = MinutesSeconds 1 60 /\ formatTime (119 # 2) = Seconds 60.
Proof. split; reflexivity. Qed.
